(** * A2plus technical book (a2p_techbook.py): model and properties

    The command [A2PCreateTechBook] collects the TechDraw pages of an
    assembly and of the documents it references, stamps the editable
    texts of every page template and merges the exported pages into one
    PDF file.

    The Python code is embedded as functions of a state-and-exception
    monad over a [World] that holds everything the command mutates: the
    editable texts of the page templates, the visibility of the pages,
    the files written, and the chronological trace of the calls made to
    the host application.  What the command only reads (documents on
    disk, the objects of a document, the answers of the user, the Python
    library functions it calls) is gathered in the class [Host].

    Python values read from a spreadsheet cell are integers or strings
    ([pyval]); floating point cells are not modelled.  The checks that the
    host performs on its own properties when they are assigned are not
    part of the program and are not modelled either. *)

From Stdlib Require Import Ascii String.
From stdpp Require Import base gmap list strings pretty.

(** ** Python values and dictionaries *)

Inductive pyval :=
  | PInt (z : Z)
  | PStr (s : string).

#[global] Instance pyval_eq_dec : EqDecision pyval.
Proof. solve_decision. Defined.

#[global] Instance pyval_countable : Countable pyval.
Proof.
  refine (inj_countable'
            (fun v => match v with PInt z => inl z | PStr s => inr s end)
            (fun x => match x with inl z => PInt z | inr s => PStr s end) _).
  by intros [].
Defined.

(** A Python [dict]; none of the loops of the program depends on the
    order of the items, every key being visited once. *)
Abbreviation dict := (gmap pyval pyval).

Inductive exn :=
  | OSError
  | ValueError
  | KeyError
  | TypeError
  | IndexError
  | RecursionError
  | OtherError (code : nat).

#[global] Instance exn_eq_dec : EqDecision exn.
Proof. solve_decision. Defined.

Inductive outcome (A : Type) :=
  | Ok (a : A)
  | Raise (e : exn).
Arguments Ok {A} a.
Arguments Raise {A} e.

(** [str(v)], as used by [str.format] on [{}]. *)
Definition py_str (v : pyval) : string :=
  match v with
  | PInt z => pretty z
  | PStr s => s
  end.

(** [a + b] on the values of the model. *)
Definition py_add (a b : pyval) : outcome pyval :=
  match a, b with
  | PInt x, PInt y => Ok (PInt (x + y))
  | PStr x, PStr y => Ok (PStr (x +:+ y))
  | _, _ => Raise TypeError
  end.

(** [a - b]. *)
Definition py_sub (a b : pyval) : outcome pyval :=
  match a, b with
  | PInt x, PInt y => Ok (PInt (x - y))
  | _, _ => Raise TypeError
  end.

(** [d[k]] in an expression. *)
Definition dict_getitem (d : dict) (k : pyval) : outcome pyval :=
  match d !! k with
  | Some v => Ok v
  | None => Raise KeyError
  end.

(** [d.items()], each key once. *)
Definition dict_items (d : dict) : list (pyval * pyval) := map_to_list d.

(** ** Strings *)

(** [s.endswith(suffix)] *)
Fixpoint endswith (s suffix : string) : bool :=
  if String.eqb s suffix then true
  else match s with
       | EmptyString => false
       | String _ s' => endswith s' suffix
       end.

(** [s[-1]], [None] standing for the [IndexError] of the empty string. *)
Fixpoint str_last (s : string) : option Ascii.ascii :=
  match s with
  | EmptyString => None
  | String c EmptyString => Some c
  | String _ s' => str_last s'
  end.

(** [s[:-1]] *)
Fixpoint str_init (s : string) : string :=
  match s with
  | EmptyString => EmptyString
  | String _ EmptyString => EmptyString
  | String c s' => String c (str_init s')
  end.

(** ** Objects of the host application *)

(** Documents and draw pages are objects compared by identity. *)
Abbreviation Doc := nat (only parsing).
Abbreviation Page := nat (only parsing).

(** A spreadsheet: the cells that hold a value, by address. *)
Abbreviation Sheet := (gmap string pyval).

(** An entry of [FCdocumentReader.getA2pObjects()]. *)
Record A2pObject := {
  getA2pSource : string;
  isSubassembly : bool;
}.

Record datetime := {
  dt_year : Z; dt_month : Z; dt_day : Z;
  dt_hour : Z; dt_minute : Z; dt_second : Z;
}.

(** A page of a PDF file: the draw page it renders and the editable
    texts of its template when it was exported. *)
Abbreviation rendered := (nat * dict)%type.
Abbreviation pdf := (list rendered).

(** What the command reads from its environment.  The functions of
    a2plib, of a2p_simpleXMLreader and of the Python library are taken as
    they are called. *)
Class Host := {
  (* FreeCAD *)
  activeDocument : option Doc;
  FileName : Doc -> string;
  LastModifiedDate : Doc -> string;
  openDocument : string -> outcome Doc;
  findDrawPages : Doc -> list Page;
  findSheets : Doc -> string -> list Sheet;
  getTempFileName : Doc -> string -> string;
  pyfloat : Type;
  Scale : Page -> pyfloat;
  (* a2plib, a2p_simpleXMLreader *)
  getA2pObjects : string -> list A2pObject;
  findSourceFileInProject : string -> string -> string;
  getNativeFileManagerUsage : bool;
  PYVERSION : Z;
  (* Python library *)
  os_path_split : string -> string * string;
  path_join : string -> string -> string;
  int_of_str : string -> option Z;
  str_of_float : pyfloat -> string;
  fromisoformat : string -> option datetime;
  strftime : datetime -> string -> string;
  (* [open(name, "wb")] returns a file; it raises [OSError] otherwise *)
  writable : string -> bool;
  (* the user *)
  answer_yes : bool;
  dialog_exec : bool;
  selectedFiles : list string;
}.

(** ** The world and its monad *)

Inductive event :=
  | EvMessageBox (title text : string)
  | EvFileDialog (directory : string) (dontUseNativeDialog : bool)
  | EvFindSheets (doc : Doc) (label : string)
  | EvOpenDocument (filename : string)
  | EvPrint (line : string)
  | EvReadA2p (filename : string)
  | EvSetEditableTexts (page : Page)
  | EvRecompute (page : Page)
  | EvDoubleClicked (page : Page)
  | EvExportPdf (page : Page) (filename : string)
  | EvMergerAppend (filename : string)
  | EvWriteFile (filename : string).

#[global] Instance event_eq_dec : EqDecision event.
Proof. solve_decision. Defined.

Record World := mkWorld {
  EditableTexts : gmap Page dict;
  Visibility : gset Page;
  files : gmap string pdf;
  trace : list event;
}.

Definition M (A : Type) : Type := World -> outcome A * World.

Definition ret {A} (a : A) : M A := fun w => (Ok a, w).

Definition raise {A} (e : exn) : M A := fun w => (Raise e, w).

Definition bind {A B} (m : M A) (k : A -> M B) : M B :=
  fun w =>
    match m w with
    | (Ok a, w') => k a w'
    | (Raise e, w') => (Raise e, w')
    end.

Notation "'let*' x := m 'in' k" := (bind m (fun x => k))
  (at level 10, x pattern, m at level 100, k at level 200).
Notation "m ;; k" := (bind m (fun _ => k))
  (at level 100, k at level 200, right associativity).

(** A pure computation that may raise. *)
Definition lift {A} (o : outcome A) : M A := fun w => (o, w).

Definition emit (e : event) : M unit :=
  fun w => (Ok tt, mkWorld (EditableTexts w) (Visibility w) (files w)
                           (trace w ++ [e])).

(** [page.Template.EditableTexts], read: a copy of the texts. *)
Definition get_EditableTexts (page : Page) : M dict :=
  fun w => (Ok (EditableTexts w !!! page), w).

(** [page.Template.EditableTexts = texts] *)
Definition set_EditableTexts (page : Page) (texts : dict) : M unit :=
  fun w => (Ok tt, mkWorld (<[page := texts]> (EditableTexts w))
                           (Visibility w) (files w)
                           (trace w ++ [EvSetEditableTexts page])).

(** [page.recompute()] *)
Definition recompute (page : Page) : M unit := emit (EvRecompute page).

(** [page.Visibility] *)
Definition get_Visibility (page : Page) : M bool :=
  fun w => (Ok (bool_decide (page ∈ Visibility w)), w).

(** [page.ViewObject.doubleClicked()]: the page is shown. *)
Definition doubleClicked (page : Page) : M unit :=
  fun w => (Ok tt, mkWorld (EditableTexts w) ({[page]} ∪ Visibility w)
                           (files w) (trace w ++ [EvDoubleClicked page])).

(** [TechDrawGui.exportPageAsPdf(page, pdf_file)]: the file holds the
    page as it is now. *)
Definition exportPageAsPdf (page : Page) (pdf_file : string) : M unit :=
  fun w => (Ok tt, mkWorld (EditableTexts w) (Visibility w)
                           (<[pdf_file := [(page, EditableTexts w !!! page)]]>
                              (files w))
                           (trace w ++ [EvExportPdf page pdf_file])).

(** [PdfFileMerger]: the pages appended so far.  [append] reads the
    file it is given when it is called. *)
Abbreviation PdfFileMerger := (list rendered).

Definition merger_append (pdf_merger : PdfFileMerger) (pdf_file : string)
  : M PdfFileMerger :=
  fun w =>
    let w' := mkWorld (EditableTexts w) (Visibility w) (files w)
                      (trace w ++ [EvMergerAppend pdf_file]) in
    match files w !! pdf_file with
    | Some content => (Ok (pdf_merger ++ content), w')
    | None => (Raise OSError, w')
    end.

(** [with open(filename, "wb") as output_file:
         pdf_merger.write(output_file)]
    [open] raises [OSError] when the file cannot be opened for writing,
    and nothing is written. *)
Definition merger_write `{Host} (pdf_merger : PdfFileMerger)
    (filename : string) : M unit :=
  fun w =>
    if writable filename then
      (Ok tt, mkWorld (EditableTexts w) (Visibility w)
                      (<[filename := pdf_merger]> (files w))
                      (trace w ++ [EvWriteFile filename]))
    else (Raise OSError, w).

(** ** The command *)

Definition STANDARDS_FIELDS_NAME : list pyval :=
  [PStr "Stating_Page"; PStr "Nb_Page_After"; PStr "Date_Field";
   PStr "Scale_Field"; PStr "Sheet_Field"].

Definition INFO_SPREADSHEET_LABEL : string := "#TECHINFO#".

(** ['A{}'.format(idx)] *)
Definition cell (column : string) (idx : nat) : string :=
  column +:+ pretty idx.

(** [sheet.get(address)]; [None] is the [ValueError] of an empty cell. *)
Definition sheet_get (sheet : Sheet) (address : string) : option pyval :=
  sheet !! address.

(** The [while run] loop of [_getBookParameters]: rows are read from
    [idx] on until a cell of column A or B is empty.  [None] when the
    bound on the number of iterations is reached. *)
Fixpoint read_rows (fuel : nat) (sheet : Sheet) (idx : nat) (temp_dict : dict)
  : option dict :=
  match fuel with
  | 0 => None
  | S fuel =>
      match sheet_get sheet (cell "A" idx) with
      | None => Some temp_dict
      | Some key =>
          match sheet_get sheet (cell "B" idx) with
          | None => Some temp_dict
          | Some val =>
              read_rows fuel sheet (S idx) (<[key := val]> temp_dict)
          end
      end
  end.

Section Program.
Context `{Host}.

(** [int(v)]; [None] is [ValueError]. *)
Definition py_int (v : pyval) : option Z :=
  match v with
  | PInt z => Some z
  | PStr s => int_of_str s
  end.

Definition _getUserParameters (working_dir : string)
  : M (bool * option string) :=
  emit (EvMessageBox "TECHBOOK"
    "Do you want to iterate recursively over all included subassemblies?");;
  let assembly_recursion := answer_yes in
  emit (EvFileDialog working_dir
          (if getNativeFileManagerUsage then false else true));;
  if dialog_exec then
    let* filename :=
      lift (match selectedFiles with
            | f :: _ => Ok (if (PYVERSION <? 3)%Z then f else f)
            | [] => Raise IndexError
            end) in
    let filename :=
      if negb (endswith filename ".pdf") then filename +:+ ".pdf"
      else filename in
    ret (assembly_recursion, Some filename)
  else
    emit (EvMessageBox "Technical book generation aborted!"
            "You have to give a file to save the book.");;
    ret (assembly_recursion, None).

(** One turn of the loop [for k, v in temp_dict.items()]. *)
Definition fill_step (acc : dict * dict) (kv : pyval * pyval)
  : outcome (dict * dict) :=
  let '(standard_fields, editable_fields) := acc in
  let '(k, v) := kv in
  if decide (k ∈ STANDARDS_FIELDS_NAME) then
    if decide (k = PStr "Stating_Page" ∨ k = PStr "Nb_Page_After") then
      match py_int v with
      | Some z => Ok (<[k := PInt z]> standard_fields, editable_fields)
      | None =>
          match dict_getitem standard_fields k with
          | Ok v' => Ok (<[k := v']> standard_fields, editable_fields)
          | Raise e => Raise e
          end
      end
    else Ok (<[k := v]> standard_fields, editable_fields)
  else Ok (standard_fields, <[k := v]> editable_fields).

Fixpoint fill (items : list (pyval * pyval)) (acc : dict * dict)
  : outcome (dict * dict) :=
  match items with
  | [] => Ok acc
  | kv :: items =>
      match fill_step acc kv with
      | Ok acc => fill items acc
      | Raise e => Raise e
      end
  end.

(** The two dictionaries are cleared and filled in place: they are
    taken as arguments and returned.  The loop over the rows is given
    one turn more than the sheet has cells, which it never uses up
    ([read_rows_total]). *)
Definition _getBookParameters (doc : Doc)
    (standard_fields editable_fields : dict) : M (dict * dict) :=
  let standard_fields : dict := ∅ in
  let editable_fields : dict := ∅ in
  let standard_fields := <[PStr "Stating_Page" := PInt 1]> standard_fields in
  let standard_fields := <[PStr "Nb_Page_After" := PInt 0]> standard_fields in
  let standard_fields :=
    <[PStr "Date_Field" := PStr "FC-DATE"]> standard_fields in
  let standard_fields :=
    <[PStr "Scale_Field" := PStr "FC-SC"]> standard_fields in
  let standard_fields :=
    <[PStr "Sheet_Field" := PStr "FC-SH"]> standard_fields in
  emit (EvFindSheets doc INFO_SPREADSHEET_LABEL);;
  match findSheets doc INFO_SPREADSHEET_LABEL with
  | [] => ret (standard_fields, editable_fields)
  | sheet0 :: _ =>
      match read_rows (S (size sheet0)) sheet0 1 ∅ with
      | None => raise (OtherError 0)
      | Some temp_dict =>
          lift (fill (dict_items temp_dict)
                     (standard_fields, editable_fields))
      end
  end.

(** [treated] is a list mutated in place: it is returned with the
    pages. *)
Definition _getDocumentTechDraw (full_filename : string)
    (treated : list Doc) : M (list (Doc * Page) * list Doc) :=
  emit (EvOpenDocument full_filename);;
  match openDocument full_filename with
  | Raise OSError =>
      emit (EvPrint ("File " +:+ full_filename +:+ " could not be opened !"));;
      ret ([], treated)
  | Raise e => raise e
  | Ok doc =>
      if decide (doc ∈ treated) then ret ([], treated)
      else
        let treated := treated ++ [doc] in
        let td := findDrawPages doc in
        let ret_val :=
          match td with
          | _ :: _ => (fun i => (doc, i)) <$> td
          | [] => []
          end in
        ret (ret_val, treated)
  end.

(** The loop [for ob in reader.getA2pObjects()], [rec] being the
    function itself one call deeper. *)
Fixpoint walk_objects
    (rec : string -> string -> list Doc -> M (list (Doc * Page) * list Doc))
    (file_path : string) (recursive : bool) (obs : list A2pObject)
    (ret_val : list (Doc * Page)) (treated : list Doc)
  : M (list (Doc * Page) * list Doc) :=
  match obs with
  | [] => ret (ret_val, treated)
  | ob :: obs =>
      let new_full_file :=
        findSourceFileInProject (getA2pSource ob) file_path in
      let '(new_full_path, new_file_name) := os_path_split new_full_file in
      let* r :=
        (if recursive && isSubassembly ob
         then rec new_file_name new_full_path treated
         else _getDocumentTechDraw new_full_file treated) in
      walk_objects rec file_path recursive obs (ret_val ++ r.1) r.2
  end.

(** [depth] bounds the nesting of the calls, as the recursion limit of
    the interpreter does. *)
Fixpoint _createTechDrawDocumentList (depth : nat)
    (file_name file_path : string) (treated : list Doc) (recursive : bool)
  : M (list (Doc * Page) * list Doc) :=
  match depth with
  | 0 => raise RecursionError
  | S depth =>
      let full_filename := path_join file_path file_name in
      let* r := _getDocumentTechDraw full_filename treated in
      emit (EvReadA2p full_filename);;
      walk_objects
        (fun name path treated =>
           _createTechDrawDocumentList depth name path treated recursive)
        file_path recursive (getA2pObjects full_filename) r.1 r.2
  end.

(** The date shown for [doc.LastModifiedDate]. *)
Definition parse_modified (last_modified : string) : outcome datetime :=
  match str_last last_modified with
  | None => Raise IndexError
  | Some c =>
      let iso :=
        if Ascii.eqb c "Z"%char then str_init last_modified else last_modified in
      match fromisoformat iso with
      | Some modified => Ok modified
      | None => Raise ValueError
      end
  end.

(** One turn of [for k, v in templates_data.items()]. *)
Definition substitute (texts : dict) (kv : pyval * pyval) : dict :=
  if decide (is_Some (texts !! kv.1)) then <[kv.1 := kv.2]> texts
  else texts.

Definition _computeEditableFields (doc : Doc) (page : Page)
    (templates_data : dict) (date_field scale_field : pyval) : M unit :=
  let* texts := get_EditableTexts page in
  let* modified := lift (parse_modified (LastModifiedDate doc)) in
  let texts := <[date_field := PStr (strftime modified "%d/%m/%Y")]> texts in
  let texts := <[scale_field := PStr (str_of_float (Scale page))]> texts in
  let texts := foldl substitute texts (dict_items templates_data) in
  set_EditableTexts page texts;;
  recompute page.

(** The loop [for doc, page in doc_list] of [_computeTechDraw]. *)
Fixpoint stamp_pages (doc_list : list (Doc * Page)) (templates_data : dict)
    (sheet_field nb_page date_field scale_field page_edited : pyval)
  : M unit :=
  match doc_list with
  | [] => ret tt
  | (doc, page) :: doc_list =>
      let templates_data :=
        <[sheet_field :=
            PStr (py_str page_edited +:+ " / " +:+ py_str nb_page)]>
          templates_data in
      _computeEditableFields doc page templates_data date_field scale_field;;
      let* page_edited := lift (py_add page_edited (PInt 1)) in
      stamp_pages doc_list templates_data sheet_field nb_page date_field
        scale_field page_edited
  end.

Definition _computeTechDraw (doc_list : list (Doc * Page))
    (standard_fields editable_fields : dict) : M unit :=
  let* stating_page := lift (dict_getitem standard_fields (PStr "Stating_Page")) in
  let* s1 := lift (py_add stating_page (PInt (Z.of_nat (length doc_list)))) in
  let* after := lift (dict_getitem standard_fields (PStr "Nb_Page_After")) in
  let* s2 := lift (py_add s1 after) in
  let* nb_page := lift (py_sub s2 (PInt 1)) in
  let* date_field := lift (dict_getitem standard_fields (PStr "Date_Field")) in
  let* scale_field := lift (dict_getitem standard_fields (PStr "Scale_Field")) in
  let* sheet_field := lift (dict_getitem standard_fields (PStr "Sheet_Field")) in
  let templates_data := editable_fields in
  let* page_edited := lift (dict_getitem standard_fields (PStr "Stating_Page")) in
  stamp_pages doc_list templates_data sheet_field nb_page date_field
    scale_field page_edited.

(** The loop [for doc, page in doc_list] of [_createPDFFile]. *)
Fixpoint export_pages (base_doc : Doc) (doc_list : list (Doc * Page))
    (nb : nat) (pdf_merger : PdfFileMerger) : M PdfFileMerger :=
  match doc_list with
  | [] => ret pdf_merger
  | (doc, page) :: doc_list =>
      let pdf_file :=
        getTempFileName base_doc ("Page" +:+ pretty nb) +:+ ".pdf" in
      let* visible := get_Visibility page in
      (if negb visible then doubleClicked page else ret tt);;
      exportPageAsPdf page pdf_file;;
      let* pdf_merger := merger_append pdf_merger pdf_file in
      export_pages base_doc doc_list (nb + 1) pdf_merger
  end.

Definition _createPDFFile (base_doc : Doc) (doc_list : list (Doc * Page))
    (filename : string) : M unit :=
  let nb := 1 in
  let pdf_merger : PdfFileMerger := [] in
  let* pdf_merger := export_pages base_doc doc_list nb pdf_merger in
  merger_write pdf_merger filename.

Definition Activated (depth : nat) : M unit :=
  match activeDocument with
  | None =>
      emit (EvMessageBox "No active document found!"
              "You have to open a FCStd file first.")
  | Some doc =>
      let complete_file_path := FileName doc in
      let '(path, doc_filename) := os_path_split complete_file_path in
      let* r := _getUserParameters path in
      let '(recursion, filename) := r in
      match filename with
      | None | Some EmptyString => ret tt
      | Some filename =>
          let* params := _getBookParameters doc ∅ ∅ in
          let '(standard_fields, editable_fields) := params in
          let* walked :=
            _createTechDrawDocumentList depth doc_filename path [] recursion in
          let doc_list := walked.1 in
          _computeTechDraw doc_list standard_fields editable_fields;;
          _createPDFFile doc doc_list filename;;
          emit (EvMessageBox "TechBook completed"
                  ("File " +:+ filename +:+ " created."))
      end
  end.

End Program.

(** ** A concrete project

    An assembly [master.FCStd] with two draw pages, a sub-assembly
    [sub.FCStd] with one page, a part without pages that both reference,
    and a reference to a file that does not exist.  The library functions
    are given simple definitions that agree with Python's on the inputs
    used here. *)

Module Demo.

(** The path before the last ["/"] and the name after it. *)
Fixpoint split_last (s : string) : option (string * string) :=
  match s with
  | EmptyString => None
  | String c s' =>
      match split_last s' with
      | Some (h, t) => Some (String c h, t)
      | None => if Ascii.eqb c "/"%char then Some (EmptyString, s') else None
      end
  end.

Definition split_path (s : string) : string * string :=
  match split_last s with
  | Some ht => ht
  | None => (EmptyString, s)
  end.

Definition join_path (path name : string) : string :=
  match name with
  | String c _ =>
      if Ascii.eqb c "/"%char then name else path +:+ "/" +:+ name
  | EmptyString => path +:+ "/"
  end.

Fixpoint digits (s : string) (acc : Z) : option Z :=
  match s with
  | EmptyString => Some acc
  | String c s' =>
      let n := Z.of_nat (nat_of_ascii c) in
      if ((48 <=? n) && (n <=? 57))%Z then digits s' (acc * 10 + (n - 48))%Z
      else None
  end.

Definition parse_int (s : string) : option Z :=
  match s with
  | EmptyString => None
  | String c s' =>
      if Ascii.eqb c "-"%char then
        match s' with
        | EmptyString => None
        | _ => Z.opp <$> digits s' 0
        end
      else digits s 0
  end.

Definition field (start len : nat) (s : string) : option Z :=
  let part := String.substring start len s in
  if String.length part =? len then digits part 0 else None.

(** [YYYY-MM-DD], alone or followed by [THH:MM:SS]. *)
Definition parse_iso (s : string) : option datetime :=
  match field 0 4 s, field 5 2 s, field 8 2 s with
  | Some y, Some m, Some d =>
      if String.length s =? 10 then Some (Build_datetime y m d 0 0 0)
      else if (String.length s =? 19)
              && String.eqb (String.substring 10 1 s) "T" then
        match field 11 2 s, field 14 2 s, field 17 2 s with
        | Some hh, Some mm, Some ss => Some (Build_datetime y m d hh mm ss)
        | _, _, _ => None
        end
      else None
  | _, _, _ => None
  end.

Definition pad (width : nat) (z : Z) : string :=
  let s := pretty z in
  String.concat "" (replicate (width - String.length s) "0") +:+ s.

Definition format_date (modified : datetime) (format : string) : string :=
  if String.eqb format "%d/%m/%Y" then
    pad 2 (dt_day modified) +:+ "/" +:+ pad 2 (dt_month modified)
      +:+ "/" +:+ pad 4 (dt_year modified)
  else format.

(** The directories in which a file can be created. *)
Definition can_write (name : string) : bool :=
  String.prefix "/out/" name || String.prefix "/tmp/" name.

Definition info_sheet : Sheet :=
  list_to_map
    [("A1", PStr "Stating_Page"); ("B1", PInt 3);
     ("A2", PStr "Author"); ("B2", PStr "didier");
     ("A3", PStr "Nb_Page_After"); ("B3", PStr "two");
     ("A4", PStr "Sheet_Field"); ("B4", PStr "SHEET")].

Definition objects_of (filename : string) : list A2pObject :=
  if String.eqb filename "/proj/master.FCStd" then
    [Build_A2pObject "sub.FCStd" true;
     Build_A2pObject "part.FCStd" false;
     Build_A2pObject "missing.FCStd" false]
  else if String.eqb filename "/proj/sub.FCStd" then
    [Build_A2pObject "part.FCStd" false]
  else [].

Definition open_file (filename : string) : outcome Doc :=
  if String.eqb filename "/proj/master.FCStd" then Ok 0
  else if String.eqb filename "/proj/sub.FCStd" then Ok 1
  else if String.eqb filename "/proj/part.FCStd" then Ok 2
  else Raise OSError.

(** [sheet]: the spreadsheet labelled "#TECHINFO#" of the master
    document; [accept]: the save dialog is accepted, with the file
    [selected]. *)
Definition host_of (sheet : Sheet) (accept : bool) (selected : string)
  : Host := {|
  activeDocument := Some 0;
  FileName := fun doc =>
    match doc with
    | 0 => "/proj/master.FCStd"
    | 1 => "/proj/sub.FCStd"
    | _ => "/proj/part.FCStd"
    end;
  LastModifiedDate := fun doc =>
    match doc with
    | 0 => "2021-03-14T10:20:30Z"
    | 1 => "2021-02-01T08:00:00Z"
    | _ => "2020-12-31"
    end;
  openDocument := open_file;
  findDrawPages := fun doc =>
    match doc with
    | 0 => [10; 11]
    | 1 => [20]
    | _ => []
    end;
  findSheets := fun doc label =>
    match doc with
    | 0 => if String.eqb label "#TECHINFO#" then [sheet] else []
    | _ => []
    end;
  getTempFileName := fun _ name => "/tmp/" +:+ name;
  pyfloat := string;
  Scale := fun page => match page with 20 => "0.5" | _ => "1.0" end;
  getA2pObjects := objects_of;
  findSourceFileInProject := fun source path => path +:+ "/" +:+ source;
  getNativeFileManagerUsage := false;
  PYVERSION := 3;
  os_path_split := split_path;
  path_join := join_path;
  int_of_str := parse_int;
  str_of_float := fun s => s;
  fromisoformat := parse_iso;
  strftime := format_date;
  writable := can_write;
  answer_yes := true;
  dialog_exec := accept;
  selectedFiles := [selected];
|}.

Definition host : bool -> string -> Host := host_of info_sheet.

(** A sheet whose second row is empty. *)
Definition gap_sheet : Sheet :=
  list_to_map
    [("A1", PStr "Author"); ("B1", PStr "didier");
     ("A3", PStr "Checker"); ("B3", PStr "anne")].

Definition template (title : string) : dict :=
  list_to_map
    [(PStr "SHEET", PStr ""); (PStr "Author", PStr "");
     (PStr "Title", PStr title)].

Definition world : World := {|
  EditableTexts :=
    list_to_map [(10, template "Top"); (11, template "Side");
                 (20, template "Sub")];
  Visibility := {[10]};
  files := ∅;
  trace := [];
|}.

(** The pages that the walk collects, and the standard fields read
    from [info_sheet]. *)
Definition doc_list : list (Doc * Page) := [(0, 10); (0, 11); (1, 20)].

Definition fields : dict :=
  list_to_map
    [(PStr "Stating_Page", PInt 3); (PStr "Nb_Page_After", PInt 0);
     (PStr "Date_Field", PStr "FC-DATE"); (PStr "Scale_Field", PStr "FC-SC");
     (PStr "Sheet_Field", PStr "SHEET")].

(** A spreadsheet entry named as the date field. *)
Definition user_date : dict := {[PStr "FC-DATE" := PStr "1 April"]}.

Definition modified_master : datetime := Build_datetime 2021 3 14 10 20 30.

End Demo.

(** ** Two assemblies that reference each other

    [a.FCStd] has [b.FCStd] as a sub-assembly and [b.FCStd] has
    [a.FCStd] as a sub-assembly. *)

Module Cycle.

Definition objects_of (filename : string) : list A2pObject :=
  if String.eqb filename "/proj/a.FCStd" then
    [Build_A2pObject "b.FCStd" true]
  else if String.eqb filename "/proj/b.FCStd" then
    [Build_A2pObject "a.FCStd" true]
  else [].

Definition open_file (filename : string) : outcome Doc :=
  if String.eqb filename "/proj/a.FCStd" then Ok 0
  else if String.eqb filename "/proj/b.FCStd" then Ok 1
  else Raise OSError.

Definition host : Host := {|
  activeDocument := Some 0;
  FileName := fun doc =>
    match doc with
    | 0 => "/proj/a.FCStd"
    | _ => "/proj/b.FCStd"
    end;
  LastModifiedDate := fun _ => "2021-03-14T10:20:30Z";
  openDocument := open_file;
  findDrawPages := fun doc => [10 + doc];
  findSheets := fun _ _ => [];
  getTempFileName := fun _ name => "/tmp/" +:+ name;
  pyfloat := string;
  Scale := fun _ => "1.0";
  getA2pObjects := objects_of;
  findSourceFileInProject := fun source path => path +:+ "/" +:+ source;
  getNativeFileManagerUsage := false;
  PYVERSION := 3;
  os_path_split := Demo.split_path;
  path_join := Demo.join_path;
  int_of_str := Demo.parse_int;
  str_of_float := fun s => s;
  fromisoformat := Demo.parse_iso;
  strftime := Demo.format_date;
  writable := Demo.can_write;
  answer_yes := true;
  dialog_exec := true;
  selectedFiles := ["/out/book.pdf"];
|}.

End Cycle.

(** ** Reading the trace *)

(** The five steps of the command. *)
Inductive phase :=
  | UserParameters
  | BookParameters
  | ReferenceWalk
  | TextFields
  | ExportMerge.

#[global] Instance phase_eq_dec : EqDecision phase.
Proof. solve_decision. Defined.

Definition phase_of (e : event) : phase :=
  match e with
  | EvMessageBox _ _ | EvFileDialog _ _ => UserParameters
  | EvFindSheets _ _ => BookParameters
  | EvOpenDocument _ | EvPrint _ | EvReadA2p _ => ReferenceWalk
  | EvSetEditableTexts _ | EvRecompute _ => TextFields
  | EvDoubleClicked _ | EvExportPdf _ _ | EvMergerAppend _
  | EvWriteFile _ => ExportMerge
  end.

Definition exported (e : event) : option (Page * string) :=
  match e with
  | EvExportPdf page pdf_file => Some (page, pdf_file)
  | _ => None
  end.

Definition appended (e : event) : option string :=
  match e with
  | EvMergerAppend pdf_file => Some pdf_file
  | _ => None
  end.

Definition written (e : event) : option string :=
  match e with
  | EvWriteFile filename => Some filename
  | _ => None
  end.

(** The world [w] after the events [evs], nothing else being changed. *)
Definition after (w : World) (evs : list event) : World :=
  mkWorld (EditableTexts w) (Visibility w) (files w) (trace w ++ evs).

(** The temporary file of the page numbered [nb]. *)
Definition page_file `{Host} (base_doc : Doc) (nb : nat) : string :=
  getTempFileName base_doc ("Page" +:+ pretty nb) +:+ ".pdf".

(** The page of a PDF file that shows the draw page of [dp] in the
    world [w]. *)
Definition render (w : World) (dp : Doc * Page) : rendered :=
  (dp.2, EditableTexts w !!! dp.2).

(** [m] changes nothing but the trace, to which it adds events that
    satisfy [P]. *)
Definition emits_only {A} (P : event → Prop) (m : M A) : Prop :=
  ∀ w, ∃ evs, (m w).2 = after w evs ∧ Forall P evs.

(** The entries (document, page) of the pages of [docs], in order. *)
Definition pages_of `{Host} (docs : list Doc) : list (Doc * Page) :=
  docs ≫= λ doc, (λ page, (doc, page)) <$> findDrawPages doc.

Section Visit.
Context `{Host}.

Definition missing_file_report (full_filename : string) : string :=
  "File " +:+ full_filename +:+ " could not be opened !".

(** The call made for the object [ob] of a document of [file_path]. *)
Definition visit
    (rec : string → string → list Doc → M (list (Doc * Page) * list Doc))
    (file_path : string) (recursive : bool) (ob : A2pObject)
    (treated : list Doc) : M (list (Doc * Page) * list Doc) :=
  let new_full_file := findSourceFileInProject (getA2pSource ob) file_path in
  if recursive && isSubassembly ob
  then rec (os_path_split new_full_file).2 (os_path_split new_full_file).1
         treated
  else _getDocumentTechDraw new_full_file treated.

(** What a call of the walk returns: the pages of the documents it has
    added to [treated], which it leaves without duplicates. *)
Definition collects (treated : list Doc) (r : list (Doc * Page) * list Doc)
  : Prop :=
  ∃ new, r.2 = treated ++ new ∧ r.1 = pages_of new
         ∧ (NoDup treated → NoDup (treated ++ new)).

End Visit.

(** ** Reading the spreadsheet *)

(** The values of the standard fields before the spreadsheet is read. *)
Definition default_fields : dict :=
  <[PStr "Sheet_Field" := PStr "FC-SH"]>
    (<[PStr "Scale_Field" := PStr "FC-SC"]>
       (<[PStr "Date_Field" := PStr "FC-DATE"]>
          (<[PStr "Nb_Page_After" := PInt 0]>
             (<[PStr "Stating_Page" := PInt 1]> ∅)))).

(** Both cells of row [idx] hold a value. *)
Definition complete_row (sheet : Sheet) (idx : nat) : Prop :=
  is_Some (sheet !! cell "A" idx) ∧ is_Some (sheet !! cell "B" idx).

(** The rows that the loop reads are the rows 1 to [n]. *)
Definition rows_read (sheet : Sheet) (n : nat) : Prop :=
  (∀ i, 1 ≤ i ≤ n → complete_row sheet i) ∧ ¬ complete_row sheet (S n).

(** Among the rows [first] to [n], the last one whose key is [k] has
    the value [v]. *)
Definition last_row (sheet : Sheet) (first n : nat) (k v : pyval) : Prop :=
  ∃ i, first ≤ i ≤ n
       ∧ sheet !! cell "A" i = Some k ∧ sheet !! cell "B" i = Some v
       ∧ ∀ j, i < j ≤ n → sheet !! cell "A" j ≠ Some k.

(** No row from [first] to [n] has the key [k]. *)
Definition no_row (sheet : Sheet) (first n : nat) (k : pyval) : Prop :=
  ∀ j, first ≤ j ≤ n → sheet !! cell "A" j ≠ Some k.

(** The value stored for the standard field [k] when its row holds [v]
    and the field held [old]. *)
Definition field_value `{Host} (k v old : pyval) : pyval :=
  if decide (k = PStr "Stating_Page" ∨ k = PStr "Nb_Page_After") then
    match py_int v with
    | Some z => PInt z
    | None => old
    end
  else v.

(** ** More of the trace, and variants of the concrete project *)

Definition opened (e : event) : option string :=
  match e with
  | EvOpenDocument filename => Some filename
  | _ => None
  end.

Definition references_read (e : event) : option string :=
  match e with
  | EvReadA2p filename => Some filename
  | _ => None
  end.

Definition double_clicked (e : event) : option Page :=
  match e with
  | EvDoubleClicked page => Some page
  | _ => None
  end.

(** The file that the object [ob] of a document of [file_path] refers
    to. *)
Definition source_file `{Host} (file_path : string) (ob : A2pObject) : string :=
  findSourceFileInProject (getA2pSource ob) file_path.

(** The host [h] with other modification dates. *)
Definition with_dates (h : Host) (dates : Doc -> string) : Host := {|
  activeDocument := @activeDocument h;
  FileName := @FileName h;
  LastModifiedDate := dates;
  openDocument := @openDocument h;
  findDrawPages := @findDrawPages h;
  findSheets := @findSheets h;
  getTempFileName := @getTempFileName h;
  pyfloat := @pyfloat h;
  Scale := @Scale h;
  getA2pObjects := @getA2pObjects h;
  findSourceFileInProject := @findSourceFileInProject h;
  getNativeFileManagerUsage := @getNativeFileManagerUsage h;
  PYVERSION := @PYVERSION h;
  os_path_split := @os_path_split h;
  path_join := @path_join h;
  int_of_str := @int_of_str h;
  str_of_float := @str_of_float h;
  fromisoformat := @fromisoformat h;
  strftime := @strftime h;
  writable := @writable h;
  answer_yes := @answer_yes h;
  dialog_exec := @dialog_exec h;
  selectedFiles := @selectedFiles h;
|}.

Module Variants.

(** The master assembly above its sub-assembly and parts. *)
Definition rank (file_name file_path : string) : nat :=
  if String.eqb (Demo.join_path file_path file_name) "/proj/master.FCStd"
  then 1 else 0.

(** The project when the sub-assembly has no modification date. *)
Definition undated : Host :=
  with_dates (Demo.host true "/out/book")
    (fun doc => match doc with
                | 1 => EmptyString
                | _ => "2021-03-14T10:20:30Z"
                end).


End Variants.

(** * Properties *)

(** ** Strings *)

Lemma endswith_refl (s : string) : endswith s s = true.
Proof. destruct s; cbn [endswith]; by rewrite String.eqb_refl. Qed.

Lemma endswith_app (p suffix : string) : endswith (p +:+ suffix) suffix = true.
Proof.
  induction p as [|c p IH]; [apply endswith_refl|].
  change (String c p +:+ suffix) with (String c (p +:+ suffix)).
  cbn [endswith]. destruct (String.eqb _ _); [done | exact IH].
Qed.

Lemma endswith_spec (s suffix : string) :
  endswith s suffix = true ↔ ∃ p, s = p +:+ suffix.
Proof.
  split.
  - induction s as [|c s IH]; cbn [endswith].
    + destruct (String.eqb_spec EmptyString suffix) as [<-|]; [|done].
      by exists EmptyString.
    + destruct (String.eqb_spec (String c s) suffix) as [<-|_].
      * by exists EmptyString.
      * intros [p ->]%IH. by exists (String c p).
  - intros [p ->]. apply endswith_app.
Qed.

Lemma str_last_app (s : string) (c : Ascii.ascii) :
  str_last (s +:+ String c EmptyString) = Some c.
Proof.
  induction s as [|a s IH]; [done|].
  simpl in *. rewrite IH. by destruct (s +:+ String c EmptyString).
Qed.

Lemma str_init_app (s : string) (c : Ascii.ascii) :
  str_init (s +:+ String c EmptyString) = s.
Proof.
  induction s as [|a s IH]; [done|].
  simpl in *. rewrite IH.
  destruct s; simpl; done.
Qed.

(** ** The questions to the user *)

Section User.
Context `{Host}.

Lemma getUserParameters_run (working_dir f : string) (others : list string)
    (w : World) :
  dialog_exec = true →
  selectedFiles = f :: others →
  _getUserParameters working_dir w
  = (Ok (answer_yes,
         Some (if endswith f ".pdf" then f else f +:+ ".pdf")),
     after w
       [EvMessageBox "TECHBOOK"
          "Do you want to iterate recursively over all included subassemblies?";
        EvFileDialog working_dir
          (if getNativeFileManagerUsage then false else true)]).
Proof.
  intros Hexec Hsel. unfold _getUserParameters, bind, emit, lift, ret, after.
  rewrite Hexec, Hsel. simpl. rewrite <- app_assoc. simpl.
  by destruct (PYVERSION <? 3)%Z, (endswith f ".pdf").
Qed.

(** C9. Whatever file the user selects in the save dialog,
    [_getUserParameters] returns it unchanged when it ends with ".pdf"
    and with ".pdf" appended otherwise; the name returned ends with
    ".pdf". *)
Theorem getUserParameters_pdf_suffix
    (working_dir f : string) (others : list string) (w : World) :
  dialog_exec = true →
  selectedFiles = f :: others →
  ∃ name w',
    _getUserParameters working_dir w = (Ok (answer_yes, Some name), w')
    ∧ name = (if endswith f ".pdf" then f else f +:+ ".pdf")
    ∧ endswith name ".pdf" = true.
Proof.
  intros Hexec Hsel. eexists _, _.
  split; [exact (getUserParameters_run working_dir f others w Hexec Hsel)|].
  split; [done|].
  destruct (endswith f ".pdf") eqn:E; [done|]. apply endswith_app.
Qed.

(** C10. When the save dialog is cancelled, [Activated] returns right
    after the abort message: the only calls made are the question, the
    dialog and that message, and neither the editable texts nor the
    files nor the visibility of the pages have changed. *)
Theorem Activated_cancelled (depth : nat) (doc : Doc) (w : World) :
  activeDocument = Some doc →
  dialog_exec = false →
  Activated depth w =
    (Ok tt,
     after w
       [EvMessageBox "TECHBOOK"
          "Do you want to iterate recursively over all included subassemblies?";
        EvFileDialog (os_path_split (FileName doc)).1
          (if getNativeFileManagerUsage then false else true);
        EvMessageBox "Technical book generation aborted!"
          "You have to give a file to save the book."]).
Proof.
  intros Hdoc Hexec. unfold Activated. rewrite Hdoc.
  destruct (os_path_split (FileName doc)) as [path name]. simpl.
  unfold _getUserParameters, bind, emit, ret, after.
  rewrite Hexec. simpl. by rewrite <- !app_assoc.
Qed.

End User.

Lemma getUserParameters_pdf_suffix_witness :
  @dialog_exec (Demo.host true "/out/book") = true
  ∧ ∃ name w',
      @_getUserParameters (Demo.host true "/out/book") "/proj" Demo.world
        = (Ok (true, Some name), w')
      ∧ name = "/out/book.pdf"
      ∧ endswith name ".pdf" = true.
Proof.
  split; [reflexivity|].
  apply (@getUserParameters_pdf_suffix (Demo.host true "/out/book")
           "/proj" "/out/book" [] Demo.world); reflexivity.
Defined.

Lemma Activated_cancelled_witness :
  @dialog_exec (Demo.host false "") = false
  ∧ (@Activated (Demo.host false "") 5 Demo.world).1 = Ok tt
  ∧ EditableTexts (@Activated (Demo.host false "") 5 Demo.world).2
      = EditableTexts Demo.world
  ∧ files (@Activated (Demo.host false "") 5 Demo.world).2 = ∅.
Proof.
  split; [reflexivity|].
  rewrite (@Activated_cancelled (Demo.host false "") 5 0 Demo.world);
    [|reflexivity|reflexivity].
  repeat split.
Defined.

(** ** The monad *)

Lemma bind_ok {A B} (m : M A) (k : A → M B) (w w' : World) (a : A) :
  m w = (Ok a, w') → bind m k w = k a w'.
Proof. unfold bind. by intros ->. Qed.

Lemma bind_raise {A B} (m : M A) (k : A → M B) (w w' : World) (e : exn) :
  m w = (Raise e, w') → bind m k w = (Raise e, w').
Proof. unfold bind. by intros ->. Qed.

Lemma after_after (w : World) (evs evs' : list event) :
  after (after w evs) evs' = after w (evs ++ evs').
Proof. unfold after. simpl. by rewrite app_assoc. Qed.

Lemma after_nil (w : World) : after w [] = w.
Proof. destruct w. unfold after. simpl. by rewrite app_nil_r. Qed.

(** ** The text fields of a page *)

Lemma foldl_substitute_lookup (l : list (pyval * pyval)) (texts : dict)
    (k : pyval) :
  NoDup l.*1 →
  foldl substitute texts l !! k
  = (λ old, default old ((list_to_map l : dict) !! k)) <$> texts !! k.
Proof.
  revert texts. induction l as [|[k1 v1] l IH]; intros texts Hnd.
  - simpl. rewrite lookup_empty. simpl. by destruct (texts !! k).
  - rewrite fmap_cons in Hnd. apply NoDup_cons in Hnd as [Hk1 Hnd].
    simpl in Hk1. simpl.
    rewrite (IH _ Hnd). unfold substitute. simpl.
    destruct (decide (k = k1)) as [->|Hne].
    + rewrite (lookup_insert_eq (list_to_map l)).
      apply (not_elem_of_list_to_map_1 (M:=gmap pyval)) in Hk1.
      rewrite Hk1. simpl.
      case_decide as Hin.
      * rewrite lookup_insert_eq. destruct Hin as [old ->]. done.
      * apply eq_None_not_Some in Hin. by rewrite Hin.
    + rewrite (lookup_insert_ne (list_to_map l)) by done.
      case_decide; [by rewrite lookup_insert_ne|done].
Qed.

Lemma substitute_items_lookup (templates_data texts : dict) (k : pyval) :
  foldl substitute texts (dict_items templates_data) !! k
  = (λ old, default old (templates_data !! k)) <$> texts !! k.
Proof.
  unfold dict_items.
  rewrite foldl_substitute_lookup by apply NoDup_fst_map_to_list.
  by rewrite list_to_map_to_list.
Qed.

Section Texts.
Context `{Host}.

(** The string given to [fromisoformat] is the date without its final
    "Z". *)
Lemma parse_modified_iso (last_modified iso : string) (modified : datetime) :
  last_modified = iso +:+ "Z"
  ∨ (last_modified = iso ∧ ∃ c, str_last iso = Some c ∧ c ≠ "Z"%char) →
  fromisoformat iso = Some modified →
  parse_modified last_modified = Ok modified.
Proof.
  unfold parse_modified. intros [->|[-> (c & Hc & Hne)]] Hiso.
  - rewrite str_last_app, Ascii.eqb_refl, str_init_app. by rewrite Hiso.
  - rewrite Hc. destruct (Ascii.eqb_spec c "Z"); [done|]. by rewrite Hiso.
Qed.

(** The texts of the page after [_computeEditableFields], key by key. *)
Lemma computeEditableFields_texts (doc : Doc) (page : Page)
    (templates_data : dict) (date_field scale_field : pyval) (w : World)
    (modified : datetime) :
  parse_modified (LastModifiedDate doc) = Ok modified →
  ∃ texts : dict,
    _computeEditableFields doc page templates_data date_field scale_field w
    = (Ok tt,
       mkWorld (<[page := texts]> (EditableTexts w)) (Visibility w) (files w)
         (trace w ++ [EvSetEditableTexts page; EvRecompute page]))
    ∧ ∀ k,
        texts !! k
        = (λ old, default old (templates_data !! k))
            <$> (<[scale_field := PStr (str_of_float (Scale page))]>
                   (<[date_field := PStr (strftime modified "%d/%m/%Y")]>
                      (EditableTexts w !!! page))) !! k.
Proof.
  intros Hdate. eexists. split.
  - unfold _computeEditableFields, bind, get_EditableTexts, lift,
      set_EditableTexts, recompute, emit.
    rewrite Hdate. simpl. by rewrite <- app_assoc.
  - intros k. apply substitute_items_lookup.
Qed.

(** C5 (amended). An entry of [templates_data] (the metadata of the
    spreadsheet and the sheet number) is written into the texts of the
    page when a text with that key exists in the template or when the
    key is the name of the date or scale field, and not otherwise; a
    text whose key is neither the date field, the scale field, the sheet
    field nor a key of the spreadsheet keeps its value, and the texts of
    the other pages are unchanged. *)
Theorem computeEditableFields_frame (doc : Doc) (page : Page)
    (editable_fields : dict) (sheet_field sheet date_field scale_field : pyval)
    (w : World) (modified : datetime) :
  parse_modified (LastModifiedDate doc) = Ok modified →
  ∃ w',
    _computeEditableFields doc page (<[sheet_field := sheet]> editable_fields)
      date_field scale_field w = (Ok tt, w')
    ∧ (∀ k v,
         <[sheet_field := sheet]> editable_fields !! k = Some v →
         (is_Some ((EditableTexts w !!! page) !! k)
          ∨ k = date_field ∨ k = scale_field →
          (EditableTexts w' !!! page) !! k = Some v)
         ∧ ((EditableTexts w !!! page) !! k = None →
            k ≠ date_field → k ≠ scale_field →
            (EditableTexts w' !!! page) !! k = None))
    ∧ (∀ k,
         k ≠ date_field → k ≠ scale_field → k ≠ sheet_field →
         editable_fields !! k = None →
         (EditableTexts w' !!! page) !! k = (EditableTexts w !!! page) !! k)
    ∧ (∀ other, other ≠ page →
         EditableTexts w' !!! other = EditableTexts w !!! other).
Proof.
  intros Hdate.
  destruct (computeEditableFields_texts doc page
              (<[sheet_field := sheet]> editable_fields)
              date_field scale_field w modified Hdate) as (texts & Hrun & Ht).
  eexists. split; [exact Hrun|]. simpl.
  rewrite lookup_total_insert_eq.
  split; [|split].
  - intros k v Hkv. rewrite Ht, Hkv. split.
    + intros Hin.
      destruct (decide (scale_field = k)) as [->|Hs];
        [by rewrite lookup_insert_eq|].
      rewrite lookup_insert_ne by done.
      destruct (decide (date_field = k)) as [->|Hd];
        [by rewrite lookup_insert_eq|].
      rewrite lookup_insert_ne by done.
      destruct Hin as [[old ->]|[?|?]]; [done|congruence..].
    + intros Hnone Hd Hs. by rewrite !lookup_insert_ne, Hnone by done.
  - intros k Hd Hs Hsh Hnone. rewrite Ht.
    rewrite !lookup_insert_ne by done. rewrite Hnone.
    by destruct ((EditableTexts w !!! page) !! k).
  - intros other Hne. by rewrite lookup_total_insert_ne.
Qed.

(** C6 (amended). For the pair (document, page), [_computeEditableFields]
    sets the scale field to the string of the scale of the page, and
    the date field to the last modification date of the document, a
    final "Z" being removed before it is parsed, written as
    day/month/year, unless [templates_data] has an entry for the
    field, which is then the value stored; the date field holds the
    date if moreover its name is not that of the scale field. *)
Theorem computeEditableFields_date_scale (doc : Doc) (page : Page)
    (templates_data : dict) (date_field scale_field : pyval) (w : World)
    (iso : string) (modified : datetime) :
  LastModifiedDate doc = iso +:+ "Z"
  ∨ (LastModifiedDate doc = iso ∧ ∃ c, str_last iso = Some c ∧ c ≠ "Z"%char) →
  fromisoformat iso = Some modified →
  ∃ w',
    _computeEditableFields doc page templates_data date_field scale_field w
    = (Ok tt, w')
    ∧ (templates_data !! scale_field = None →
       (EditableTexts w' !!! page) !! scale_field
       = Some (PStr (str_of_float (Scale page))))
    ∧ (templates_data !! date_field = None → date_field ≠ scale_field →
       (EditableTexts w' !!! page) !! date_field
       = Some (PStr (strftime modified "%d/%m/%Y")))
    ∧ (∀ field v,
         field = date_field ∨ field = scale_field →
         templates_data !! field = Some v →
         (EditableTexts w' !!! page) !! field = Some v).
Proof.
  intros Hlast Hiso.
  pose proof (parse_modified_iso _ _ _ Hlast Hiso) as Hdate.
  destruct (computeEditableFields_texts doc page templates_data
              date_field scale_field w modified Hdate) as (texts & Hrun & Ht).
  eexists. split; [exact Hrun|]. simpl.
  rewrite lookup_total_insert_eq.
  split; [|split].
  - intros Hnone. by rewrite Ht, lookup_insert_eq, Hnone.
  - intros Hnone Hne.
    by rewrite Ht, lookup_insert_ne, lookup_insert_eq, Hnone.
  - intros field v Hfield Hv. rewrite Ht, Hv.
    destruct (decide (scale_field = field)) as [->|Hs];
      [by rewrite lookup_insert_eq|].
    rewrite lookup_insert_ne by done.
    destruct Hfield as [->| ->]; [|done].
    by rewrite lookup_insert_eq.
Qed.

End Texts.

Lemma computeEditableFields_frame_witness :
  @parse_modified (Demo.host true "") (@LastModifiedDate (Demo.host true "") 0)
  = Ok Demo.modified_master
  ∧ ∃ w',
      @_computeEditableFields (Demo.host true "") 0 10
        (<[PStr "SHEET" := PStr "3 / 5"]> Demo.user_date)
        (PStr "FC-DATE") (PStr "FC-SC") Demo.world = (Ok tt, w')
      ∧ (∀ k v,
           <[PStr "SHEET" := PStr "3 / 5"]> Demo.user_date !! k = Some v →
           (is_Some ((EditableTexts Demo.world !!! 10) !! k)
            ∨ k = PStr "FC-DATE" ∨ k = PStr "FC-SC" →
            (EditableTexts w' !!! 10) !! k = Some v)
           ∧ ((EditableTexts Demo.world !!! 10) !! k = None →
              k ≠ PStr "FC-DATE" → k ≠ PStr "FC-SC" →
              (EditableTexts w' !!! 10) !! k = None))
      ∧ (∀ k,
           k ≠ PStr "FC-DATE" → k ≠ PStr "FC-SC" → k ≠ PStr "SHEET" →
           Demo.user_date !! k = None →
           (EditableTexts w' !!! 10) !! k
           = (EditableTexts Demo.world !!! 10) !! k)
      ∧ (∀ other, other ≠ 10 →
           EditableTexts w' !!! other = EditableTexts Demo.world !!! other).
Proof.
  split; [vm_compute; reflexivity|].
  apply (@computeEditableFields_frame (Demo.host true "") 0 10 Demo.user_date
           (PStr "SHEET") (PStr "3 / 5") (PStr "FC-DATE") (PStr "FC-SC")
           Demo.world Demo.modified_master).
  vm_compute; reflexivity.
Defined.

(** C5, as stated: the template of page 10 has no text "FC-DATE", and the
    entry "FC-DATE" of the spreadsheet is written into its texts all the
    same, "FC-DATE" being the name of the date field. *)
Lemma computeEditableFields_writes_absent_field :
  (EditableTexts Demo.world !!! 10) !! PStr "FC-DATE" = None
  ∧ Demo.user_date !! PStr "FC-DATE" = Some (PStr "1 April")
  ∧ (EditableTexts
       (@_computeEditableFields (Demo.host true "") 0 10 Demo.user_date
          (PStr "FC-DATE") (PStr "FC-SC") Demo.world).2 !!! 10)
      !! PStr "FC-DATE" = Some (PStr "1 April").
Proof. vm_compute. done. Qed.

Lemma computeEditableFields_date_scale_witness :
  @LastModifiedDate (Demo.host true "") 0 = "2021-03-14T10:20:30" +:+ "Z"
  ∧ @fromisoformat (Demo.host true "") "2021-03-14T10:20:30"
    = Some Demo.modified_master
  ∧ ∃ w',
      @_computeEditableFields (Demo.host true "") 0 10 ∅
        (PStr "FC-DATE") (PStr "FC-SC") Demo.world = (Ok tt, w')
      ∧ ((∅ : dict) !! PStr "FC-SC" = None →
         (EditableTexts w' !!! 10) !! PStr "FC-SC" = Some (PStr "1.0"))
      ∧ ((∅ : dict) !! PStr "FC-DATE" = None → PStr "FC-DATE" ≠ PStr "FC-SC" →
         (EditableTexts w' !!! 10) !! PStr "FC-DATE"
         = Some (PStr (Demo.format_date Demo.modified_master "%d/%m/%Y")))
      ∧ (∀ field v,
           field = PStr "FC-DATE" ∨ field = PStr "FC-SC" →
           (∅ : dict) !! field = Some v →
           (EditableTexts w' !!! 10) !! field = Some v).
Proof.
  split; [reflexivity|]. split; [vm_compute; reflexivity|].
  apply (@computeEditableFields_date_scale (Demo.host true "") 0 10 ∅
           (PStr "FC-DATE") (PStr "FC-SC") Demo.world
           "2021-03-14T10:20:30" Demo.modified_master).
  - left. reflexivity.
  - vm_compute; reflexivity.
Defined.

(** C6, as stated: the document was last modified on 14 March 2021, and
    the date field of page 10 holds the entry of the spreadsheet that
    has its name, not that date. *)
Lemma computeEditableFields_date_overridden :
  @parse_modified (Demo.host true "") (@LastModifiedDate (Demo.host true "") 0)
  = Ok Demo.modified_master
  ∧ @strftime (Demo.host true "") Demo.modified_master "%d/%m/%Y"
    = "14/03/2021"
  ∧ (EditableTexts
       (@_computeEditableFields (Demo.host true "") 0 10 Demo.user_date
          (PStr "FC-DATE") (PStr "FC-SC") Demo.world).2 !!! 10)
      !! PStr "FC-DATE" = Some (PStr "1 April")
  ∧ PStr "1 April" ≠ PStr "14/03/2021".
Proof. vm_compute. repeat split; done. Qed.

(** ** The sheet numbers *)

Section Sheets.
Context `{Host}.

(** The events of the loop of [_computeTechDraw]. *)
Lemma stamp_pages_spec (doc_list : list (Doc * Page)) (templates_data : dict)
    (sheet_field nb_page date_field scale_field : pyval) (first : Z)
    (w : World) :
  NoDup doc_list.*2 →
  (∀ doc page, (doc, page) ∈ doc_list →
     ∃ modified, parse_modified (LastModifiedDate doc) = Ok modified) →
  ∃ w',
    stamp_pages doc_list templates_data sheet_field nb_page date_field
      scale_field (PInt first) w = (Ok tt, w')
    ∧ (∀ i doc page,
         doc_list !! i = Some (doc, page) →
         is_Some ((EditableTexts w !!! page) !! sheet_field) →
         (EditableTexts w' !!! page) !! sheet_field
         = Some (PStr (pretty (first + Z.of_nat i)%Z +:+ " / "
                         +:+ py_str nb_page)))
    ∧ (∀ other, other ∉ doc_list.*2 →
         EditableTexts w' !!! other = EditableTexts w !!! other)
    ∧ Visibility w' = Visibility w
    ∧ files w' = files w
    ∧ trace w'
      = trace w
        ++ flat_map (λ dp, [EvSetEditableTexts dp.2; EvRecompute dp.2])
             doc_list.
Proof.
  revert templates_data first w.
  induction doc_list as [|[doc page] doc_list IH];
    intros templates_data first w Hnd Hdates.
  - exists w. simpl. rewrite app_nil_r. unfold ret.
    repeat split; done.
  - rewrite fmap_cons in Hnd. apply NoDup_cons in Hnd as [Hpage Hnd].
    simpl in Hpage.
    destruct (Hdates doc page) as [modified Hdate]; [by left|].
    set (td := <[sheet_field :=
                   PStr (py_str (PInt first) +:+ " / " +:+ py_str nb_page)]>
                 templates_data).
    destruct (computeEditableFields_texts doc page td date_field scale_field
                w modified Hdate) as (texts & Hrun & Ht).
    cbn [stamp_pages]. fold td.
    rewrite (bind_ok _ _ _ _ _ Hrun).
    cbn [py_add lift bind].
    set (w1 := mkWorld _ _ _ _).
    destruct (IH td (first + 1)%Z w1 Hnd)
      as (w' & Hrest & Hst & Hfr & Hv & Hf & Htr).
    { intros d p Hin. apply (Hdates d p). by right. }
    exists w'. split; [exact Hrest|].
    split; [|split; [|split; [|split]]].
    + intros [|i] d p Hi Hin.
      * simpl in Hi. injection Hi as <- <-.
        rewrite (Hfr page Hpage). unfold w1. simpl.
        rewrite lookup_total_insert_eq, Ht.
        unfold td at 1. rewrite lookup_insert_eq.
        rewrite Z.add_0_r.
        destruct (decide (scale_field = sheet_field)) as [->|Hs];
          [by rewrite lookup_insert_eq|].
        rewrite lookup_insert_ne by done.
        destruct (decide (date_field = sheet_field)) as [->|Hd];
          [by rewrite lookup_insert_eq|].
        rewrite lookup_insert_ne by done.
        by destruct Hin as [old ->].
      * simpl in Hi.
        assert (p ≠ page) as Hne.
        { intros ->. apply Hpage. apply list_elem_of_fmap.
          exists (d, page). split; [done|]. by eapply list_elem_of_lookup_2. }
        replace (first + Z.of_nat (S i))%Z with (first + 1 + Z.of_nat i)%Z
          by lia.
        apply (Hst i d p Hi).
        unfold w1. simpl. by rewrite lookup_total_insert_ne.
    + intros other Hother. rewrite fmap_cons in Hother.
      apply not_elem_of_cons in Hother as [Hne Hother].
      rewrite (Hfr other Hother). unfold w1. simpl.
      by rewrite lookup_total_insert_ne.
    + by rewrite Hv.
    + by rewrite Hf.
    + rewrite Htr. unfold w1. simpl. by rewrite <- app_assoc.
Qed.

(** C1. For a list of [n] pages, each page once, [_computeTechDraw]
    writes in the sheet field of the i-th page (i counted from 1, the
    template having that field) the string "p / N" with
    p = Stating_Page + i - 1 and N = Stating_Page + n + Nb_Page_After - 1. *)
Theorem computeTechDraw_sheet_numbers (doc_list : list (Doc * Page))
    (standard_fields editable_fields : dict) (stating_page nb_after : Z)
    (date_field scale_field sheet_field : pyval) (w : World) :
  standard_fields !! PStr "Stating_Page" = Some (PInt stating_page) →
  standard_fields !! PStr "Nb_Page_After" = Some (PInt nb_after) →
  standard_fields !! PStr "Date_Field" = Some date_field →
  standard_fields !! PStr "Scale_Field" = Some scale_field →
  standard_fields !! PStr "Sheet_Field" = Some sheet_field →
  NoDup doc_list.*2 →
  (∀ doc page, (doc, page) ∈ doc_list →
     ∃ modified, parse_modified (LastModifiedDate doc) = Ok modified) →
  ∃ w',
    _computeTechDraw doc_list standard_fields editable_fields w = (Ok tt, w')
    ∧ ∀ i doc page,
        (1 <= i)%Z →
        doc_list !! Z.to_nat (i - 1) = Some (doc, page) →
        is_Some ((EditableTexts w !!! page) !! sheet_field) →
        (EditableTexts w' !!! page) !! sheet_field
        = Some (PStr (pretty (stating_page + i - 1)%Z +:+ " / "
                        +:+ pretty (stating_page + Z.of_nat (length doc_list)
                                      + nb_after - 1)%Z)).
Proof.
  intros Hsp Hna Hdf Hscf Hshf Hnd Hdates.
  destruct (stamp_pages_spec doc_list editable_fields sheet_field
              (PInt (stating_page + Z.of_nat (length doc_list) + nb_after - 1))
              date_field scale_field stating_page w Hnd Hdates)
    as (w' & Hrun & Hst & _).
  exists w'. split.
  - unfold _computeTechDraw, bind, lift, dict_getitem.
    rewrite Hsp, Hna, Hdf, Hscf, Hshf. simpl. exact Hrun.
  - intros i doc page Hi Hlook Hin.
    rewrite (Hst _ _ _ Hlook Hin). cbn [py_str].
    by replace (stating_page + Z.of_nat (Z.to_nat (i - 1)))%Z
      with (stating_page + i - 1)%Z by lia.
Qed.

End Sheets.

(** ** The PDF file *)

Section Pdf.
Context `{Host}.

Lemma export_pages_spec (base_doc : Doc) (doc_list : list (Doc * Page))
    (nb : nat) (pdf_merger : PdfFileMerger) (w : World) :
  ∃ w' evs,
    export_pages base_doc doc_list nb pdf_merger w
    = (Ok (pdf_merger ++ (render w <$> doc_list)), w')
    ∧ EditableTexts w' = EditableTexts w
    ∧ trace w' = trace w ++ evs
    ∧ omap exported evs
      = imap (λ i dp, (dp.2, page_file base_doc (nb + i))) doc_list
    ∧ omap appended evs
      = imap (λ i _, page_file base_doc (nb + i)) doc_list
    ∧ omap written evs = []
    ∧ Forall (λ e, phase_of e = ExportMerge) evs.
Proof.
  revert nb pdf_merger w.
  induction doc_list as [|[doc page] doc_list IH]; intros nb pdf_merger w.
  - exists w, []. simpl. unfold ret. by rewrite !app_nil_r.
  - cbn [export_pages].
    unfold bind at 1. unfold get_Visibility at 1. cbn beta iota.
    set (shown := (if negb (bool_decide (page ∈ Visibility w))
                   then doubleClicked page else ret tt) w).
    assert (∃ ev0, shown.1 = Ok tt
              ∧ EditableTexts shown.2 = EditableTexts w
              ∧ files shown.2 = files w
              ∧ trace shown.2 = trace w ++ ev0
              ∧ omap exported ev0 = [] ∧ omap appended ev0 = []
              ∧ omap written ev0 = []
              ∧ Forall (λ e, phase_of e = ExportMerge) ev0)
      as (ev0 & Hok & Htexts & Hfiles & Htrace & He & Ha & Hw & Hph).
    { unfold shown. destruct (negb _).
      - exists [EvDoubleClicked page]. simpl. repeat split; try done.
        by repeat constructor.
      - exists []. simpl. rewrite app_nil_r. repeat split; done. }
    unfold bind at 1. fold shown.
    destruct shown as [r w0]. simpl in Hok, Htexts, Hfiles, Htrace.
    subst r.
    unfold bind at 1. unfold exportPageAsPdf at 1. cbn beta iota.
    unfold bind at 1. unfold merger_append at 1. cbn beta iota zeta.
    cbn [files]. rewrite lookup_insert_eq.
    set (w1 := mkWorld _ _ _ _).
    destruct (IH (nb + 1)
                (pdf_merger ++ [(page, EditableTexts w0 !!! page)]) w1)
      as (w' & evs & Hrun & Ht' & Htr' & He' & Ha' & Hw' & Hph').
    exists w',
      (ev0 ++ [EvExportPdf page (page_file base_doc nb);
               EvMergerAppend (page_file base_doc nb)] ++ evs).
    split; [|split; [|split; [|split; [|split; [|split]]]]].
    + rewrite Hrun, <- app_assoc, fmap_cons. unfold render, w1. simpl.
      by rewrite Htexts.
    + rewrite Ht'. unfold w1. simpl. exact Htexts.
    + rewrite Htr'. unfold w1. simpl. rewrite Htrace.
      unfold page_file. by rewrite <- !app_assoc.
    + rewrite !omap_app, He, He'. simpl. f_equal.
      * by rewrite Nat.add_0_r.
      * apply imap_ext. intros i dp _. simpl. do 2 f_equal. lia.
    + rewrite !omap_app, Ha, Ha'. simpl. f_equal.
      * by rewrite Nat.add_0_r.
      * apply imap_ext. intros i dp _. simpl. f_equal. lia.
    + by rewrite !omap_app, Hw, Hw'.
    + apply Forall_app. split; [done|].
      by repeat constructor.
Qed.

(** [_createPDFFile] is the export loop followed by the opening of the
    output file: the book is written when the file can be opened, and
    [OSError] is raised, after all the exports, when it cannot. *)
Lemma createPDFFile_run (base_doc : Doc) (doc_list : list (Doc * Page))
    (filename : string) (w : World) :
  ∃ w1 evs,
    export_pages base_doc doc_list 1 [] w
    = (Ok (render w <$> doc_list), w1)
    ∧ EditableTexts w1 = EditableTexts w
    ∧ trace w1 = trace w ++ evs
    ∧ omap exported evs
      = imap (λ i dp, (dp.2, page_file base_doc (1 + i))) doc_list
    ∧ omap appended evs
      = imap (λ i _, page_file base_doc (1 + i)) doc_list
    ∧ omap written evs = []
    ∧ Forall (λ e, phase_of e = ExportMerge) evs
    ∧ _createPDFFile base_doc doc_list filename w
      = if writable filename
        then (Ok tt,
              mkWorld (EditableTexts w1) (Visibility w1)
                (<[filename := render w <$> doc_list]> (files w1))
                (trace w1 ++ [EvWriteFile filename]))
        else (Raise OSError, w1).
Proof.
  destruct (export_pages_spec base_doc doc_list 1 [] w)
    as (w1 & evs & Hrun & Htexts & Htrace & He & Ha & Hw & Hph).
  exists w1, evs. repeat (split; [done|]).
  unfold _createPDFFile. rewrite (bind_ok _ _ _ _ _ Hrun).
  unfold merger_write. by destruct (writable filename).
Qed.

(** The calls of [_createPDFFile] when the output file can be opened. *)
Lemma createPDFFile_events (base_doc : Doc) (doc_list : list (Doc * Page))
    (filename : string) (w : World) :
  writable filename = true →
  ∃ w' evs,
    _createPDFFile base_doc doc_list filename w = (Ok tt, w')
    ∧ trace w' = trace w ++ evs
    ∧ omap exported evs
      = imap (λ i dp, (dp.2, page_file base_doc (1 + i))) doc_list
    ∧ omap written evs = [filename]
    ∧ Forall (λ e, phase_of e = ExportMerge) evs.
Proof.
  intros Hopen.
  destruct (createPDFFile_run base_doc doc_list filename w)
    as (w1 & evs & _ & _ & Htrace & He & _ & Hw & Hph & Hrun).
  rewrite Hopen in Hrun.
  eexists _, (evs ++ [EvWriteFile filename]).
  split; [exact Hrun|]. simpl. split; [|split; [|split]].
  - by rewrite Htrace, <- app_assoc.
  - rewrite omap_app, He. simpl. by rewrite app_nil_r.
  - by rewrite omap_app, Hw.
  - apply Forall_app. split; [done|]. by repeat constructor.
Qed.

(** A run of [_createPDFFile] that returns has opened the output
    file. *)
Lemma createPDFFile_returns (base_doc : Doc) (doc_list : list (Doc * Page))
    (filename : string) (w w' : World) :
  _createPDFFile base_doc doc_list filename w = (Ok tt, w') →
  writable filename = true.
Proof.
  destruct (createPDFFile_run base_doc doc_list filename w)
    as (w1 & evs & _ & _ & _ & _ & _ & _ & _ & ->).
  by destruct (writable filename).
Qed.

(** C3. When the output file can be opened for writing,
    [_createPDFFile] exports one temporary PDF file per entry of the
    list, [Page1], [Page2], ... in the order of the list, appends them
    to the merger in that order, and writes one file, under the name
    chosen by the user: it holds the pages of the list, in the order of
    the list. *)
Theorem createPDFFile_book (base_doc : Doc) (doc_list : list (Doc * Page))
    (filename : string) (w : World) :
  writable filename = true →
  ∃ w' evs,
    _createPDFFile base_doc doc_list filename w = (Ok tt, w')
    ∧ trace w' = trace w ++ evs
    ∧ omap exported evs
      = imap (λ i dp, (dp.2, page_file base_doc (1 + i))) doc_list
    ∧ omap appended evs
      = imap (λ i _, page_file base_doc (1 + i)) doc_list
    ∧ omap written evs = [filename]
    ∧ files w' !! filename = Some (render w <$> doc_list)
    ∧ EditableTexts w' = EditableTexts w
    ∧ Forall (λ e, phase_of e = ExportMerge) evs.
Proof.
  intros Hopen.
  destruct (createPDFFile_run base_doc doc_list filename w)
    as (w1 & evs & _ & Htexts & Htrace & He & Ha & Hw & Hph & Hrun).
  rewrite Hopen in Hrun.
  eexists _, (evs ++ [EvWriteFile filename]).
  split; [exact Hrun|]. simpl.
  split; [|split; [|split; [|split; [|split; [|split]]]]].
  - by rewrite Htrace, <- app_assoc.
  - rewrite omap_app, He. simpl. by rewrite app_nil_r.
  - rewrite omap_app, Ha. simpl. by rewrite app_nil_r.
  - rewrite omap_app, Hw. done.
  - by rewrite lookup_insert_eq.
  - exact Htexts.
  - apply Forall_app. split; [done|]. by repeat constructor.
Qed.

End Pdf.

(** ** Events *)

Lemma emits_ret {A} (P : event → Prop) (a : A) : emits_only P (ret a).
Proof. intros w. exists []. by rewrite after_nil. Qed.

Lemma emits_raise {A} (P : event → Prop) (e : exn) :
  emits_only P (raise e : M A).
Proof. intros w. exists []. by rewrite after_nil. Qed.

Lemma emits_lift {A} (P : event → Prop) (o : outcome A) :
  emits_only P (lift o).
Proof. intros w. exists []. by rewrite after_nil. Qed.

Lemma emits_emit (P : event → Prop) (e : event) : P e → emits_only P (emit e).
Proof. intros He w. exists [e]. split; [done|]. by constructor. Qed.

Lemma emits_bind {A B} (P : event → Prop) (m : M A) (k : A → M B) :
  emits_only P m → (∀ a, emits_only P (k a)) → emits_only P (bind m k).
Proof.
  intros Hm Hk w. unfold bind.
  destruct (Hm w) as (evs & Hw & Hevs).
  destruct (m w) as [[a|e] w1]; simpl in Hw; subst w1.
  - destruct (Hk a (after w evs)) as (evs' & Hw' & Hevs').
    exists (evs ++ evs'). rewrite Hw', after_after. split; [done|].
    by apply Forall_app.
  - by exists evs.
Qed.

(** ** The walk over the references *)

Section Walk.
Context `{Host}.

Lemma getDocumentTechDraw_raises (full_filename : string)
    (treated : list Doc) (w : World) (e : exn) :
  openDocument full_filename = Raise e →
  e ≠ OSError →
  _getDocumentTechDraw full_filename treated w
  = (Raise e, after w [EvOpenDocument full_filename]).
Proof.
  intros Hopen Hne. unfold _getDocumentTechDraw, bind, emit, raise.
  rewrite Hopen. by destruct e.
Qed.

Lemma getDocumentTechDraw_missing (full_filename : string)
    (treated : list Doc) (w : World) :
  openDocument full_filename = Raise OSError →
  _getDocumentTechDraw full_filename treated w
  = (Ok ([], treated),
     after w [EvOpenDocument full_filename;
              EvPrint (missing_file_report full_filename)]).
Proof.
  intros Hopen. unfold _getDocumentTechDraw, bind, emit, ret, after.
  rewrite Hopen. simpl. by rewrite <- app_assoc.
Qed.

Lemma getDocumentTechDraw_treated (full_filename : string)
    (treated : list Doc) (w : World) (doc : Doc) :
  openDocument full_filename = Ok doc →
  doc ∈ treated →
  _getDocumentTechDraw full_filename treated w
  = (Ok ([], treated), after w [EvOpenDocument full_filename]).
Proof.
  intros Hopen Hin. unfold _getDocumentTechDraw, bind, emit, ret.
  rewrite Hopen. by rewrite decide_True.
Qed.

Lemma getDocumentTechDraw_new (full_filename : string)
    (treated : list Doc) (w : World) (doc : Doc) :
  openDocument full_filename = Ok doc →
  doc ∉ treated →
  _getDocumentTechDraw full_filename treated w
  = (Ok (pages_of [doc], treated ++ [doc]),
     after w [EvOpenDocument full_filename]).
Proof.
  intros Hopen Hin. unfold _getDocumentTechDraw, bind, emit, ret.
  rewrite Hopen. rewrite decide_False by done.
  unfold pages_of. simpl. rewrite app_nil_r.
  by destruct (findDrawPages doc).
Qed.

Lemma createTechDrawDocumentList_S (depth : nat) (file_name file_path : string)
    (treated : list Doc) (recursive : bool) (w : World) :
  _createTechDrawDocumentList (S depth) file_name file_path treated recursive w
  = match _getDocumentTechDraw (path_join file_path file_name) treated w with
    | (Ok r, w1) =>
        walk_objects
          (λ name path treated,
             _createTechDrawDocumentList depth name path treated recursive)
          file_path recursive
          (getA2pObjects (path_join file_path file_name)) r.1 r.2
          (after w1 [EvReadA2p (path_join file_path file_name)])
    | (Raise e, w1) => (Raise e, w1)
    end.
Proof.
  cbn [_createTechDrawDocumentList]. unfold bind at 1.
  by destruct (_getDocumentTechDraw _ _ _) as [[r|e] w1].
Qed.

Lemma walk_objects_cons
    (rec : string → string → list Doc → M (list (Doc * Page) * list Doc))
    (file_path : string) (recursive : bool) (ob : A2pObject)
    (obs : list A2pObject) (ret_val : list (Doc * Page)) (treated : list Doc)
    (w : World) :
  walk_objects rec file_path recursive (ob :: obs) ret_val treated w
  = match visit rec file_path recursive ob treated w with
    | (Ok r, w1) =>
        walk_objects rec file_path recursive obs (ret_val ++ r.1) r.2 w1
    | (Raise e, w1) => (Raise e, w1)
    end.
Proof.
  cbn [walk_objects]. unfold visit.
  destruct (os_path_split _) as [new_full_path new_file_name].
  reflexivity.
Qed.

(** C4. When the opening of a file raises [OSError],
    [_getDocumentTechDraw] prints that the file could not be opened and
    returns no page, [treated] being unchanged; the loop over the
    objects then goes on with the objects that follow, and so does the
    walk when the file is the one it was called for.  No other
    exception is caught: one raised by [openDocument] leaves
    [_getDocumentTechDraw], and one raised for an object leaves the
    loop. *)
Theorem getDocumentTechDraw_missing_file (full_filename : string)
    (treated : list Doc) (w : World) :
  openDocument full_filename = Raise OSError →
  _getDocumentTechDraw full_filename treated w
  = (Ok ([], treated),
     after w [EvOpenDocument full_filename;
              EvPrint ("File " +:+ full_filename +:+ " could not be opened !")])
  ∧ (∀ rec file_path recursive ob obs ret_val,
       findSourceFileInProject (getA2pSource ob) file_path = full_filename →
       recursive && isSubassembly ob = false →
       walk_objects rec file_path recursive (ob :: obs) ret_val treated w
       = walk_objects rec file_path recursive obs ret_val treated
           (after w [EvOpenDocument full_filename;
                     EvPrint ("File " +:+ full_filename
                                +:+ " could not be opened !")]))
  ∧ (∀ depth file_name file_path recursive,
       path_join file_path file_name = full_filename →
       _createTechDrawDocumentList (S depth) file_name file_path treated
         recursive w
       = walk_objects
           (λ name path treated,
              _createTechDrawDocumentList depth name path treated recursive)
           file_path recursive (getA2pObjects full_filename) [] treated
           (after w [EvOpenDocument full_filename;
                     EvPrint ("File " +:+ full_filename
                                +:+ " could not be opened !");
                     EvReadA2p full_filename]))
  ∧ (∀ other e treated0 w0,
       openDocument other = Raise e → e ≠ OSError →
       _getDocumentTechDraw other treated0 w0
       = (Raise e, after w0 [EvOpenDocument other]))
  ∧ (∀ rec file_path recursive ob obs ret_val treated0 w0 e w1,
       visit rec file_path recursive ob treated0 w0 = (Raise e, w1) →
       walk_objects rec file_path recursive (ob :: obs) ret_val treated0 w0
       = (Raise e, w1)).
Proof.
  intros Hopen.
  pose proof (getDocumentTechDraw_missing full_filename treated w Hopen)
    as Hmiss.
  unfold missing_file_report in Hmiss.
  split; [exact Hmiss|]. split; [|split; [|split]].
  - intros rec file_path recursive ob obs ret_val Hfile Hnot.
    rewrite walk_objects_cons. unfold visit. rewrite Hnot, Hfile, Hmiss.
    simpl. by rewrite app_nil_r.
  - intros depth file_name file_path recursive Hfile.
    rewrite createTechDrawDocumentList_S, Hfile, Hmiss. simpl.
    by rewrite after_after.
  - intros other e treated0 w0. apply getDocumentTechDraw_raises.
  - intros rec file_path recursive ob obs ret_val treated0 w0 e w1 Hvisit.
    by rewrite walk_objects_cons, Hvisit.
Qed.

End Walk.

Section WalkInvariant.
Context `{Host}.

Lemma pages_of_app (docs docs' : list Doc) :
  pages_of (docs ++ docs') = pages_of docs ++ pages_of docs'.
Proof. unfold pages_of. apply bind_app. Qed.

Lemma getDocumentTechDraw_collects (full_filename : string)
    (treated : list Doc) (w w' : World) (r : list (Doc * Page) * list Doc) :
  _getDocumentTechDraw full_filename treated w = (Ok r, w') →
  collects treated r.
Proof.
  destruct (openDocument full_filename) as [doc|e] eqn:Hopen.
  - destruct (decide (doc ∈ treated)) as [Hin|Hin].
    + rewrite (getDocumentTechDraw_treated _ _ _ _ Hopen Hin).
      intros [= <- _]. exists []. simpl. by rewrite app_nil_r.
    + rewrite (getDocumentTechDraw_new _ _ _ _ Hopen Hin).
      intros [= <- _]. exists [doc]. simpl. repeat split.
      intros Hnd. apply NoDup_app. repeat split; [done| |apply NoDup_singleton].
      intros x Hx ->%list_elem_of_singleton. done.
  - destruct (decide (e = OSError)) as [->|Hne].
    + rewrite (getDocumentTechDraw_missing _ _ _ Hopen).
      intros [= <- _]. exists []. simpl. by rewrite app_nil_r.
    + by rewrite (getDocumentTechDraw_raises _ _ _ _ Hopen Hne).
Qed.

Lemma collects_trans (treated : list Doc)
    (r r' : list (Doc * Page) * list Doc) :
  collects treated r → collects r.2 r' →
  collects treated (r.1 ++ r'.1, r'.2).
Proof.
  intros (new & Ht & Hr & Hnd) (new' & Ht' & Hr' & Hnd').
  exists (new ++ new'). simpl.
  rewrite Ht', Ht, Hr, Hr', pages_of_app, <- app_assoc.
  repeat split. intros Hno. rewrite app_assoc. rewrite Ht in Hnd'.
  by apply Hnd', Hnd.
Qed.

Lemma walk_objects_collects
    (rec : string → string → list Doc → M (list (Doc * Page) * list Doc))
    (file_path : string) (recursive : bool) :
  (∀ name path treated w r w',
     rec name path treated w = (Ok r, w') → collects treated r) →
  ∀ obs ret_val treated w r w',
    walk_objects rec file_path recursive obs ret_val treated w = (Ok r, w') →
    ∃ r0, collects treated r0 ∧ r = (ret_val ++ r0.1, r0.2).
Proof.
  intros Hrec obs.
  induction obs as [|ob obs IH]; intros ret_val treated w r w'.
  - simpl. unfold ret. intros [= <- _]. exists ([], treated).
    simpl. rewrite app_nil_r. split; [|done].
    exists []. simpl. by rewrite app_nil_r.
  - rewrite walk_objects_cons.
    destruct (visit rec file_path recursive ob treated w) as [[r1|e] w1]
      eqn:Hvisit; [|done].
    intros Hwalk. apply IH in Hwalk as (r0 & Hr0 & ->).
    assert (collects treated r1) as Hr1.
    { unfold visit in Hvisit. destruct (recursive && isSubassembly ob).
      - by eapply Hrec.
      - by eapply getDocumentTechDraw_collects. }
    exists (r1.1 ++ r0.1, r0.2). split.
    + by apply collects_trans.
    + simpl. by rewrite app_assoc.
Qed.

(** Whatever the references are, a walk that returns has added each
    document to [treated] at most once and returns the pages of the
    documents it has added, each document once. *)
Lemma createTechDrawDocumentList_collects (depth : nat)
    (file_name file_path : string) (treated : list Doc) (recursive : bool)
    (w w' : World) (r : list (Doc * Page) * list Doc) :
  _createTechDrawDocumentList depth file_name file_path treated recursive w
  = (Ok r, w') →
  collects treated r.
Proof.
  revert file_name file_path treated w w' r.
  induction depth as [|depth IH]; intros file_name file_path treated w w' r.
  - done.
  - rewrite createTechDrawDocumentList_S.
    destruct (_getDocumentTechDraw _ _ _) as [[r1|e] w1] eqn:Hget; [|done].
    intros Hwalk.
    apply getDocumentTechDraw_collects in Hget.
    apply walk_objects_collects in Hwalk as (r0 & Hr0 & ->).
    + by apply collects_trans.
    + intros name path treated0 w0 r' w0'. apply IH.
Qed.

(** All the events of the walk are events of the walk, and it changes
    nothing but the trace. *)
Lemma getDocumentTechDraw_emits (full_filename : string)
    (treated : list Doc) :
  emits_only (λ e, phase_of e = ReferenceWalk)
    (_getDocumentTechDraw full_filename treated).
Proof.
  unfold _getDocumentTechDraw.
  apply emits_bind; [by apply emits_emit|]. intros _.
  destruct (openDocument full_filename) as [doc|e].
  - case_decide; apply emits_ret.
  - destruct e; try apply emits_raise.
    apply emits_bind; [by apply emits_emit|]. intros _. apply emits_ret.
Qed.

Lemma walk_objects_emits
    (rec : string → string → list Doc → M (list (Doc * Page) * list Doc))
    (file_path : string) (recursive : bool) :
  (∀ name path treated,
     emits_only (λ e, phase_of e = ReferenceWalk) (rec name path treated)) →
  ∀ obs ret_val treated,
    emits_only (λ e, phase_of e = ReferenceWalk)
      (walk_objects rec file_path recursive obs ret_val treated).
Proof.
  intros Hrec obs. induction obs as [|ob obs IH]; intros ret_val treated.
  - apply emits_ret.
  - cbn [walk_objects]. destruct (os_path_split _) as [p n].
    apply emits_bind; [|intros r; apply IH].
    destruct (recursive && isSubassembly ob);
      [apply Hrec|apply getDocumentTechDraw_emits].
Qed.

Lemma createTechDrawDocumentList_emits (depth : nat)
    (file_name file_path : string) (treated : list Doc) (recursive : bool) :
  emits_only (λ e, phase_of e = ReferenceWalk)
    (_createTechDrawDocumentList depth file_name file_path treated recursive).
Proof.
  revert file_name file_path treated.
  induction depth as [|depth IH]; intros file_name file_path treated.
  - apply emits_raise.
  - cbn [_createTechDrawDocumentList].
    apply emits_bind; [apply getDocumentTechDraw_emits|]. intros r.
    apply emits_bind; [by apply emits_emit|]. intros _.
    apply walk_objects_emits. intros name path treated0. apply IH.
Qed.

End WalkInvariant.

(** ** When the walk returns *)

Section WalkTermination.
Context `{Host}.

(** A measure of the files that decreases from an assembly to its
    sub-assemblies: the references have no cycle. *)
Variable rank : string → string → nat.

Hypothesis rank_decreases :
  ∀ file_name file_path ob,
    ob ∈ getA2pObjects (path_join file_path file_name) →
    isSubassembly ob = true →
    rank (os_path_split
            (findSourceFileInProject (getA2pSource ob) file_path)).2
         (os_path_split
            (findSourceFileInProject (getA2pSource ob) file_path)).1
    < rank file_name file_path.

Hypothesis only_OSError :
  ∀ filename e, openDocument filename = Raise e → e = OSError.

Lemma getDocumentTechDraw_returns (full_filename : string)
    (treated : list Doc) (w : World) :
  ∃ r w', _getDocumentTechDraw full_filename treated w = (Ok r, w').
Proof.
  destruct (openDocument full_filename) as [doc|e] eqn:Hopen.
  - destruct (decide (doc ∈ treated)) as [Hin|Hin].
    + rewrite (getDocumentTechDraw_treated _ _ _ _ Hopen Hin). by eexists _, _.
    + rewrite (getDocumentTechDraw_new _ _ _ _ Hopen Hin). by eexists _, _.
  - pose proof (only_OSError _ _ Hopen) as ->.
    rewrite (getDocumentTechDraw_missing _ _ _ Hopen). by eexists _, _.
Qed.

(** Without a cycle the walk returns, as soon as the calls may nest
    deeper than the rank of the file. *)
Lemma createTechDrawDocumentList_returns (depth : nat)
    (file_name file_path : string) (treated : list Doc) (recursive : bool)
    (w : World) :
  rank file_name file_path < depth →
  ∃ r w',
    _createTechDrawDocumentList depth file_name file_path treated recursive w
    = (Ok r, w').
Proof.
  revert file_name file_path treated w.
  induction depth as [|depth IH]; intros file_name file_path treated w Hrank;
    [lia|].
  rewrite createTechDrawDocumentList_S.
  destruct (getDocumentTechDraw_returns (path_join file_path file_name)
              treated w) as (r1 & w1 & ->).
  assert (∀ obs,
            (∀ ob, ob ∈ obs →
                   ob ∈ getA2pObjects (path_join file_path file_name)) →
            ∀ ret_val tr w0,
              ∃ r w',
                walk_objects
                  (λ name path treated0,
                     _createTechDrawDocumentList depth name path treated0
                       recursive)
                  file_path recursive obs ret_val tr w0 = (Ok r, w'))
    as Hwalk; [|by apply Hwalk].
  intros obs. induction obs as [|ob obs IHobs]; intros Hobs ret_val tr w0.
  - by eexists _, _.
  - rewrite walk_objects_cons.
    assert (∃ r w', visit
              (λ name path treated0,
                 _createTechDrawDocumentList depth name path treated0
                   recursive)
              file_path recursive ob tr w0 = (Ok r, w'))
      as (r & w' & ->).
    { unfold visit.
      destruct recursive, (isSubassembly ob) eqn:Hsub; simpl;
        try apply getDocumentTechDraw_returns.
      apply IH.
      pose proof (rank_decreases file_name file_path ob) as Hdec.
      specialize (Hdec (Hobs ob ltac:(left)) Hsub). lia. }
    apply IHobs. intros ob' Hin. apply Hobs. by right.
Qed.

End WalkTermination.

(** ** A cycle of references *)

(** C2, on two assemblies each of which is a sub-assembly of the other:
    however deep the calls may nest, the recursive walk does not return a
    list; it ends with [RecursionError]. *)
Theorem createTechDrawDocumentList_cycle_never_returns (depth : nat)
    (treated : list Doc) (w : World) :
  (@_createTechDrawDocumentList Cycle.host depth "a.FCStd" "/proj" treated
     true w).1 = Raise RecursionError
  ∧ (@_createTechDrawDocumentList Cycle.host depth "b.FCStd" "/proj" treated
       true w).1 = Raise RecursionError.
Proof.
  revert treated w. induction depth as [|depth IH]; intros treated w; [done|].
  assert (∀ file_name other doc,
            @path_join Cycle.host "/proj" file_name = "/proj/" +:+ file_name →
            @openDocument Cycle.host ("/proj/" +:+ file_name) = Ok doc →
            @getA2pObjects Cycle.host ("/proj/" +:+ file_name)
            = [Build_A2pObject other true] →
            @os_path_split Cycle.host ("/proj" +:+ "/" +:+ other)
            = ("/proj", other) →
            (∀ tr w1,
               (@_createTechDrawDocumentList Cycle.host depth other "/proj"
                  tr true w1).1 = Raise RecursionError) →
            (@_createTechDrawDocumentList Cycle.host (S depth) file_name
               "/proj" treated true w).1 = Raise RecursionError) as Hstep.
  { intros file_name other doc Hjoin Hopen Hobs Hsplit Hrec.
    rewrite createTechDrawDocumentList_S, Hjoin, Hobs.
    assert (∃ r w1, @_getDocumentTechDraw Cycle.host ("/proj/" +:+ file_name)
                      treated w = (Ok r, w1)) as (r & w1 & ->).
    { destruct (decide (doc ∈ treated)) as [Hin|Hin].
      - rewrite (getDocumentTechDraw_treated _ _ _ _ Hopen Hin).
        by eexists _, _.
      - rewrite (getDocumentTechDraw_new _ _ _ _ Hopen Hin). by eexists _, _. }
    rewrite walk_objects_cons. unfold visit.
    cbn [andb isSubassembly getA2pSource].
    change (@findSourceFileInProject Cycle.host other "/proj")
      with ("/proj" +:+ "/" +:+ other).
    rewrite Hsplit. cbn [fst snd].
    specialize (Hrec r.2 (after w1 [EvReadA2p ("/proj/" +:+ file_name)])).
    destruct (_createTechDrawDocumentList _ _ _ _ _ _) as [[r'|e] w2];
      simpl in Hrec; [done|]. simpl. done. }
  split.
  - apply (Hstep "a.FCStd" "b.FCStd" 0); try reflexivity.
    intros tr w1. apply IH.
  - apply (Hstep "b.FCStd" "a.FCStd" 1); try reflexivity.
    intros tr w1. apply IH.
Qed.

(** ** The order of the steps *)

Section Phases.
Context `{Host}.

Lemma endswith_nonempty (name suffix : string) :
  suffix ≠ EmptyString → endswith name suffix = true → name ≠ EmptyString.
Proof.
  intros Hs Hend ->. destruct suffix as [|c suffix].
  - exfalso. by apply Hs.
  - cbn in Hend. discriminate.
Qed.

Lemma getUserParameters_accepted (working_dir : string) (w : World) :
  dialog_exec = true →
  (∃ name,
     _getUserParameters working_dir w
     = (Ok (answer_yes, Some name),
        after w
          [EvMessageBox "TECHBOOK"
             "Do you want to iterate recursively over all included subassemblies?";
           EvFileDialog working_dir
             (if getNativeFileManagerUsage then false else true)])
     ∧ name ≠ EmptyString)
  ∨ ∃ e w', _getUserParameters working_dir w = (Raise e, w').
Proof.
  intros Hexec. destruct selectedFiles as [|f others] eqn:Hsel.
  - right. unfold _getUserParameters, bind, emit, lift.
    rewrite Hexec, Hsel. simpl. by eexists _, _.
  - left. eexists.
    split; [exact (getUserParameters_run working_dir f others w Hexec Hsel)|].
    apply (endswith_nonempty _ ".pdf"); [done|].
    destruct (endswith f ".pdf") eqn:E; [done|]. apply endswith_app.
Qed.

Lemma getBookParameters_world (doc : Doc) (standard_fields editable_fields : dict)
    (w : World) :
  (_getBookParameters doc standard_fields editable_fields w).2
  = after w [EvFindSheets doc INFO_SPREADSHEET_LABEL].
Proof.
  unfold _getBookParameters, bind, emit, ret, raise, lift.
  destruct (findSheets doc INFO_SPREADSHEET_LABEL) as [|sheet0 ?]; [done|].
  by destruct (read_rows _ _ _ _).
Qed.

Lemma computeEditableFields_trace (doc : Doc) (page : Page)
    (templates_data : dict) (date_field scale_field : pyval) (w w' : World) :
  _computeEditableFields doc page templates_data date_field scale_field w
  = (Ok tt, w') →
  trace w' = trace w ++ [EvSetEditableTexts page; EvRecompute page].
Proof.
  destruct (parse_modified (LastModifiedDate doc)) as [modified|e] eqn:Hdate.
  - destruct (computeEditableFields_texts doc page templates_data date_field
                scale_field w modified Hdate) as (texts & -> & _).
    by intros [= <-].
  - unfold _computeEditableFields, bind, get_EditableTexts, lift.
    by rewrite Hdate.
Qed.

Lemma stamp_pages_trace (doc_list : list (Doc * Page)) (templates_data : dict)
    (sheet_field nb_page date_field scale_field page_edited : pyval)
    (w w' : World) :
  stamp_pages doc_list templates_data sheet_field nb_page date_field
    scale_field page_edited w = (Ok tt, w') →
  trace w'
  = trace w
    ++ flat_map (λ dp, [EvSetEditableTexts dp.2; EvRecompute dp.2]) doc_list.
Proof.
  revert templates_data page_edited w.
  induction doc_list as [|[doc page] doc_list IH];
    intros templates_data page_edited w.
  - simpl. unfold ret. intros [= <-]. by rewrite app_nil_r.
  - cbn [stamp_pages]. unfold bind at 1.
    destruct (_computeEditableFields _ _ _ _ _ _) as [[[]|e] w1] eqn:Hrun;
      [|done].
    apply computeEditableFields_trace in Hrun.
    unfold bind at 1, lift at 1.
    destruct (py_add page_edited (PInt 1)) as [next|e]; [|done].
    intros Hrest%IH. rewrite Hrest, Hrun. simpl. by rewrite <- app_assoc.
Qed.

Lemma computeTechDraw_trace (doc_list : list (Doc * Page))
    (standard_fields editable_fields : dict) (w w' : World) :
  _computeTechDraw doc_list standard_fields editable_fields w = (Ok tt, w') →
  trace w'
  = trace w
    ++ flat_map (λ dp, [EvSetEditableTexts dp.2; EvRecompute dp.2]) doc_list.
Proof.
  unfold _computeTechDraw, bind, lift.
  repeat match goal with
         | |- context [match ?o with Ok _ => _ | Raise _ => _ end] =>
             destruct o; [|done]
         end.
  apply stamp_pages_trace.
Qed.

(** C7. A run of [Activated] that goes to its end is made of these
    steps, each one run on the state the one before has left:
    [_getUserParameters] (the question and the save dialog),
    [_getBookParameters] (the search of the spreadsheet),
    [_createTechDrawDocumentList] (the walk over the references, which
    returns the list of pages), [_computeTechDraw] on that list (the
    texts of every collected page set), [_createPDFFile] on the same
    list (the pages exported and merged), and the final message; the
    calls appear in the trace in this order, and a page is exported
    only after its texts have been set. *)
Theorem Activated_phases (depth : nat) (doc : Doc) (w w' : World) :
  activeDocument = Some doc →
  dialog_exec = true →
  Activated depth w = (Ok tt, w') →
  ∃ (filename : string) (standard_fields editable_fields : dict)
    (doc_list : list (Doc * Page)) (treated : list Doc)
    (w1 w2 w3 w4 w5 : World) (t_walk t_export : list event),
    _getUserParameters (os_path_split (FileName doc)).1 w
    = (Ok (answer_yes, Some filename), w1)
    ∧ w1
      = after w
          [EvMessageBox "TECHBOOK"
             "Do you want to iterate recursively over all included subassemblies?";
           EvFileDialog (os_path_split (FileName doc)).1
             (if getNativeFileManagerUsage then false else true)]
    ∧ _getBookParameters doc ∅ ∅ w1
      = (Ok (standard_fields, editable_fields), w2)
    ∧ w2 = after w1 [EvFindSheets doc INFO_SPREADSHEET_LABEL]
    ∧ _createTechDrawDocumentList depth (os_path_split (FileName doc)).2
        (os_path_split (FileName doc)).1 [] answer_yes w2
      = (Ok (doc_list, treated), w3)
    ∧ w3 = after w2 t_walk
    ∧ _computeTechDraw doc_list standard_fields editable_fields w3
      = (Ok tt, w4)
    ∧ trace w4
      = trace w3
        ++ flat_map (λ dp, [EvSetEditableTexts dp.2; EvRecompute dp.2])
             doc_list
    ∧ _createPDFFile doc doc_list filename w4 = (Ok tt, w5)
    ∧ trace w5 = trace w4 ++ t_export
    ∧ w'
      = after w5
          [EvMessageBox "TechBook completed"
             ("File " +:+ filename +:+ " created.")]
    ∧ trace w'
      = trace w
        ++ [EvMessageBox "TECHBOOK"
              "Do you want to iterate recursively over all included subassemblies?";
            EvFileDialog (os_path_split (FileName doc)).1
              (if getNativeFileManagerUsage then false else true)]
        ++ [EvFindSheets doc INFO_SPREADSHEET_LABEL]
        ++ t_walk
        ++ flat_map (λ dp, [EvSetEditableTexts dp.2; EvRecompute dp.2])
             doc_list
        ++ t_export
        ++ [EvMessageBox "TechBook completed"
              ("File " +:+ filename +:+ " created.")]
    ∧ Forall (λ e, phase_of e = ReferenceWalk) t_walk
    ∧ Forall (λ e, phase_of e = ExportMerge) t_export
    ∧ omap exported t_export
      = imap (λ i dp, (dp.2, page_file doc (1 + i))) doc_list
    ∧ omap written t_export = [filename]
    ∧ ∀ page pdf_file,
        EvExportPdf page pdf_file ∈ t_export →
        EvSetEditableTexts page
        ∈ flat_map (λ dp, [EvSetEditableTexts dp.2; EvRecompute dp.2])
            doc_list.
Proof.
  intros Hdoc Hexec. unfold Activated. rewrite Hdoc.
  destruct (os_path_split (FileName doc)) as [path doc_filename]. simpl.
  destruct (getUserParameters_accepted path w Hexec)
    as [(name & Huser & Hname)|(e & w0 & Huser)];
    [|by rewrite (bind_raise _ _ _ _ _ Huser)].
  rewrite (bind_ok _ _ _ _ _ Huser).
  destruct name as [|c name]; [done|].
  set (filename := String c name) in *.
  set (w1 := after w _) in *.
  unfold bind at 1.
  pose proof (getBookParameters_world doc ∅ ∅ w1) as Hbook.
  destruct (_getBookParameters doc ∅ ∅ w1) as [[[sf ef]|e] w2] eqn:Hparams;
    [|done].
  simpl in Hbook. subst w2.
  set (w2 := after w1 _) in *.
  unfold bind at 1.
  destruct (createTechDrawDocumentList_emits depth doc_filename path []
              answer_yes w2) as (t_walk & Hw3 & Hwalk).
  destruct (_createTechDrawDocumentList _ _ _ _ _ _)
    as [[[doc_list treated]|e] w3] eqn:Hlist; [|done].
  simpl in Hw3. subst w3.
  set (w3 := after w2 t_walk) in *.
  unfold bind at 1. cbn [fst].
  destruct (_computeTechDraw doc_list sf ef w3) as [[[]|e] w4] eqn:Hstamp;
    [|done].
  pose proof (computeTechDraw_trace _ _ _ _ _ Hstamp) as Hstamped.
  unfold bind at 1.
  destruct (_createPDFFile doc doc_list filename w4) as [[[]|e] w5] eqn:Hpdf;
    [|done].
  destruct (createPDFFile_events doc doc_list filename w4
              (createPDFFile_returns _ _ _ _ _ Hpdf))
    as (w5' & t_export & Hpdf' & Htrace & Hexp & Hwr & Hphase).
  rewrite Hpdf in Hpdf'. injection Hpdf' as <-.
  unfold emit. intros [= <-].
  exists filename, sf, ef, doc_list, treated, w1, w2, w3, w4, w5,
    t_walk, t_export.
  repeat (split; [done|]).
  split; [|split; [done|split; [done|split; [done|split; [done|]]]]].
  - simpl. rewrite Htrace, Hstamped. unfold w3, w2, w1. simpl.
    by rewrite <- !app_assoc.
  - intros page pdf_file Hin.
    assert ((page, pdf_file) ∈ omap exported t_export) as Hom.
    { apply list_elem_of_omap. by exists (EvExportPdf page pdf_file). }
    rewrite Hexp in Hom.
    apply list_elem_of_lookup in Hom as [i Hi].
    rewrite list_lookup_imap in Hi.
    destruct (doc_list !! i) as [dp|] eqn:Hdp; [|done].
    simpl in Hi. injection Hi as <- _.
    apply list_elem_of_In, in_flat_map. exists dp. split.
    + apply list_elem_of_In. by eapply list_elem_of_lookup_2.
    + by left.
Qed.

End Phases.

(** ** The parameters of the book *)

Lemma cell_inj (column : string) (i j : nat) :
  cell column i = cell column j → i = j.
Proof.
  unfold cell. intros Heq. apply (inj pretty).
  induction column as [|c column IH]; [done|].
  simpl in Heq. injection Heq as Heq. by apply IH.
Qed.

Lemma read_rows_fuel (sheet : Sheet) (fuel : nat) (cells : gset string)
    (idx : nat) (temp_dict : dict) :
  (∀ i, idx ≤ i → is_Some (sheet !! cell "A" i) → cell "A" i ∈ cells) →
  size cells < fuel →
  is_Some (read_rows fuel sheet idx temp_dict).
Proof.
  revert cells idx temp_dict.
  induction fuel as [|fuel IH]; intros cells idx temp_dict Hcells Hsize; [lia|].
  cbn [read_rows]. unfold sheet_get.
  destruct (sheet !! cell "A" idx) as [key|] eqn:HA; [|done].
  destruct (sheet !! cell "B" idx) as [val|] eqn:HB; [|done].
  apply (IH (cells ∖ {[cell "A" idx]})).
  - intros i Hi Hsome. apply elem_of_difference. split.
    + apply Hcells; [lia|done].
    + intros Heq%elem_of_singleton%cell_inj. lia.
  - assert (cell "A" idx ∈ cells) as Hin by (apply Hcells; [lia|by rewrite HA]).
    assert (size cells = size (cells ∖ {[cell "A" idx]}) + 1).
    { rewrite (union_difference_L {[cell "A" idx]} cells) at 1
        by set_solver.
      rewrite size_union by set_solver. rewrite size_singleton. lia. }
    lia.
Qed.

(** The loop over the rows stops: a sheet has finitely many cells. *)
Lemma read_rows_total (sheet : Sheet) (temp_dict : dict) :
  is_Some (read_rows (S (size sheet)) sheet 1 temp_dict).
Proof.
  apply (read_rows_fuel sheet _ (dom sheet)).
  - intros i _ Hsome. by apply elem_of_dom.
  - rewrite size_dom. lia.
Qed.

Lemma read_rows_spec (sheet : Sheet) (fuel idx : nat) (d d' : dict) :
  1 ≤ idx →
  read_rows fuel sheet idx d = Some d' →
  ∃ n, idx ≤ S n
       ∧ (∀ i, idx ≤ i ≤ n → complete_row sheet i)
       ∧ ¬ complete_row sheet (S n)
       ∧ ∀ k, (∀ v, last_row sheet idx n k v → d' !! k = Some v)
              ∧ (no_row sheet idx n k → d' !! k = d !! k).
Proof.
  revert idx d. induction fuel as [|fuel IH]; intros idx d Hidx; [done|].
  cbn [read_rows]. unfold sheet_get.
  assert (∀ d0, d0 = d' →
            ¬ complete_row sheet idx →
            ∃ n, idx ≤ S n
                 ∧ (∀ i, idx ≤ i ≤ n → complete_row sheet i)
                 ∧ ¬ complete_row sheet (S n)
                 ∧ ∀ k, (∀ v, last_row sheet idx n k v → d' !! k = Some v)
                        ∧ (no_row sheet idx n k → d' !! k = d0 !! k))
    as Hstop.
  { intros d0 -> Hnot. exists (idx - 1).
    replace (S (idx - 1)) with idx by lia.
    split; [lia|]. split; [intros i ?; lia|]. split; [done|].
    intros k. split; [|done]. intros v (i & ? & _). lia. }
  destruct (sheet !! cell "A" idx) as [key|] eqn:HA.
  2:{ intros [= <-]. apply Hstop; [done|].
      intros [[? HA'] _]. by rewrite HA in HA'. }
  destruct (sheet !! cell "B" idx) as [val|] eqn:HB.
  2:{ intros [= <-]. apply Hstop; [done|].
      intros [_ [? HB']]. by rewrite HB in HB'. }
  intros Hrec. apply IH in Hrec as (n & Hn & Hrows & Hend & Hd'); [|lia].
  exists n. split; [lia|]. split; [|split; [done|]].
  - intros i Hi. destruct (decide (i = idx)) as [->|Hne].
    + split; [by rewrite HA|by rewrite HB].
    + apply Hrows. lia.
  - intros k. destruct (Hd' k) as [Hlast Hnone]. split.
    + intros v (i & Hi & HAi & HBi & Hafter).
      destruct (decide (i = idx)) as [->|Hne].
      * rewrite Hnone.
        -- rewrite HA in HAi. rewrite HB in HBi.
           injection HAi as ->. injection HBi as ->.
           by rewrite lookup_insert_eq.
        -- intros j Hj. apply Hafter. lia.
      * apply Hlast. exists i. repeat split; try done; lia.
    + intros Hno. rewrite Hnone.
      * rewrite lookup_insert_ne; [done|].
        intros ->. by apply (Hno idx); [lia|].
      * intros j Hj. apply Hno. lia.
Qed.

Lemma default_fields_lookup (k : pyval) :
  is_Some (default_fields !! k) ↔ k ∈ STANDARDS_FIELDS_NAME.
Proof.
  unfold default_fields, STANDARDS_FIELDS_NAME.
  rewrite !lookup_insert_is_Some', !elem_of_cons, lookup_empty.
  rewrite elem_of_nil, is_Some_alt. naive_solver.
Qed.

Section Book.
Context `{Host}.

Lemma fill_step_standard (standard_fields editable_fields : dict)
    (k v old : pyval) :
  k ∈ STANDARDS_FIELDS_NAME →
  standard_fields !! k = Some old →
  fill_step (standard_fields, editable_fields) (k, v)
  = Ok (<[k := field_value k v old]> standard_fields, editable_fields).
Proof.
  intros Hk Hold. unfold fill_step, field_value, dict_getitem.
  rewrite decide_True by done.
  case_decide; [|done]. rewrite Hold. by destruct (py_int v).
Qed.

Lemma fill_step_editable (standard_fields editable_fields : dict)
    (k v : pyval) :
  k ∉ STANDARDS_FIELDS_NAME →
  fill_step (standard_fields, editable_fields) (k, v)
  = Ok (standard_fields, <[k := v]> editable_fields).
Proof. intros Hk. unfold fill_step. by rewrite decide_False. Qed.

(** The loop over the items of [temp_dict], each key once. *)
Lemma fill_spec (items : list (pyval * pyval))
    (standard_fields editable_fields : dict) :
  NoDup items.*1 →
  (∀ k, k ∈ STANDARDS_FIELDS_NAME → is_Some (standard_fields !! k)) →
  ∃ sf ef,
    fill items (standard_fields, editable_fields) = Ok (sf, ef)
    ∧ ∀ k,
        match (list_to_map items : dict) !! k with
        | None => sf !! k = standard_fields !! k
                  ∧ ef !! k = editable_fields !! k
        | Some v =>
            if decide (k ∈ STANDARDS_FIELDS_NAME) then
              (∃ old, standard_fields !! k = Some old
                      ∧ sf !! k = Some (field_value k v old))
              ∧ ef !! k = editable_fields !! k
            else sf !! k = standard_fields !! k ∧ ef !! k = Some v
        end.
Proof.
  revert standard_fields editable_fields.
  induction items as [|[k1 v1] items IH];
    intros standard_fields editable_fields Hnd Hstd.
  - eexists _, _. split; [done|]. intros k. simpl.
    by rewrite lookup_empty.
  - rewrite fmap_cons in Hnd. apply NoDup_cons in Hnd as [Hk1 Hnd].
    simpl in Hk1.
    apply (not_elem_of_list_to_map_1 (M:=gmap pyval)) in Hk1.
    cbn [fill].
    destruct (decide (k1 ∈ STANDARDS_FIELDS_NAME)) as [Hin|Hin].
    + destruct (Hstd k1 Hin) as [old Hold].
      rewrite (fill_step_standard _ _ _ _ _ Hin Hold).
      destruct (IH (<[k1 := field_value k1 v1 old]> standard_fields)
                  editable_fields Hnd) as (sf & ef & Hfill & Hk).
      { intros k Hk. rewrite lookup_insert_is_Some'. right. by apply Hstd. }
      exists sf, ef. split; [exact Hfill|].
      intros k. specialize (Hk k). cbn [list_to_map foldr uncurry curry].
      destruct (decide (k = k1)) as [->|Hne].
      * rewrite (lookup_insert_eq (list_to_map items)).
        rewrite Hk1 in Hk. rewrite lookup_insert_eq in Hk.
        rewrite decide_True by done. destruct Hk as [Hsf Hef].
        split; [by exists old|done].
      * rewrite (lookup_insert_ne (list_to_map items)) by done.
        rewrite lookup_insert_ne in Hk by done. exact Hk.
    + rewrite (fill_step_editable _ _ _ _ Hin).
      destruct (IH standard_fields (<[k1 := v1]> editable_fields) Hnd Hstd)
        as (sf & ef & Hfill & Hk).
      exists sf, ef. split; [exact Hfill|].
      intros k. specialize (Hk k). cbn [list_to_map foldr uncurry curry].
      destruct (decide (k = k1)) as [->|Hne].
      * rewrite (lookup_insert_eq (list_to_map items)).
        rewrite Hk1 in Hk. rewrite lookup_insert_eq in Hk.
        by rewrite decide_False.
      * rewrite (lookup_insert_ne (list_to_map items)) by done.
        rewrite lookup_insert_ne in Hk by done. exact Hk.
Qed.

(** C8 (amended). After [_getBookParameters], whatever the two
    dictionaries held before, [standard_fields] has exactly the five
    keys.  Without a spreadsheet labelled "#TECHINFO#" they hold
    Stating_Page = 1, Nb_Page_After = 0, Date_Field = "FC-DATE",
    Scale_Field = "FC-SC", Sheet_Field = "FC-SH", and
    [editable_fields] is empty.  With one, the rows read are the rows
    1 to n, row n + 1 being the first with an empty cell in column A
    or B, and for a key the last of these rows that has it counts: a
    standard field takes the value of its row, converted to an integer
    for Stating_Page and Nb_Page_After and left at its default when it
    is not an integer; a row with another key goes into
    [editable_fields]; a field without a row keeps its default. *)
Theorem getBookParameters_fields (doc : Doc)
    (standard_fields editable_fields : dict) (w : World) :
  ∃ sf ef,
    _getBookParameters doc standard_fields editable_fields w
    = (Ok (sf, ef), after w [EvFindSheets doc INFO_SPREADSHEET_LABEL])
    ∧ (∀ k, is_Some (sf !! k) ↔ k ∈ STANDARDS_FIELDS_NAME)
    ∧ match findSheets doc INFO_SPREADSHEET_LABEL with
      | [] => sf = default_fields ∧ ef = ∅
      | sheet :: _ =>
          ∃ n,
            rows_read sheet n
            ∧ (∀ k, no_row sheet 1 n k →
                    sf !! k = default_fields !! k ∧ ef !! k = None)
            ∧ (∀ k v,
                 last_row sheet 1 n k v →
                 (k ∉ STANDARDS_FIELDS_NAME → ef !! k = Some v)
                 ∧ (k ∈ STANDARDS_FIELDS_NAME → ef !! k = None)
                 ∧ (k ∈ [PStr "Date_Field"; PStr "Scale_Field";
                         PStr "Sheet_Field"] →
                    sf !! k = Some v)
                 ∧ (k ∈ [PStr "Stating_Page"; PStr "Nb_Page_After"] →
                    match py_int v with
                    | Some z => sf !! k = Some (PInt z)
                    | None => sf !! k = default_fields !! k
                    end))
      end.
Proof.
  unfold _getBookParameters. fold default_fields.
  unfold bind at 1, emit at 1.
  destruct (findSheets doc INFO_SPREADSHEET_LABEL) as [|sheet others].
  { exists default_fields, ∅. split; [done|].
    split; [apply default_fields_lookup|done]. }
  destruct (read_rows_total sheet ∅) as [temp_dict Hread].
  rewrite Hread.
  apply read_rows_spec in Hread as (n & _ & Hrows & Hend & Htemp); [|lia].
  destruct (fill_spec (dict_items temp_dict) default_fields ∅)
    as (sf & ef & Hfill & Hk).
  { apply NoDup_fst_map_to_list. }
  { intros k. apply default_fields_lookup. }
  unfold dict_items in Hk. rewrite list_to_map_to_list in Hk.
  exists sf, ef. unfold lift. rewrite Hfill. split; [done|]. split.
  - intros k. specialize (Hk k).
    destruct (temp_dict !! k) as [v|].
    + case_decide as Hstd.
      * destruct Hk as [(old & _ & ->) _]. by split.
      * destruct Hk as [-> _]. apply default_fields_lookup.
    + destruct Hk as [-> _]. apply default_fields_lookup.
  - exists n. split; [by split|]. split.
    + intros k Hno. specialize (Hk k).
      destruct (Htemp k) as [_ Hnone]. rewrite (Hnone Hno) in Hk.
      by rewrite lookup_empty in Hk.
    + intros k v Hlast. specialize (Hk k).
      destruct (Htemp k) as [Hsome _]. rewrite (Hsome v Hlast) in Hk.
      case_decide as Hstd.
      * destruct Hk as [(old & Hold & Hsf) Hef].
        rewrite lookup_empty in Hef.
        split; [done|]. split; [done|]. split.
        -- intros Hname. rewrite Hsf. unfold field_value.
           rewrite decide_False; [done|].
           intros [-> | ->]; set_solver.
        -- intros Hint. rewrite Hsf. unfold field_value.
           rewrite decide_True by set_solver.
           rewrite Hold. by destruct (py_int v).
      * destruct Hk as [Hsf Hef].
        split; [done|]. split; [done|]. split.
        -- intros Hname. destruct Hstd. set_solver.
        -- intros Hint. destruct Hstd. set_solver.
Qed.

End Book.

(** C8, as stated: the third row of the sheet has the key "Checker",
    which is not one of the five, and it does not go into
    [editable_fields], the second row being empty. *)
Lemma getBookParameters_skips_row_after_gap :
  Demo.gap_sheet !! cell "A" 3 = Some (PStr "Checker")
  ∧ Demo.gap_sheet !! cell "B" 3 = Some (PStr "anne")
  ∧ (PStr "Checker" ∉ STANDARDS_FIELDS_NAME)
  ∧ ∃ sf ef,
      (@_getBookParameters (Demo.host_of Demo.gap_sheet true "") 0 ∅ ∅
         Demo.world).1 = Ok (sf, ef)
      ∧ ef !! PStr "Checker" = None
      ∧ ef !! PStr "Author" = Some (PStr "didier").
Proof.
  split; [by vm_compute|]. split; [by vm_compute|].
  split; [set_solver|].
  eexists _, _. split; [vm_compute; reflexivity|].
  split; by vm_compute.
Qed.

(** ** The concrete project *)

(** The pages of a list returned by the walk are pairwise distinct when
    the documents do not share pages. *)
Lemma pages_of_NoDup `{Host} (docs : list Doc) :
  (∀ doc, NoDup (findDrawPages doc)) →
  (∀ doc doc' page,
     page ∈ findDrawPages doc → page ∈ findDrawPages doc' → doc = doc') →
  NoDup docs →
  NoDup (pages_of docs).*2.
Proof.
  intros Hpages Hshare Hnd. unfold pages_of.
  induction Hnd as [|doc docs Hdoc Hnd IH]; [constructor|].
  cbn [mbind list_bind]. rewrite fmap_app. apply NoDup_app. repeat split.
  - rewrite <- list_fmap_compose. simpl.
    by rewrite list_fmap_id.
  - intros page Hin Hin'.
    apply list_elem_of_fmap in Hin as ([d p] & -> & Hin).
    apply list_elem_of_fmap in Hin as (q & [= -> ->] & Hin).
    apply list_elem_of_fmap in Hin' as ([d' p'] & Heq & Hin').
    simpl in Heq. subst p'.
    apply list_elem_of_bind in Hin' as (doc' & Hin' & Hdoc').
    apply list_elem_of_fmap in Hin' as (q' & [= -> ->] & Hin').
    pose proof (Hshare _ _ _ Hin Hin') as ->. done.
  - exact IH.
Qed.

(** In the list that the walk returns for [Activated] each page is
    there once, as the numbering of the sheets supposes. *)
Lemma createTechDrawDocumentList_pages_distinct `{Host} (depth : nat)
    (file_name file_path : string) (recursive : bool) (w w' : World)
    (r : list (Doc * Page) * list Doc) :
  (∀ doc, NoDup (findDrawPages doc)) →
  (∀ doc doc' page,
     page ∈ findDrawPages doc → page ∈ findDrawPages doc' → doc = doc') →
  _createTechDrawDocumentList depth file_name file_path [] recursive w
  = (Ok r, w') →
  NoDup r.1.*2.
Proof.
  intros Hpages Hshare Hrun.
  apply createTechDrawDocumentList_collects in Hrun as (new & _ & -> & Hnd).
  apply pages_of_NoDup; [done..|]. apply Hnd. constructor.
Qed.

(** The walk over the project, two nested calls being enough. *)
Example demo_walk :
  (@_createTechDrawDocumentList (Demo.host true "/out/book") 2
     "master.FCStd" "/proj" [] true Demo.world).1
  = Ok (Demo.doc_list, [0; 1; 2]).
Proof. vm_compute. reflexivity. Qed.

(** The sheet numbers of the book: three pages from 3, none after. *)
Example demo_sheets :
  (EditableTexts (@Activated (Demo.host true "/out/book") 5 Demo.world).2
     !!! 10) !! PStr "SHEET" = Some (PStr "3 / 5")
  ∧ (EditableTexts (@Activated (Demo.host true "/out/book") 5 Demo.world).2
       !!! 11) !! PStr "SHEET" = Some (PStr "4 / 5")
  ∧ (EditableTexts (@Activated (Demo.host true "/out/book") 5 Demo.world).2
       !!! 20) !! PStr "SHEET" = Some (PStr "5 / 5").
Proof. vm_compute. done. Qed.

Lemma computeTechDraw_sheet_numbers_witness :
  NoDup Demo.doc_list.*2
  ∧ ∃ w',
      @_computeTechDraw (Demo.host true "") Demo.doc_list Demo.fields
        Demo.user_date Demo.world = (Ok tt, w')
      ∧ ∀ i doc page,
          (1 <= i)%Z →
          Demo.doc_list !! Z.to_nat (i - 1) = Some (doc, page) →
          is_Some ((EditableTexts Demo.world !!! page) !! PStr "SHEET") →
          (EditableTexts w' !!! page) !! PStr "SHEET"
          = Some (PStr (pretty (3 + i - 1)%Z +:+ " / "
                          +:+ pretty (3 + Z.of_nat (length Demo.doc_list)
                                        + 0 - 1)%Z)).
Proof.
  assert (NoDup Demo.doc_list.*2) as Hnd
    by (apply (bool_decide_unpack _); vm_compute; exact I).
  split; [exact Hnd|].
  apply (@computeTechDraw_sheet_numbers (Demo.host true "") Demo.doc_list
           Demo.fields Demo.user_date 3 0 (PStr "FC-DATE") (PStr "FC-SC")
           (PStr "SHEET") Demo.world);
    try (vm_compute; reflexivity).
  - exact Hnd.
  - intros doc page Hin.
    assert (doc = 0 ∨ doc = 1) as [-> | ->].
    { unfold Demo.doc_list in Hin. rewrite !elem_of_cons in Hin.
      rewrite elem_of_nil in Hin.
      destruct Hin as [[= -> _]|[[= -> _]|[[= -> _]|[]]]]; auto. }
    + eexists. vm_compute. reflexivity.
    + eexists. vm_compute. reflexivity.
Defined.

Lemma getDocumentTechDraw_missing_file_witness :
  @openDocument (Demo.host true "") "/proj/missing.FCStd" = Raise OSError
  ∧ @_getDocumentTechDraw (Demo.host true "") "/proj/missing.FCStd" [0; 1]
      Demo.world
    = (Ok ([], [0; 1]),
       after Demo.world
         [EvOpenDocument "/proj/missing.FCStd";
          EvPrint "File /proj/missing.FCStd could not be opened !"]).
Proof.
  split; [reflexivity|].
  apply (@getDocumentTechDraw_missing_file (Demo.host true "")
           "/proj/missing.FCStd" [0; 1] Demo.world).
  reflexivity.
Defined.

Lemma Activated_phases_witness :
  @dialog_exec (Demo.host true "/out/book") = true
  ∧ (@Activated (Demo.host true "/out/book") 5 Demo.world).1 = Ok tt
  ∧ ∃ (filename : string) (standard_fields editable_fields : dict)
      (doc_list : list (Doc * Page)) (treated : list Doc)
      (w1 w2 w3 w4 w5 : World) (t_walk t_export : list event),
      filename = "/out/book.pdf"
      ∧ doc_list = Demo.doc_list
      ∧ @_getUserParameters (Demo.host true "/out/book") "/proj" Demo.world
        = (Ok (true, Some filename), w1)
      ∧ w1
        = after Demo.world
            [EvMessageBox "TECHBOOK"
               "Do you want to iterate recursively over all included subassemblies?";
             EvFileDialog "/proj" true]
      ∧ @_getBookParameters (Demo.host true "/out/book") 0 ∅ ∅ w1
        = (Ok (standard_fields, editable_fields), w2)
      ∧ w2 = after w1 [EvFindSheets 0 "#TECHINFO#"]
      ∧ @_createTechDrawDocumentList (Demo.host true "/out/book") 5
          "master.FCStd" "/proj" [] true w2
        = (Ok (doc_list, treated), w3)
      ∧ w3 = after w2 t_walk
      ∧ @_computeTechDraw (Demo.host true "/out/book") doc_list
          standard_fields editable_fields w3
        = (Ok tt, w4)
      ∧ trace w4
        = trace w3
          ++ flat_map (λ dp, [EvSetEditableTexts dp.2; EvRecompute dp.2])
               doc_list
      ∧ @_createPDFFile (Demo.host true "/out/book") 0 doc_list filename w4
        = (Ok tt, w5)
      ∧ trace w5 = trace w4 ++ t_export
      ∧ (@Activated (Demo.host true "/out/book") 5 Demo.world).2
        = after w5
            [EvMessageBox "TechBook completed"
               ("File " +:+ filename +:+ " created.")]
      ∧ trace (@Activated (Demo.host true "/out/book") 5 Demo.world).2
        = trace Demo.world
          ++ [EvMessageBox "TECHBOOK"
                "Do you want to iterate recursively over all included subassemblies?";
              EvFileDialog "/proj" true]
          ++ [EvFindSheets 0 "#TECHINFO#"]
          ++ t_walk
          ++ flat_map (λ dp, [EvSetEditableTexts dp.2; EvRecompute dp.2])
               doc_list
          ++ t_export
          ++ [EvMessageBox "TechBook completed"
                ("File " +:+ filename +:+ " created.")]
      ∧ Forall (λ e, phase_of e = ReferenceWalk) t_walk
      ∧ Forall (λ e, phase_of e = ExportMerge) t_export
      ∧ omap exported t_export
        = imap (λ i dp,
                  (dp.2, @page_file (Demo.host true "/out/book") 0 (1 + i)))
            doc_list
      ∧ omap written t_export = [filename]
      ∧ ∀ page pdf_file,
          EvExportPdf page pdf_file ∈ t_export →
          EvSetEditableTexts page
          ∈ flat_map (λ dp, [EvSetEditableTexts dp.2; EvRecompute dp.2])
              doc_list.
Proof.
  split; [reflexivity|]. split; [vm_compute; reflexivity|].
  destruct (@Activated_phases (Demo.host true "/out/book") 5 0 Demo.world
              (@Activated (Demo.host true "/out/book") 5 Demo.world).2)
    as (filename & sf & ef & doc_list & treated & w1 & w2 & w3 & w4 & w5
        & t_walk & t_export & Huser & Hw1 & Hparams & Hw2 & Hwalk & Hrest).
  - reflexivity.
  - reflexivity.
  - vm_compute. reflexivity.
  - exists filename, sf, ef, doc_list, treated, w1, w2, w3, w4, w5,
      t_walk, t_export.
    split; [|split; [|split; [exact Huser|split; [exact Hw1|
      split; [exact Hparams|split; [exact Hw2|split;
        [exact Hwalk|exact Hrest]]]]]]].
    + clear - Huser. vm_compute in Huser. by injection Huser as <- _.
    + clear - Hwalk Hw1 Hw2. subst w1 w2. vm_compute in Hwalk.
      by injection Hwalk as <- _ _.
Defined.

Lemma createPDFFile_book_witness :
  @writable (Demo.host true "/out/book") "/out/book.pdf" = true
  ∧ ∃ w' evs,
      @_createPDFFile (Demo.host true "/out/book") 0 Demo.doc_list
        "/out/book.pdf" Demo.world = (Ok tt, w')
      ∧ trace w' = trace Demo.world ++ evs
      ∧ omap exported evs
        = [(10, "/tmp/Page1.pdf"); (11, "/tmp/Page2.pdf");
           (20, "/tmp/Page3.pdf")]
      ∧ omap appended evs
        = ["/tmp/Page1.pdf"; "/tmp/Page2.pdf"; "/tmp/Page3.pdf"]
      ∧ omap written evs = ["/out/book.pdf"]
      ∧ files w' !! "/out/book.pdf"
        = Some (render Demo.world <$> Demo.doc_list)
      ∧ EditableTexts w' = EditableTexts Demo.world
      ∧ Forall (λ e, phase_of e = ExportMerge) evs.
Proof.
  split; [reflexivity|].
  apply (@createPDFFile_book (Demo.host true "/out/book") 0 Demo.doc_list
           "/out/book.pdf" Demo.world).
  reflexivity.
Defined.

(** * Further properties *)

(** ** The walk *)

Section WalkMore.
Context `{Host}.

Lemma getDocumentTechDraw_opens (full_filename : string) (treated : list Doc)
    (w : World) :
  (∀ filename e, openDocument filename = Raise e → e = OSError) →
  ∃ r evs,
    _getDocumentTechDraw full_filename treated w = (Ok r, after w evs)
    ∧ omap opened evs = [full_filename]
    ∧ omap references_read evs = []
    ∧ ∀ doc, doc ∈ r.2 → doc ∈ treated ∨ openDocument full_filename = Ok doc.
Proof.
  intros Honly.
  destruct (openDocument full_filename) as [doc|e] eqn:Hopen.
  - destruct (decide (doc ∈ treated)) as [Hin|Hin].
    + rewrite (getDocumentTechDraw_treated _ _ _ _ Hopen Hin).
      eexists _, _. split; [done|]. repeat split. intros d Hd. by left.
    + rewrite (getDocumentTechDraw_new _ _ _ _ Hopen Hin).
      eexists _, _. split; [done|]. repeat split. simpl.
      intros d [Hd| ->%list_elem_of_singleton]%elem_of_app; [by left|by right].
  - pose proof (Honly _ _ Hopen) as ->.
    rewrite (getDocumentTechDraw_missing _ _ _ Hopen).
    eexists _, _. split; [done|]. repeat split. intros d Hd. by left.
Qed.

Lemma walk_objects_not_recursive
    (rec : string → string → list Doc → M (list (Doc * Page) * list Doc))
    (file_path : string) (obs : list A2pObject) (ret_val : list (Doc * Page))
    (treated : list Doc) (w : World) :
  (∀ filename e, openDocument filename = Raise e → e = OSError) →
  ∃ r evs,
    walk_objects rec file_path false obs ret_val treated w = (Ok r, after w evs)
    ∧ omap opened evs = source_file file_path <$> obs
    ∧ omap references_read evs = []
    ∧ ∀ doc, doc ∈ r.2 →
        doc ∈ treated
        ∨ ∃ ob, ob ∈ obs ∧ openDocument (source_file file_path ob) = Ok doc.
Proof.
  intros Honly. revert ret_val treated w.
  induction obs as [|ob obs IH]; intros ret_val treated w.
  - exists (ret_val, treated), []. rewrite after_nil. repeat split.
    intros doc Hdoc. by left.
  - rewrite walk_objects_cons. unfold visit. cbn [andb].
    destruct (getDocumentTechDraw_opens
                (findSourceFileInProject (getA2pSource ob) file_path)
                treated w Honly) as (r1 & evs1 & -> & Ho1 & Hr1 & Hd1).
    destruct (IH (ret_val ++ r1.1) r1.2 (after w evs1))
      as (r & evs & -> & Ho & Hr & Hd).
    exists r, (evs1 ++ evs). rewrite after_after. split; [done|].
    rewrite !omap_app, Ho1, Ho, Hr1, Hr. repeat split.
    intros doc Hdoc. destruct (Hd doc Hdoc) as [Hin|(ob' & Hob' & Hopen)].
    + destruct (Hd1 doc Hin) as [?|Hopen]; [by left|].
      right. exists ob. split; [by left|done].
    + right. exists ob'. split; [by right|done].
Qed.

Lemma walk_objects_not_recursive_ext
    (rec rec' : string → string → list Doc → M (list (Doc * Page) * list Doc))
    (file_path : string) (obs : list A2pObject) (ret_val : list (Doc * Page))
    (treated : list Doc) (w : World) :
  walk_objects rec file_path false obs ret_val treated w
  = walk_objects rec' file_path false obs ret_val treated w.
Proof.
  revert ret_val treated w. induction obs as [|ob obs IH];
    intros ret_val treated w; [done|].
  rewrite !walk_objects_cons. unfold visit. cbn [andb].
  destruct (_getDocumentTechDraw _ _ _) as [[r|e] w1]; [apply IH|done].
Qed.

(** X1. When the user answers No, the walk returns whatever the
    references are, a cycle included, provided that opening a file fails
    with [OSError] only.  It reads the references of the assembly itself
    and of no other file, opens the assembly and then the file of each
    of its objects, in order, and adds to [treated] documents among
    these only; the bound on the nesting of the calls plays no role. *)
Theorem createTechDrawDocumentList_not_recursive (depth : nat)
    (file_name file_path : string) (treated : list Doc) (w : World) :
  (∀ filename e, openDocument filename = Raise e → e = OSError) →
  ∃ r evs,
    _createTechDrawDocumentList (S depth) file_name file_path treated false w
    = (Ok r, after w evs)
    ∧ omap references_read evs = [path_join file_path file_name]
    ∧ omap opened evs
      = path_join file_path file_name
        :: (source_file file_path
              <$> getA2pObjects (path_join file_path file_name))
    ∧ (∀ doc, doc ∈ r.2 →
         doc ∈ treated
         ∨ openDocument (path_join file_path file_name) = Ok doc
         ∨ ∃ ob, ob ∈ getA2pObjects (path_join file_path file_name)
                 ∧ openDocument (source_file file_path ob) = Ok doc)
    ∧ _createTechDrawDocumentList 1 file_name file_path treated false w
      = (Ok r, after w evs).
Proof.
  intros Honly.
  assert (∀ depth0,
            _createTechDrawDocumentList (S depth0) file_name file_path treated
              false w
            = _createTechDrawDocumentList 1 file_name file_path treated
                false w) as Hdepth.
  { intros depth0. rewrite !createTechDrawDocumentList_S.
    destruct (_getDocumentTechDraw _ _ _) as [[r|e] w1]; [|done].
    apply walk_objects_not_recursive_ext. }
  rewrite Hdepth, createTechDrawDocumentList_S.
  destruct (getDocumentTechDraw_opens (path_join file_path file_name)
              treated w Honly) as (r1 & evs1 & -> & Ho1 & Hr1 & Hd1).
  rewrite after_after.
  destruct (walk_objects_not_recursive
              (λ name path treated0,
                 _createTechDrawDocumentList 0 name path treated0 false)
              file_path (getA2pObjects (path_join file_path file_name))
              r1.1 r1.2
              (after w (evs1 ++ [EvReadA2p (path_join file_path file_name)]))
              Honly) as (r & evs & -> & Ho & Hr & Hd).
  exists r, ((evs1 ++ [EvReadA2p (path_join file_path file_name)]) ++ evs).
  rewrite after_after. split; [done|].
  rewrite !omap_app, Ho1, Ho, Hr1, Hr. simpl. repeat split.
  intros doc Hdoc. destruct (Hd doc Hdoc) as [Hin|Hob]; [|by right; right].
  destruct (Hd1 doc Hin) as [?|?]; [by left|by right; left].
Qed.

(** X2. A walk that returns has added each document to [treated] at
    most once: [treated], without duplicates before, is without
    duplicates after, the documents of before first; and the list
    returned holds the pages of the documents added, document after
    document in the order in which they were added, the pages of one
    document in the order of the document. *)
Theorem createTechDrawDocumentList_once (depth : nat)
    (file_name file_path : string) (treated : list Doc) (recursive : bool)
    (w w' : World) (r : list (Doc * Page) * list Doc) :
  NoDup treated →
  _createTechDrawDocumentList depth file_name file_path treated recursive w
  = (Ok r, w') →
  ∃ new, r.2 = treated ++ new ∧ NoDup r.2 ∧ r.1 = pages_of new.
Proof.
  intros Hnd Hrun.
  apply createTechDrawDocumentList_collects in Hrun as (new & Ht & Hr & Hno).
  exists new. rewrite Ht. auto.
Qed.

(** X3. When the references have no cycle (a rank decreases from an
    assembly to its sub-assemblies) and opening a file fails with
    [OSError] only, the walk returns as soon as the calls may nest
    deeper than the rank of the assembly. *)
Theorem createTechDrawDocumentList_acyclic (rank : string → string → nat)
    (depth : nat) (file_name file_path : string) (treated : list Doc)
    (recursive : bool) (w : World) :
  (∀ name path ob,
     ob ∈ getA2pObjects (path_join path name) →
     isSubassembly ob = true →
     rank (os_path_split (findSourceFileInProject (getA2pSource ob) path)).2
          (os_path_split (findSourceFileInProject (getA2pSource ob) path)).1
     < rank name path) →
  (∀ filename e, openDocument filename = Raise e → e = OSError) →
  rank file_name file_path < depth →
  ∃ r w',
    _createTechDrawDocumentList depth file_name file_path treated recursive w
    = (Ok r, w').
Proof.
  intros Hrank Honly Hdepth.
  by apply (createTechDrawDocumentList_returns rank Hrank Honly).
Qed.

(** X4. A file is collected once: after a call of
    [_getDocumentTechDraw] that returned, a second call for the same
    file returns no page and leaves [treated] as it is. *)
Theorem getDocumentTechDraw_twice (full_filename : string)
    (treated : list Doc) (w w1 : World) (r : list (Doc * Page) * list Doc) :
  _getDocumentTechDraw full_filename treated w = (Ok r, w1) →
  ∃ w2, _getDocumentTechDraw full_filename r.2 w1 = (Ok ([], r.2), w2).
Proof.
  destruct (openDocument full_filename) as [doc|e] eqn:Hopen.
  - destruct (decide (doc ∈ treated)) as [Hin|Hin].
    + rewrite (getDocumentTechDraw_treated _ _ _ _ Hopen Hin).
      intros [= <- <-]. simpl.
      rewrite (getDocumentTechDraw_treated _ _ _ _ Hopen Hin). by eexists.
    + rewrite (getDocumentTechDraw_new _ _ _ _ Hopen Hin).
      intros [= <- <-]. simpl.
      rewrite (getDocumentTechDraw_treated _ (treated ++ [doc]) _ _ Hopen);
        [by eexists|].
      apply elem_of_app. right. by apply list_elem_of_singleton.
  - destruct (decide (e = OSError)) as [->|Hne].
    + rewrite (getDocumentTechDraw_missing _ _ _ Hopen).
      intros [= <- <-]. simpl.
      rewrite (getDocumentTechDraw_missing _ _ _ Hopen). by eexists.
    + by rewrite (getDocumentTechDraw_raises _ _ _ _ Hopen Hne).
Qed.

(** X5. The pages of the assembly come first: when the file of the
    walk opens as a document that is not yet in [treated], the list
    returned begins with the pages of that document, which is the first
    document added to [treated]. *)
Theorem createTechDrawDocumentList_own_pages_first (depth : nat)
    (file_name file_path : string) (treated : list Doc) (recursive : bool)
    (w w' : World) (r : list (Doc * Page) * list Doc) (doc : Doc) :
  openDocument (path_join file_path file_name) = Ok doc →
  doc ∉ treated →
  _createTechDrawDocumentList depth file_name file_path treated recursive w
  = (Ok r, w') →
  ∃ others,
    r.2 = treated ++ doc :: others
    ∧ r.1 = ((λ page, (doc, page)) <$> findDrawPages doc) ++ pages_of others.
Proof.
  intros Hopen Hnew. destruct depth as [|depth]; [done|].
  rewrite createTechDrawDocumentList_S.
  rewrite (getDocumentTechDraw_new _ _ _ _ Hopen Hnew). simpl.
  intros Hwalk.
  apply walk_objects_collects in Hwalk as (r0 & (new & Ht & Hr & _) & ->).
  - exists new. simpl. rewrite Ht, Hr, <- app_assoc. split; [done|].
    unfold pages_of at 1. simpl. by rewrite app_nil_r.
  - intros name path treated0 w0 r' w0'.
    apply createTechDrawDocumentList_collects.
Qed.

(** X6. Whether it returns or raises, the walk changes no text of a
    page, no file and no visibility: it adds to the trace, and only
    openings of documents, readings of references and printed lines. *)
Theorem createTechDrawDocumentList_changes_nothing (depth : nat)
    (file_name file_path : string) (treated : list Doc) (recursive : bool)
    (w : World) :
  ∃ evs,
    (_createTechDrawDocumentList depth file_name file_path treated recursive
       w).2 = after w evs
    ∧ Forall (λ e, ∃ text, e = EvOpenDocument text ∨ e = EvReadA2p text
                           ∨ e = EvPrint text) evs.
Proof.
  destruct (createTechDrawDocumentList_emits depth file_name file_path treated
              recursive w) as (evs & Hw & Hevs).
  exists evs. split; [done|].
  eapply Forall_impl; [exact Hevs|].
  intros [] Hph; try discriminate Hph; eexists; eauto.
Qed.

End WalkMore.

(** ** The pass over the pages *)

Section TextsMore.
Context `{Host}.

Lemma computeEditableFields_fails (doc : Doc) (page : Page)
    (templates_data : dict) (date_field scale_field : pyval) (w : World)
    (e : exn) :
  parse_modified (LastModifiedDate doc) = Raise e →
  _computeEditableFields doc page templates_data date_field scale_field w
  = (Raise e, w).
Proof.
  intros Hdate. unfold _computeEditableFields, bind, get_EditableTexts, lift.
  by rewrite Hdate.
Qed.

(** The loop of [_computeTechDraw] when all the dates parse, the pages
    being distinct or not. *)
Lemma stamp_pages_run (doc_list : list (Doc * Page)) (templates_data : dict)
    (sheet_field nb_page date_field scale_field : pyval) (first : Z)
    (w : World) :
  (∀ doc page, (doc, page) ∈ doc_list →
     ∃ modified, parse_modified (LastModifiedDate doc) = Ok modified) →
  ∃ w',
    stamp_pages doc_list templates_data sheet_field nb_page date_field
      scale_field (PInt first) w = (Ok tt, w')
    ∧ (∀ other, other ∉ doc_list.*2 →
         EditableTexts w' !!! other = EditableTexts w !!! other)
    ∧ Visibility w' = Visibility w
    ∧ files w' = files w
    ∧ trace w'
      = trace w
        ++ flat_map (λ dp, [EvSetEditableTexts dp.2; EvRecompute dp.2])
             doc_list.
Proof.
  revert templates_data first w.
  induction doc_list as [|[doc page] doc_list IH];
    intros templates_data first w Hdates.
  - exists w. simpl. rewrite app_nil_r. by unfold ret.
  - destruct (Hdates doc page) as [modified Hdate]; [by left|].
    cbn [stamp_pages].
    destruct (computeEditableFields_texts doc page
                (<[sheet_field :=
                     PStr (py_str (PInt first) +:+ " / " +:+ py_str nb_page)]>
                   templates_data)
                date_field scale_field w modified Hdate)
      as (texts & Hrun & _).
    rewrite (bind_ok _ _ _ _ _ Hrun). cbn [py_add lift bind].
    set (w1 := mkWorld _ _ _ _).
    destruct (IH (<[sheet_field :=
                      PStr (py_str (PInt first) +:+ " / " +:+ py_str nb_page)]>
                    templates_data) (first + 1)%Z w1)
      as (w' & Hrest & Hfr & Hv & Hf & Htr).
    { intros d p Hin. apply (Hdates d p). by right. }
    exists w'. split; [exact Hrest|]. repeat split.
    + intros other Hother. rewrite fmap_cons in Hother.
      apply not_elem_of_cons in Hother as [Hne Hother].
      rewrite (Hfr other Hother). unfold w1. simpl.
      by rewrite lookup_total_insert_ne.
    + by rewrite Hv.
    + by rewrite Hf.
    + rewrite Htr. unfold w1. simpl. by rewrite <- app_assoc.
Qed.

Lemma stamp_pages_stops (before rest : list (Doc * Page)) (doc : Doc)
    (page : Page) (templates_data : dict)
    (sheet_field nb_page date_field scale_field : pyval) (first : Z)
    (w : World) (e : exn) :
  (∀ d p, (d, p) ∈ before →
     ∃ modified, parse_modified (LastModifiedDate d) = Ok modified) →
  parse_modified (LastModifiedDate doc) = Raise e →
  ∃ w',
    stamp_pages (before ++ (doc, page) :: rest) templates_data sheet_field
      nb_page date_field scale_field (PInt first) w = (Raise e, w')
    ∧ (∀ other, other ∉ before.*2 →
         EditableTexts w' !!! other = EditableTexts w !!! other)
    ∧ Visibility w' = Visibility w
    ∧ files w' = files w
    ∧ trace w'
      = trace w
        ++ flat_map (λ dp, [EvSetEditableTexts dp.2; EvRecompute dp.2]) before.
Proof.
  intros Hdates Hbad. revert templates_data first w.
  induction before as [|[d p] before IH]; intros templates_data first w.
  - exists w. simpl. rewrite app_nil_r.
    rewrite (bind_raise _ _ w w e); [done|].
    by apply computeEditableFields_fails.
  - destruct (Hdates d p) as [modified Hdate]; [by left|].
    change (((d, p) :: before) ++ (doc, page) :: rest)
      with ((d, p) :: (before ++ (doc, page) :: rest)).
    cbn [stamp_pages].
    destruct (computeEditableFields_texts d p
                (<[sheet_field :=
                     PStr (py_str (PInt first) +:+ " / " +:+ py_str nb_page)]>
                   templates_data)
                date_field scale_field w modified Hdate)
      as (texts & Hrun & _).
    rewrite (bind_ok _ _ _ _ _ Hrun). cbn [py_add lift bind].
    set (w1 := mkWorld _ _ _ _).
    destruct (IH (λ d0 p0 Hin, Hdates d0 p0 (list_elem_of_further _ _ _ Hin))
                (<[sheet_field :=
                     PStr (py_str (PInt first) +:+ " / " +:+ py_str nb_page)]>
                   templates_data) (first + 1)%Z w1)
      as (w' & Hrest & Hfr & Hv & Hf & Htr).
    exists w'. split; [exact Hrest|]. repeat split.
    + intros other Hother. rewrite fmap_cons in Hother.
      apply not_elem_of_cons in Hother as [Hne Hother].
      rewrite (Hfr other Hother). unfold w1. simpl.
      by rewrite lookup_total_insert_ne.
    + by rewrite Hv.
    + by rewrite Hf.
    + rewrite Htr. unfold w1. simpl. by rewrite <- app_assoc.
Qed.

(** X7. The pass over the pages is not undone when it fails: when the
    date of a document of the list cannot be read, the dates of the
    documents before it being read, [_computeTechDraw] raises the
    exception of that date after it has set the texts of the pages
    before, one after the other; no text of the page of that document
    or of a page after it is set, unless the page is also before it in
    the list, and no file or visibility changes. *)
Theorem computeTechDraw_stops_at_bad_date (before rest : list (Doc * Page))
    (doc : Doc) (page : Page) (standard_fields editable_fields : dict)
    (stating_page nb_after : Z) (date_field scale_field sheet_field : pyval)
    (w : World) (e : exn) :
  standard_fields !! PStr "Stating_Page" = Some (PInt stating_page) →
  standard_fields !! PStr "Nb_Page_After" = Some (PInt nb_after) →
  standard_fields !! PStr "Date_Field" = Some date_field →
  standard_fields !! PStr "Scale_Field" = Some scale_field →
  standard_fields !! PStr "Sheet_Field" = Some sheet_field →
  (∀ d p, (d, p) ∈ before →
     ∃ modified, parse_modified (LastModifiedDate d) = Ok modified) →
  parse_modified (LastModifiedDate doc) = Raise e →
  ∃ w',
    _computeTechDraw (before ++ (doc, page) :: rest) standard_fields
      editable_fields w = (Raise e, w')
    ∧ trace w'
      = trace w
        ++ flat_map (λ dp, [EvSetEditableTexts dp.2; EvRecompute dp.2]) before
    ∧ (∀ other, other ∉ before.*2 →
         EditableTexts w' !!! other = EditableTexts w !!! other)
    ∧ Visibility w' = Visibility w
    ∧ files w' = files w.
Proof.
  intros Hsp Hna Hdf Hscf Hshf Hdates Hbad.
  destruct (stamp_pages_stops before rest doc page editable_fields sheet_field
              (PInt (stating_page
                     + Z.of_nat (length (before ++ (doc, page) :: rest))
                     + nb_after - 1))
              date_field scale_field stating_page w e Hdates Hbad)
    as (w' & Hrun & Hfr & Hv & Hf & Htr).
  exists w'. split; [|done].
  unfold _computeTechDraw, bind, lift, dict_getitem.
  rewrite Hsp, Hna, Hdf, Hscf, Hshf. simpl. exact Hrun.
Qed.



(** X8. A date that cannot be read stops [_computeEditableFields]
    before it changes anything: an empty [LastModifiedDate] raises
    [IndexError], and a date that [fromisoformat] refuses, its final "Z"
    removed, raises [ValueError]; the texts of the page are as before. *)
Theorem computeEditableFields_unreadable_date (doc : Doc) (page : Page)
    (templates_data : dict) (date_field scale_field : pyval) (w : World)
    (e : exn) :
  (LastModifiedDate doc = EmptyString ∧ e = IndexError)
  ∨ (∃ iso,
       (LastModifiedDate doc = iso +:+ "Z"
        ∨ (LastModifiedDate doc = iso
           ∧ ∃ c, str_last iso = Some c ∧ c ≠ "Z"%char))
       ∧ fromisoformat iso = None ∧ e = ValueError) →
  _computeEditableFields doc page templates_data date_field scale_field w
  = (Raise e, w).
Proof.
  intros Hbad. apply computeEditableFields_fails. unfold parse_modified.
  destruct Hbad as [[-> ->]|(iso & [->|[-> (c & Hc & Hne)]] & Hiso & ->)].
  - done.
  - rewrite str_last_app, Ascii.eqb_refl, str_init_app. by rewrite Hiso.
  - rewrite Hc. destruct (Ascii.eqb_spec c "Z"); [done|]. by rewrite Hiso.
Qed.

End TextsMore.

(** ** From the spreadsheet to the pass over the pages *)

Section BookMore.
Context `{Host}.

(** The standard fields after [_getBookParameters]: two integers and
    three names. *)
Lemma getBookParameters_typed (doc : Doc)
    (standard_fields editable_fields : dict) (w : World) :
  ∃ sf ef stating_page nb_after date_field scale_field sheet_field,
    _getBookParameters doc standard_fields editable_fields w
    = (Ok (sf, ef), after w [EvFindSheets doc INFO_SPREADSHEET_LABEL])
    ∧ sf !! PStr "Stating_Page" = Some (PInt stating_page)
    ∧ sf !! PStr "Nb_Page_After" = Some (PInt nb_after)
    ∧ sf !! PStr "Date_Field" = Some date_field
    ∧ sf !! PStr "Scale_Field" = Some scale_field
    ∧ sf !! PStr "Sheet_Field" = Some sheet_field.
Proof.
  assert (∀ sf : dict,
            (∀ k, (sf !! k = default_fields !! k)
                  ∨ (k ∈ STANDARDS_FIELDS_NAME
                     ∧ ∃ v old, default_fields !! k = Some old
                                ∧ sf !! k = Some (field_value k v old))) →
            ∃ stating_page nb_after date_field scale_field sheet_field,
              sf !! PStr "Stating_Page" = Some (PInt stating_page)
              ∧ sf !! PStr "Nb_Page_After" = Some (PInt nb_after)
              ∧ sf !! PStr "Date_Field" = Some date_field
              ∧ sf !! PStr "Scale_Field" = Some scale_field
              ∧ sf !! PStr "Sheet_Field" = Some sheet_field) as Htyped.
  { intros sf Hsf.
    assert (∃ z, sf !! PStr "Stating_Page" = Some (PInt z)) as [sp Hsp].
    { destruct (Hsf (PStr "Stating_Page")) as [->|(_ & v & old & Hold & ->)].
      - by eexists.
      - injection Hold as <-. unfold field_value.
        rewrite decide_True by auto. destruct (py_int v); by eexists. }
    assert (∃ z, sf !! PStr "Nb_Page_After" = Some (PInt z)) as [na Hna].
    { destruct (Hsf (PStr "Nb_Page_After")) as [->|(_ & v & old & Hold & ->)].
      - by eexists.
      - injection Hold as <-. unfold field_value.
        rewrite decide_True by auto. destruct (py_int v); by eexists. }
    assert (∀ k, k ∈ STANDARDS_FIELDS_NAME → is_Some (sf !! k)) as Hsome.
    { intros k Hk. destruct (Hsf k) as [->|(_ & v & old & _ & ->)]; [|done].
      by apply default_fields_lookup. }
    destruct (Hsome (PStr "Date_Field")) as [df Hdf]; [set_solver|].
    destruct (Hsome (PStr "Scale_Field")) as [scf Hscf]; [set_solver|].
    destruct (Hsome (PStr "Sheet_Field")) as [shf Hshf]; [set_solver|].
    by exists sp, na, df, scf, shf. }
  unfold _getBookParameters. fold default_fields.
  unfold bind at 1, emit at 1.
  destruct (findSheets doc INFO_SPREADSHEET_LABEL) as [|sheet others].
  { destruct (Htyped default_fields) as (sp & na & df & scf & shf & Hall);
      [by left|].
    by exists default_fields, ∅, sp, na, df, scf, shf. }
  destruct (read_rows_total sheet ∅) as [temp_dict ->].
  destruct (fill_spec (dict_items temp_dict) default_fields ∅)
    as (sf & ef & Hfill & Hk).
  { apply NoDup_fst_map_to_list. }
  { intros k. apply default_fields_lookup. }
  unfold dict_items in Hk. rewrite list_to_map_to_list in Hk.
  destruct (Htyped sf) as (sp & na & df & scf & shf & Hall).
  { intros k. specialize (Hk k). destruct (temp_dict !! k) as [v|].
    - case_decide as Hstd.
      + right. split; [done|]. destruct Hk as [(old & Hold & Hsf) _].
        by exists v, old.
      + left. by destruct Hk.
    - left. by destruct Hk. }
  exists sf, ef, sp, na, df, scf, shf. unfold lift. by rewrite Hfill.
Qed.

(** X9. For a spreadsheet whose cells hold integers or strings,
    [_getBookParameters] returns, whatever the two dictionaries held,
    and the fields it returns are those [_computeTechDraw] reads: the
    five keys are there, with integers under Stating_Page and
    Nb_Page_After.  So the lookups and the sum that open
    [_computeTechDraw] raise neither [KeyError] nor [TypeError]: the
    pass starts its loop at Stating_Page with the total
    Stating_Page + n + Nb_Page_After - 1 for a list of n pages. *)
Theorem getBookParameters_integers (doc : Doc)
    (standard_fields editable_fields : dict) (w : World) :
  ∃ sf ef stating_page nb_after date_field scale_field sheet_field,
    _getBookParameters doc standard_fields editable_fields w
    = (Ok (sf, ef), after w [EvFindSheets doc INFO_SPREADSHEET_LABEL])
    ∧ sf !! PStr "Stating_Page" = Some (PInt stating_page)
    ∧ sf !! PStr "Nb_Page_After" = Some (PInt nb_after)
    ∧ sf !! PStr "Date_Field" = Some date_field
    ∧ sf !! PStr "Scale_Field" = Some scale_field
    ∧ sf !! PStr "Sheet_Field" = Some sheet_field
    ∧ ∀ doc_list w1,
        _computeTechDraw doc_list sf ef w1
        = stamp_pages doc_list ef sheet_field
            (PInt (stating_page + Z.of_nat (length doc_list) + nb_after - 1))
            date_field scale_field (PInt stating_page) w1.
Proof.
  destruct (getBookParameters_typed doc standard_fields editable_fields w)
    as (sf & ef & sp & na & df & scf & shf & Hrun & Hsp & Hna & Hdf & Hscf
        & Hshf).
  exists sf, ef, sp, na, df, scf, shf.
  repeat (split; [done|]).
  intros doc_list w1.
  unfold _computeTechDraw, bind, lift, dict_getitem.
  by rewrite Hsp, Hna, Hdf, Hscf, Hshf.
Qed.

End BookMore.

(** ** The export *)

Lemma render_texts (w w' : World) (dp : Doc * Page) :
  EditableTexts w' = EditableTexts w → render w' dp = render w dp.
Proof. unfold render. by intros ->. Qed.

Section PdfMore.
Context `{Host}.

(** One turn of the loop of [_createPDFFile], from [page.Visibility]
    to [pdf_merger.append]. *)
Lemma export_pages_cons (base_doc doc : Doc) (page : Page)
    (doc_list : list (Doc * Page)) (nb : nat) (pdf_merger : PdfFileMerger)
    (w : World) :
  ∃ w1 ev0,
    export_pages base_doc ((doc, page) :: doc_list) nb pdf_merger w
    = export_pages base_doc doc_list (nb + 1)
        (pdf_merger ++ [(page, EditableTexts w !!! page)]) w1
    ∧ ev0 = (if bool_decide (page ∈ Visibility w) then []
             else [EvDoubleClicked page])
    ∧ EditableTexts w1 = EditableTexts w
    ∧ Visibility w1 = {[page]} ∪ Visibility w
    ∧ files w1
      = <[page_file base_doc nb := [(page, EditableTexts w !!! page)]]> (files w)
    ∧ trace w1
      = trace w ++ ev0 ++ [EvExportPdf page (page_file base_doc nb);
                           EvMergerAppend (page_file base_doc nb)].
Proof.
  cbn [export_pages]. unfold bind at 1, get_Visibility at 1. cbn beta iota.
  destruct (bool_decide (page ∈ Visibility w)) eqn:Hvis; cbn [negb].
  - apply bool_decide_eq_true in Hvis.
    unfold bind, ret, exportPageAsPdf, merger_append. cbn beta iota zeta.
    cbn [files]. rewrite lookup_insert_eq.
    eexists _, _. split; [reflexivity|]. split; [reflexivity|]. simpl.
    repeat split; [set_solver|by rewrite <- app_assoc].
  - unfold bind, doubleClicked, exportPageAsPdf, merger_append.
    cbn beta iota zeta. cbn [files]. rewrite lookup_insert_eq.
    eexists _, _. split; [reflexivity|]. split; [reflexivity|]. simpl.
    repeat split. by rewrite <- !app_assoc.
Qed.

Lemma export_pages_visibility (base_doc : Doc) (doc_list : list (Doc * Page))
    (nb : nat) (pdf_merger : PdfFileMerger) (w : World) :
  ∃ r w' evs,
    export_pages base_doc doc_list nb pdf_merger w = (Ok r, w')
    ∧ trace w' = trace w ++ evs
    ∧ Visibility w' = Visibility w ∪ list_to_set doc_list.*2
    ∧ NoDup (omap double_clicked evs)
    ∧ ∀ page, page ∈ omap double_clicked evs
              ↔ page ∈ doc_list.*2 ∧ page ∉ Visibility w.
Proof.
  revert nb pdf_merger w.
  induction doc_list as [|[doc page] doc_list IH]; intros nb pdf_merger w.
  - exists pdf_merger, w, []. simpl. rewrite app_nil_r.
    repeat split; [set_solver|constructor|set_solver..].
  - destruct (export_pages_cons base_doc doc page doc_list nb pdf_merger w)
      as (w1 & ev0 & -> & Hev0 & _ & Hv1 & _ & Htr1).
    destruct (IH (nb + 1) (pdf_merger ++ [(page, EditableTexts w !!! page)]) w1)
      as (r & w' & evs & Hrun & Htr & Hv & Hnd & Hdc).
    exists r, w',
      (ev0 ++ [EvExportPdf page (page_file base_doc nb);
               EvMergerAppend (page_file base_doc nb)] ++ evs).
    split; [exact Hrun|]. split; [by rewrite Htr, Htr1, <- !app_assoc|].
    split; [rewrite Hv, Hv1; cbn [fmap list_fmap]; set_solver|].
    rewrite !omap_app. simpl.
    destruct (bool_decide (page ∈ Visibility w)) eqn:Hvis; subst ev0; simpl.
    + apply bool_decide_eq_true in Hvis. split; [done|].
      intros q. rewrite Hdc, Hv1. cbn [fmap list_fmap]. set_solver.
    + apply bool_decide_eq_false in Hvis. split.
      * apply NoDup_cons. split; [|done]. rewrite Hdc, Hv1. set_solver.
      * intros q. rewrite elem_of_cons, Hdc, Hv1. cbn [fmap list_fmap]. simpl.
        destruct (decide (q = page)) as [->|Hne]; set_solver.
Qed.

(** X10. [_createPDFFile] shows the pages it exports and hides none,
    whether the book is then written or the output file cannot be
    opened: afterwards the visible pages are those of before and the
    pages of the list.  [doubleClicked] is called for the pages of the
    list that were not visible, and once for each. *)
Theorem createPDFFile_shows_pages (base_doc : Doc)
    (doc_list : list (Doc * Page)) (filename : string) (w : World) :
  ∃ w' evs,
    _createPDFFile base_doc doc_list filename w
    = (if writable filename then Ok tt else Raise OSError, w')
    ∧ trace w' = trace w ++ evs
    ∧ Visibility w' = Visibility w ∪ list_to_set doc_list.*2
    ∧ NoDup (omap double_clicked evs)
    ∧ ∀ page, page ∈ omap double_clicked evs
              ↔ page ∈ doc_list.*2 ∧ page ∉ Visibility w.
Proof.
  destruct (export_pages_visibility base_doc doc_list 1 [] w)
    as (r & w1 & evs & Hrun & Htr & Hv & Hnd & Hdc).
  unfold _createPDFFile. rewrite (bind_ok _ _ _ _ _ Hrun).
  unfold merger_write. destruct (writable filename).
  - eexists _, (evs ++ [EvWriteFile filename]).
    split; [reflexivity|]. simpl. rewrite omap_app. simpl. rewrite app_nil_r.
    split; [by rewrite Htr, <- app_assoc|]. done.
  - by exists w1, evs.
Qed.

Lemma export_pages_files (base_doc : Doc) (doc_list : list (Doc * Page))
    (nb : nat) (pdf_merger : PdfFileMerger) (w : World) :
  ∃ w',
    export_pages base_doc doc_list nb pdf_merger w
    = (Ok (pdf_merger ++ (render w <$> doc_list)), w')
    ∧ EditableTexts w' = EditableTexts w
    ∧ (∀ f, (∀ i, i < length doc_list → f ≠ page_file base_doc (nb + i)) →
            files w' !! f = files w !! f)
    ∧ ((∀ i j, i < length doc_list → j < length doc_list →
               page_file base_doc (nb + i) = page_file base_doc (nb + j) →
               i = j) →
       ∀ i dp, doc_list !! i = Some dp →
               files w' !! page_file base_doc (nb + i) = Some [render w dp]).
Proof.
  revert nb pdf_merger w.
  induction doc_list as [|[doc page] doc_list IH]; intros nb pdf_merger w.
  - exists w. simpl. rewrite app_nil_r. unfold ret. repeat split; try done.
  - destruct (export_pages_cons base_doc doc page doc_list nb pdf_merger w)
      as (w1 & ev0 & -> & _ & Ht1 & _ & Hf1 & _).
    destruct (IH (nb + 1) (pdf_merger ++ [(page, EditableTexts w !!! page)]) w1)
      as (w' & Hrun & Ht & Hframe & Hfiles).
    exists w'. split; [|split; [by rewrite Ht|split]].
    + assert (render w1 <$> doc_list = render w <$> doc_list) as Hrender
        by (apply list_fmap_ext; intros _ dp _; by apply render_texts).
      by rewrite Hrun, <- app_assoc, fmap_cons, Hrender.
    + intros f Hf. rewrite Hframe.
      * rewrite Hf1, lookup_insert_ne; [done|].
        intros Heq. apply (Hf 0); [simpl; lia|]. by rewrite Nat.add_0_r.
      * intros i Hi. replace (nb + 1 + i) with (nb + S i) by lia.
        apply Hf. simpl. lia.
    + intros Hdistinct [|i] dp Hlook.
      * simpl in Hlook. injection Hlook as <-. rewrite Nat.add_0_r.
        rewrite Hframe.
        -- rewrite Hf1, lookup_insert_eq. done.
        -- intros i Hi Heq.
           assert (0 = S i) as Hbad; [|done].
           apply Hdistinct; simpl; [lia..|].
           rewrite Nat.add_0_r, Heq. f_equal. lia.
      * simpl in Hlook. replace (nb + S i) with (nb + 1 + i) by lia.
        rewrite (Hfiles) with (dp := dp); [|..|exact Hlook].
        -- f_equal. f_equal. by apply render_texts.
        -- intros i0 j0 Hi0 Hj0 Heq.
           assert (S i0 = S j0) as [= ->]; [|done].
           apply Hdistinct; simpl; [lia..|].
           by replace (nb + S i0) with (nb + 1 + i0) by lia;
              replace (nb + S j0) with (nb + 1 + j0) by lia.
Qed.

(** X11. The temporary files stay, whether the book is then written or
    the output file cannot be opened: when the names that the host
    gives for [Page1], [Page2], ... are distinct and differ from the
    name of the book, each of them holds, after [_createPDFFile], the
    one page it was exported for; and no file other than these and the
    book is written or changed. *)
Theorem createPDFFile_page_files (base_doc : Doc)
    (doc_list : list (Doc * Page)) (filename : string) (w : World) :
  (∀ i j, i < length doc_list → j < length doc_list →
          page_file base_doc (1 + i) = page_file base_doc (1 + j) → i = j) →
  (∀ i, i < length doc_list → filename ≠ page_file base_doc (1 + i)) →
  ∃ w',
    _createPDFFile base_doc doc_list filename w
    = (if writable filename then Ok tt else Raise OSError, w')
    ∧ (∀ i dp, doc_list !! i = Some dp →
               files w' !! page_file base_doc (1 + i) = Some [render w dp])
    ∧ ∀ f, f ≠ filename →
           (∀ i, i < length doc_list → f ≠ page_file base_doc (1 + i)) →
           files w' !! f = files w !! f.
Proof.
  intros Hdistinct Hbook.
  destruct (export_pages_files base_doc doc_list 1 [] w)
    as (w1 & Hrun & _ & Hframe & Hfiles).
  unfold _createPDFFile. rewrite (bind_ok _ _ _ _ _ Hrun).
  unfold merger_write. destruct (writable filename).
  - eexists. split; [reflexivity|]. simpl. split.
    + intros i dp Hlook. rewrite lookup_insert_ne.
      * by apply Hfiles.
      * apply Hbook. by eapply lookup_lt_Some.
    + intros f Hne Hf. rewrite lookup_insert_ne by done. by apply Hframe.
  - exists w1. split; [done|]. split.
    + intros i dp Hlook. by apply Hfiles.
    + intros f _ Hf. by apply Hframe.
Qed.

(** X14. When the output file cannot be opened for writing,
    [_createPDFFile] raises [OSError], and it does so at its end: every
    page of the list has been shown, exported to its temporary file and
    appended to the merger, in the order of the list; no book is
    written, and a file that is not one of the temporary files is as it
    was. *)
Theorem createPDFFile_unwritable (base_doc : Doc)
    (doc_list : list (Doc * Page)) (filename : string) (w : World) :
  writable filename = false →
  ∃ w' evs,
    _createPDFFile base_doc doc_list filename w = (Raise OSError, w')
    ∧ trace w' = trace w ++ evs
    ∧ omap exported evs
      = imap (λ i dp, (dp.2, page_file base_doc (1 + i))) doc_list
    ∧ omap appended evs
      = imap (λ i _, page_file base_doc (1 + i)) doc_list
    ∧ omap written evs = []
    ∧ Visibility w' = Visibility w ∪ list_to_set doc_list.*2
    ∧ EditableTexts w' = EditableTexts w
    ∧ ∀ f, (∀ i, i < length doc_list → f ≠ page_file base_doc (1 + i)) →
           files w' !! f = files w !! f.
Proof.
  intros Hopen.
  destruct (createPDFFile_run base_doc doc_list filename w)
    as (w1 & evs & Hrun & Htexts & Htrace & He & Ha & Hw & _ & Hpdf).
  rewrite Hopen in Hpdf.
  destruct (export_pages_visibility base_doc doc_list 1 [] w)
    as (r & w2 & evs2 & Hrun2 & _ & Hv & _).
  destruct (export_pages_files base_doc doc_list 1 [] w)
    as (w3 & Hrun3 & _ & Hframe & _).
  rewrite Hrun in Hrun2, Hrun3.
  injection Hrun2 as _ <-. injection Hrun3 as <-.
  by exists w1, evs.
Qed.

End PdfMore.

(** ** The whole command *)

Section ActivatedMore.
Context `{Host}.

(** The loop of [_computeTechDraw], however it ends. *)
Lemma stamp_pages_frame (doc_list : list (Doc * Page)) (templates_data : dict)
    (sheet_field nb_page date_field scale_field page_edited : pyval)
    (w w' : World) (r : outcome unit) :
  stamp_pages doc_list templates_data sheet_field nb_page date_field
    scale_field page_edited w = (r, w') →
  (∀ other, other ∉ doc_list.*2 →
     EditableTexts w' !!! other = EditableTexts w !!! other)
  ∧ Visibility w' = Visibility w
  ∧ files w' = files w.
Proof.
  revert templates_data page_edited w.
  induction doc_list as [|[doc page] doc_list IH];
    intros templates_data page_edited w.
  - simpl. unfold ret. by intros [= <- <-].
  - cbn [stamp_pages]. unfold bind at 1.
    destruct (parse_modified (LastModifiedDate doc)) as [modified|e] eqn:Hdate.
    + destruct (computeEditableFields_texts doc page
                  (<[sheet_field :=
                       PStr (py_str page_edited +:+ " / " +:+ py_str nb_page)]>
                     templates_data)
                  date_field scale_field w modified Hdate)
        as (texts & -> & _).
      set (w1 := mkWorld _ _ _ _).
      assert ((∀ other, other ∉ ((doc, page) :: doc_list).*2 →
                 EditableTexts w1 !!! other = EditableTexts w !!! other)
              ∧ Visibility w1 = Visibility w ∧ files w1 = files w) as Hw1.
      { repeat split. intros other Hother. rewrite fmap_cons in Hother.
        apply not_elem_of_cons in Hother as [Hne _]. unfold w1. simpl.
        by rewrite lookup_total_insert_ne. }
      unfold bind at 1, lift at 1.
      destruct (py_add page_edited (PInt 1)) as [next|e].
      * intros (Hfr & Hv & Hf)%IH. destruct Hw1 as (Hfr1 & Hv1 & Hf1).
        repeat split; [|congruence..].
        intros other Hother. rewrite Hfr, Hfr1; [done..|].
        rewrite fmap_cons in Hother. by apply not_elem_of_cons in Hother as [_ ?].
      * by intros [= <- <-].
    + rewrite (computeEditableFields_fails _ _ _ _ _ _ _ Hdate).
      by intros [= <- <-].
Qed.

Lemma computeTechDraw_frame (doc_list : list (Doc * Page))
    (standard_fields editable_fields : dict) (w w' : World) (r : outcome unit) :
  _computeTechDraw doc_list standard_fields editable_fields w = (r, w') →
  (∀ other, other ∉ doc_list.*2 →
     EditableTexts w' !!! other = EditableTexts w !!! other)
  ∧ Visibility w' = Visibility w
  ∧ files w' = files w.
Proof.
  unfold _computeTechDraw, bind, lift.
  repeat match goal with
         | |- context [match ?o with Ok _ => _ | Raise _ => _ end] =>
             destruct o; [|by intros [= <- <-]]
         end.
  apply stamp_pages_frame.
Qed.

(** [Activated] once the dialog is accepted: what remains is the walk,
    the pass over the pages and the export. *)
Lemma Activated_accepted (depth : nat) (doc : Doc) (f : string)
    (others : list string) (w : World) :
  activeDocument = Some doc →
  dialog_exec = true →
  selectedFiles = f :: others →
  ∃ (sf ef : dict) (filename : string) (evs : list event),
    filename = (if endswith f ".pdf" then f else f +:+ ".pdf")
    ∧ Forall (λ e, phase_of e = UserParameters ∨ phase_of e = BookParameters)
        evs
    ∧ (∃ stating_page nb_after date_field scale_field sheet_field,
         sf !! PStr "Stating_Page" = Some (PInt stating_page)
         ∧ sf !! PStr "Nb_Page_After" = Some (PInt nb_after)
         ∧ sf !! PStr "Date_Field" = Some date_field
         ∧ sf !! PStr "Scale_Field" = Some scale_field
         ∧ sf !! PStr "Sheet_Field" = Some sheet_field)
    ∧ Activated depth w
      = (let* walked :=
           _createTechDrawDocumentList depth
             (os_path_split (FileName doc)).2 (os_path_split (FileName doc)).1
             [] answer_yes in
         _computeTechDraw walked.1 sf ef;;
         _createPDFFile doc walked.1 filename;;
         emit (EvMessageBox "TechBook completed"
                 ("File " +:+ filename +:+ " created."))) (after w evs).
Proof.
  intros Hdoc Hexec Hsel. unfold Activated. rewrite Hdoc.
  destruct (os_path_split (FileName doc)) as [path doc_filename]. simpl.
  rewrite (bind_ok _ _ _ _ _
             (getUserParameters_run path f others w Hexec Hsel)).
  set (filename := if endswith f ".pdf" then f else f +:+ ".pdf").
  assert (filename ≠ EmptyString) as Hname.
  { apply (endswith_nonempty _ ".pdf"); [done|]. unfold filename.
    destruct (endswith f ".pdf") eqn:E; [done|]. apply endswith_app. }
  destruct filename as [|c name] eqn:Hfile; [done|]. rewrite <- Hfile.
  destruct (getBookParameters_typed doc ∅ ∅
              (after w
                 [EvMessageBox "TECHBOOK"
                    "Do you want to iterate recursively over all included subassemblies?";
                  EvFileDialog path
                    (if getNativeFileManagerUsage then false else true)]))
    as (sf & ef & sp & na & df & scf & shf & Hbook & Hfields).
  rewrite (bind_ok _ _ _ _ _ Hbook). rewrite after_after.
  eexists sf, ef, filename, _. split; [done|].
  split; [|split; [by exists sp, na, df, scf, shf|reflexivity]].
  simpl. apply Forall_cons; split; [by left|].
  apply Forall_cons; split; [by left|].
  apply Forall_cons; split; [by right|]. constructor.
Qed.

(** X12. In a run of [Activated] that goes to its end the book, whose
    name ends with ".pdf", holds the pages that the walk has collected,
    in order, each with the texts that its page is left with; no other
    file than the book and the temporary files of the pages is written,
    and the texts of the pages that were not collected are unchanged. *)
Theorem Activated_book (depth : nat) (doc : Doc) (w w' : World) :
  activeDocument = Some doc →
  dialog_exec = true →
  Activated depth w = (Ok tt, w') →
  ∃ doc_list treated filename w0 w1,
    _createTechDrawDocumentList depth
      (os_path_split (FileName doc)).2 (os_path_split (FileName doc)).1
      [] answer_yes w0 = (Ok (doc_list, treated), w1)
    ∧ endswith filename ".pdf" = true
    ∧ files w' !! filename = Some (render w' <$> doc_list)
    ∧ (∀ f, f ≠ filename →
            (∀ i, i < length doc_list → f ≠ page_file doc (1 + i)) →
            files w' !! f = files w !! f)
    ∧ (∀ other, other ∉ doc_list.*2 →
         EditableTexts w' !!! other = EditableTexts w !!! other).
Proof.
  intros Hdoc Hexec.
  destruct selectedFiles as [|f others] eqn:Hsel.
  { unfold Activated. rewrite Hdoc.
    destruct (os_path_split (FileName doc)) as [path doc_filename]. simpl.
    unfold _getUserParameters, bind, emit, lift. by rewrite Hexec, Hsel. }
  destruct (Activated_accepted depth doc f others w Hdoc Hexec Hsel)
    as (sf & ef & filename & evs & Hname & _ & _ & ->).
  unfold bind at 1.
  destruct (createTechDrawDocumentList_emits depth
              (os_path_split (FileName doc)).2 (os_path_split (FileName doc)).1
              [] answer_yes (after w evs)) as (t_walk & Hw2 & _).
  destruct (_createTechDrawDocumentList _ _ _ _ _ _) as [[walked|e] w2]
    eqn:Hwalk; [|done].
  simpl in Hw2. subst w2.
  unfold bind at 1.
  destruct (_computeTechDraw walked.1 sf ef _) as [[[]|e] w3] eqn:Hstamp;
    [|done].
  apply computeTechDraw_frame in Hstamp as (Hfr & _ & Hf3).
  destruct (export_pages_files doc walked.1 1 [] w3)
    as (w4 & Hexport & Ht4 & Hframe & _).
  unfold _createPDFFile. unfold bind at 1. unfold bind at 1.
  rewrite Hexport. unfold merger_write, emit.
  destruct (writable filename); [|done]. intros [= <-].
  exists walked.1, walked.2, filename, (after w evs), (after (after w evs) t_walk).
  split; [by destruct walked|]. split; [|split; [|split]]; simpl.
  - rewrite Hname. destruct (endswith f ".pdf") eqn:E; [done|].
    apply endswith_app.
  - rewrite lookup_insert_eq. simpl. f_equal.
    apply list_fmap_ext. intros _ dp _. unfold render. simpl. by rewrite Ht4.
  - intros f0 Hne Hf0. rewrite lookup_insert_ne by done.
    rewrite Hframe by done. by rewrite Hf3.
  - intros other Hother. rewrite Ht4. by rewrite Hfr.
Qed.

(** X13. When the walk raises, [Activated] raises the same exception
    and nothing is changed but the trace: no text of a page is set and
    no page is exported; the events are those of the questions, of the
    search of the spreadsheet and of the walk. *)
Theorem Activated_walk_fails (depth : nat) (doc : Doc) (f : string)
    (others : list string) (w : World) (e : exn) :
  activeDocument = Some doc →
  dialog_exec = true →
  selectedFiles = f :: others →
  (∀ w0,
     (_createTechDrawDocumentList depth
        (os_path_split (FileName doc)).2 (os_path_split (FileName doc)).1
        [] answer_yes w0).1 = Raise e) →
  ∃ evs,
    Activated depth w = (Raise e, after w evs)
    ∧ Forall (λ ev, phase_of ev ≠ TextFields ∧ phase_of ev ≠ ExportMerge) evs.
Proof.
  intros Hdoc Hexec Hsel Hwalk.
  destruct (Activated_accepted depth doc f others w Hdoc Hexec Hsel)
    as (sf & ef & filename & evs & _ & Hevs & _ & ->).
  unfold bind at 1. specialize (Hwalk (after w evs)).
  destruct (createTechDrawDocumentList_emits depth
              (os_path_split (FileName doc)).2 (os_path_split (FileName doc)).1
              [] answer_yes (after w evs)) as (t_walk & Hw2 & Ht).
  destruct (_createTechDrawDocumentList _ _ _ _ _ _) as [[walked|e'] w2];
    [done|].
  simpl in Hwalk, Hw2. injection Hwalk as ->. subst w2.
  rewrite after_after. exists (evs ++ t_walk). split; [done|].
  apply Forall_app. split.
  - eapply Forall_impl; [exact Hevs|]. intros ev [-> | ->]; by split.
  - eapply Forall_impl; [exact Ht|]. intros ev ->. by split.
Qed.

(** X16. On a project whose references have no cycle, with dates that
    can be read and files whose opening fails with [OSError] only,
    [Activated] goes to its end once a file is selected that can be
    opened for writing, provided the calls may nest deeper than the
    rank of the assembly. *)
Theorem Activated_completes (rank : string → string → nat) (depth : nat)
    (doc : Doc) (f : string) (others : list string) (w : World) :
  activeDocument = Some doc →
  dialog_exec = true →
  selectedFiles = f :: others →
  writable (if endswith f ".pdf" then f else f +:+ ".pdf") = true →
  (∀ name path ob,
     ob ∈ getA2pObjects (path_join path name) →
     isSubassembly ob = true →
     rank (os_path_split (findSourceFileInProject (getA2pSource ob) path)).2
          (os_path_split (findSourceFileInProject (getA2pSource ob) path)).1
     < rank name path) →
  (∀ filename e, openDocument filename = Raise e → e = OSError) →
  (∀ d, ∃ modified, parse_modified (LastModifiedDate d) = Ok modified) →
  rank (os_path_split (FileName doc)).2 (os_path_split (FileName doc)).1
  < depth →
  ∃ w', Activated depth w = (Ok tt, w').
Proof.
  intros Hdoc Hexec Hsel Hopen Hrank Honly Hdates Hdepth.
  destruct (Activated_accepted depth doc f others w Hdoc Hexec Hsel)
    as (sf & ef & filename & evs & Hname & _ & Hfields & ->).
  rewrite <- Hname in Hopen.
  destruct Hfields as (sp & na & df & scf & shf & Hsp & Hna & Hdf & Hscf & Hshf).
  destruct (createTechDrawDocumentList_returns rank Hrank Honly depth
              (os_path_split (FileName doc)).2 (os_path_split (FileName doc)).1
              [] answer_yes (after w evs) Hdepth) as (walked & w2 & Hwalk).
  rewrite (bind_ok _ _ _ _ _ Hwalk).
  destruct (stamp_pages_run walked.1 ef shf
              (PInt (sp + Z.of_nat (length walked.1) + na - 1)) df scf sp w2)
    as (w3 & Hstamp & _).
  { intros d page _. apply Hdates. }
  assert (_computeTechDraw walked.1 sf ef w2 = (Ok tt, w3)) as Hpass.
  { unfold _computeTechDraw, bind, lift, dict_getitem.
    rewrite Hsp, Hna, Hdf, Hscf, Hshf. simpl. exact Hstamp. }
  rewrite (bind_ok _ _ _ _ _ Hpass).
  destruct (createPDFFile_events doc walked.1 filename w3 Hopen)
    as (w4 & t_export & Hpdf & _).
  rewrite (bind_ok _ _ _ _ _ Hpdf). unfold emit. by eexists.
Qed.

(** The events of the loop of [_computeTechDraw], however it ends. *)
Lemma stamp_pages_events (doc_list : list (Doc * Page)) (templates_data : dict)
    (sheet_field nb_page date_field scale_field page_edited : pyval)
    (w w' : World) (r : outcome unit) :
  stamp_pages doc_list templates_data sheet_field nb_page date_field
    scale_field page_edited w = (r, w') →
  ∃ evs, trace w' = trace w ++ evs
         ∧ Forall (λ ev, phase_of ev = TextFields) evs.
Proof.
  revert templates_data page_edited w.
  induction doc_list as [|[doc page] doc_list IH];
    intros templates_data page_edited w.
  - simpl. unfold ret. intros [= <- <-]. exists []. by rewrite app_nil_r.
  - cbn [stamp_pages]. unfold bind at 1.
    destruct (_computeEditableFields _ _ _ _ _ _) as [[[]|e] w1] eqn:Hone.
    + apply computeEditableFields_trace in Hone.
      unfold bind at 1, lift at 1.
      destruct (py_add page_edited (PInt 1)) as [next|e].
      * intros (evs & Htr & Hph)%IH.
        exists ([EvSetEditableTexts page; EvRecompute page] ++ evs).
        split; [by rewrite Htr, Hone, <- app_assoc|].
        apply Forall_app. split; [by repeat constructor|done].
      * intros [= <- <-].
        exists [EvSetEditableTexts page; EvRecompute page].
        split; [done|by repeat constructor].
    + destruct (parse_modified (LastModifiedDate doc)) as [modified|e']
        eqn:Hdate.
      * destruct (computeEditableFields_texts doc page
                    (<[sheet_field :=
                         PStr (py_str page_edited +:+ " / "
                               +:+ py_str nb_page)]> templates_data)
                    date_field scale_field w modified Hdate)
          as (texts & Hok & _).
        rewrite Hok in Hone. done.
      * rewrite (computeEditableFields_fails _ _ _ _ _ _ _ Hdate) in Hone.
        injection Hone as _ <-. intros [= <- <-].
        exists []. by rewrite app_nil_r.
Qed.

Lemma computeTechDraw_events (doc_list : list (Doc * Page))
    (standard_fields editable_fields : dict) (w w' : World) (r : outcome unit) :
  _computeTechDraw doc_list standard_fields editable_fields w = (r, w') →
  ∃ evs, trace w' = trace w ++ evs
         ∧ Forall (λ ev, phase_of ev = TextFields) evs.
Proof.
  unfold _computeTechDraw, bind, lift.
  repeat match goal with
         | |- context [match ?o with Ok _ => _ | Raise _ => _ end] =>
             destruct o;
             [|intros [= <- <-]; exists []; by rewrite app_nil_r]
         end.
  apply stamp_pages_events.
Qed.

(** X17. [Activated] ends normally only when the selected file can be
    opened for writing.  With a name that [open] refuses, the run
    raises an exception, whatever the project: no book is written, and
    the message that announces the book is not shown, the only message
    box of the run being the question on the sub-assemblies. *)
Theorem Activated_unwritable (depth : nat) (doc : Doc) (f : string)
    (others : list string) (w : World) :
  activeDocument = Some doc →
  dialog_exec = true →
  selectedFiles = f :: others →
  writable (if endswith f ".pdf" then f else f +:+ ".pdf") = false →
  ∃ e w' evs,
    Activated depth w = (Raise e, w')
    ∧ trace w'
      = trace w
        ++ [EvMessageBox "TECHBOOK"
              "Do you want to iterate recursively over all included subassemblies?";
            EvFileDialog (os_path_split (FileName doc)).1
              (if getNativeFileManagerUsage then false else true)]
        ++ evs
    ∧ omap written evs = []
    ∧ Forall (λ ev, phase_of ev ≠ UserParameters) evs.
Proof.
  intros Hdoc Hexec Hsel Hopen. unfold Activated. rewrite Hdoc.
  destruct (os_path_split (FileName doc)) as [path doc_filename]. simpl.
  rewrite (bind_ok _ _ _ _ _
             (getUserParameters_run path f others w Hexec Hsel)).
  set (filename := if endswith f ".pdf" then f else f +:+ ".pdf") in *.
  assert (filename ≠ EmptyString) as Hname.
  { apply (endswith_nonempty _ ".pdf"); [done|]. unfold filename.
    destruct (endswith f ".pdf") eqn:E; [done|]. apply endswith_app. }
  destruct filename as [|c name] eqn:Hfile; [done|]. rewrite <- Hfile in *.
  set (w1 := after w _).
  destruct (getBookParameters_typed doc ∅ ∅ w1)
    as (sf & ef & sp & na & df & scf & shf & Hbook & _).
  rewrite (bind_ok _ _ _ _ _ Hbook).
  set (w2 := after w1 _).
  assert (∀ evs : list event,
            Forall (λ ev, phase_of ev = ReferenceWalk ∨ phase_of ev = TextFields
                          ∨ phase_of ev = ExportMerge) evs →
            Forall (λ ev, phase_of ev ≠ UserParameters) evs) as Hnot.
  { intros evs Hevs. eapply Forall_impl; [exact Hevs|].
    intros ev [->|[->| ->]]; done. }
  assert (∀ (P : phase) (evs : list event),
            P ≠ ExportMerge →
            Forall (λ ev, phase_of ev = P) evs → omap written evs = [])
    as Hnone.
  { intros P evs HP. induction 1 as [|ev evs Hev _ IH]; [done|].
    destruct ev; simpl; try done; simpl in Hev; congruence. }
  unfold bind at 1.
  destruct (createTechDrawDocumentList_emits depth doc_filename path []
              answer_yes w2) as (t_walk & Hw3 & Hwalk).
  destruct (_createTechDrawDocumentList _ _ _ _ _ _) as [[walked|e] w3].
  2:{ simpl in Hw3. subst w3.
      exists e, (after w2 t_walk),
        ([EvFindSheets doc INFO_SPREADSHEET_LABEL] ++ t_walk).
      split; [done|]. split; [simpl; by rewrite <- !app_assoc|]. split.
      - rewrite omap_app. simpl. by apply (Hnone ReferenceWalk).
      - apply Forall_app. split; [by repeat constructor|].
        apply Hnot. eapply Forall_impl; [exact Hwalk|]. by left. }
  simpl in Hw3. subst w3.
  unfold bind at 1.
  destruct (_computeTechDraw walked.1 sf ef (after w2 t_walk))
    as [[[]|e] w4] eqn:Hstamp;
    apply computeTechDraw_events in Hstamp as (t_stamp & Htr4 & Hstamp).
  2:{ exists e, w4,
        ([EvFindSheets doc INFO_SPREADSHEET_LABEL] ++ t_walk ++ t_stamp).
      split; [done|]. split; [rewrite Htr4; simpl; by rewrite <- !app_assoc|].
      split.
      - rewrite !omap_app. simpl.
        by rewrite (Hnone ReferenceWalk), (Hnone TextFields).
      - apply Forall_app. split; [by repeat constructor|].
        apply Hnot, Forall_app. split.
        + eapply Forall_impl; [exact Hwalk|]. by left.
        + eapply Forall_impl; [exact Hstamp|]. intros ev ->. by right; left. }
  destruct (createPDFFile_run doc walked.1 filename w4)
    as (w5 & t_export & _ & _ & Htr5 & _ & _ & Hwr & Hexp & Hpdf).
  rewrite Hopen in Hpdf. rewrite (bind_raise _ _ _ _ _ Hpdf).
  exists OSError, w5,
    ([EvFindSheets doc INFO_SPREADSHEET_LABEL] ++ t_walk ++ t_stamp
     ++ t_export).
  split; [done|].
  split; [rewrite Htr5, Htr4; simpl; by rewrite <- !app_assoc|]. split.
  - rewrite !omap_app. simpl.
    by rewrite (Hnone ReferenceWalk), (Hnone TextFields), Hwr.
  - apply Forall_app. split; [by repeat constructor|].
    apply Hnot, Forall_app. split; [|apply Forall_app; split].
    + eapply Forall_impl; [exact Hwalk|]. by left.
    + eapply Forall_impl; [exact Hstamp|]. intros ev ->. by right; left.
    + eapply Forall_impl; [exact Hexp|]. intros ev ->. by right; right.
Qed.

End ActivatedMore.

(** ** The properties on the concrete projects *)

Lemma demo_split_last_app (path name : string) :
  Demo.split_last name = None →
  Demo.split_last (path +:+ "/" +:+ name) = Some (path, name).
Proof.
  intros Hname. induction path as [|c path IH].
  - change (EmptyString +:+ "/" +:+ name) with (String "/" name).
    cbn [Demo.split_last]. by rewrite Hname.
  - change (String c path +:+ "/" +:+ name)
      with (String c (path +:+ "/" +:+ name)).
    cbn [Demo.split_last]. by rewrite IH.
Qed.

Lemma demo_rank_decreases (name path : string) (ob : A2pObject) :
  ob ∈ @getA2pObjects (Demo.host true "/out/book")
         (@path_join (Demo.host true "/out/book") path name) →
  isSubassembly ob = true →
  Variants.rank
    (@os_path_split (Demo.host true "/out/book")
       (@findSourceFileInProject (Demo.host true "/out/book")
          (getA2pSource ob) path)).2
    (@os_path_split (Demo.host true "/out/book")
       (@findSourceFileInProject (Demo.host true "/out/book")
          (getA2pSource ob) path)).1
  < Variants.rank name path.
Proof.
  cbn [getA2pObjects path_join os_path_split findSourceFileInProject
       Demo.host Demo.host_of].
  unfold Demo.objects_of, Variants.rank.
  destruct (String.eqb (Demo.join_path path name) "/proj/master.FCStd").
  - intros Hin Hsub.
    assert (ob = Build_A2pObject "sub.FCStd" true) as ->.
    { rewrite !elem_of_cons, elem_of_nil in Hin.
      destruct Hin as [->|[->|[->|[]]]]; [done|discriminate Hsub..]. }
    cbn [getA2pSource]. unfold Demo.split_path.
    rewrite demo_split_last_app by done. cbn [fst snd].
    destruct (String.eqb_spec (Demo.join_path path "sub.FCStd")
                "/proj/master.FCStd") as [Heq|_]; [|lia].
    exfalso. change (Demo.join_path path "sub.FCStd")
      with (path +:+ "/sub.FCStd") in Heq.
    pose proof (endswith_app path "/sub.FCStd") as Hend.
    rewrite Heq in Hend. by vm_compute in Hend.
  - destruct (String.eqb (Demo.join_path path name) "/proj/sub.FCStd").
    + intros Hin Hsub. rewrite !elem_of_cons, elem_of_nil in Hin.
      destruct Hin as [->|[]]. discriminate Hsub.
    + intros Hin. by rewrite elem_of_nil in Hin.
Qed.

Lemma demo_only_OSError (accept : bool) (selected filename : string) (e : exn) :
  @openDocument (Demo.host accept selected) filename = Raise e → e = OSError.
Proof.
  cbn [openDocument Demo.host Demo.host_of]. unfold Demo.open_file.
  repeat destruct (String.eqb _ _); congruence.
Qed.

Lemma cycle_only_OSError (filename : string) (e : exn) :
  @openDocument Cycle.host filename = Raise e → e = OSError.
Proof.
  cbn [openDocument Cycle.host]. unfold Cycle.open_file.
  repeat destruct (String.eqb _ _); congruence.
Qed.

Lemma demo_dates_parse (accept : bool) (selected : string) (doc : Doc) :
  ∃ modified,
    @parse_modified (Demo.host accept selected)
      (@LastModifiedDate (Demo.host accept selected) doc) = Ok modified.
Proof. destruct doc as [|[|doc]]; eexists; vm_compute; reflexivity. Qed.

Lemma demo_page_files_distinct (i j : nat) :
  i < 3 → j < 3 →
  @page_file (Demo.host true "/out/book") 0 (1 + i)
  = @page_file (Demo.host true "/out/book") 0 (1 + j) →
  i = j.
Proof.
  intros Hi Hj.
  destruct i as [|[|[|i]]]; [| | |lia];
    (destruct j as [|[|[|j]]]; [| | |lia]);
    intros Heq; try reflexivity; vm_compute in Heq; discriminate Heq.
Qed.


Lemma createTechDrawDocumentList_not_recursive_witness :
  ∃ r evs,
    @_createTechDrawDocumentList Cycle.host 1 "a.FCStd" "/proj" [] false
      Demo.world = (Ok r, after Demo.world evs)
    ∧ omap references_read evs = ["/proj/a.FCStd"]
    ∧ omap opened evs = ["/proj/a.FCStd"; "/proj/b.FCStd"].
Proof.
  destruct (@createTechDrawDocumentList_not_recursive Cycle.host 0 "a.FCStd"
              "/proj" [] Demo.world cycle_only_OSError)
    as (r & evs & Hrun & Hread & Hopened & _).
  by exists r, evs.
Defined.


Lemma createTechDrawDocumentList_once_witness :
  NoDup ([] : list Doc)
  ∧ ∃ new,
      [0; 1; 2] = [] ++ new ∧ NoDup [0; 1; 2]
      ∧ Demo.doc_list = @pages_of (Demo.host true "/out/book") new.
Proof.
  split; [constructor|].
  apply (@createTechDrawDocumentList_once (Demo.host true "/out/book") 2
           "master.FCStd" "/proj" [] true Demo.world
           (@_createTechDrawDocumentList (Demo.host true "/out/book") 2
              "master.FCStd" "/proj" [] true Demo.world).2
           (Demo.doc_list, [0; 1; 2])).
  - constructor.
  - vm_compute. reflexivity.
Defined.


Lemma createTechDrawDocumentList_acyclic_witness :
  Variants.rank "master.FCStd" "/proj" < 2
  ∧ ∃ r w',
      @_createTechDrawDocumentList (Demo.host true "/out/book") 2
        "master.FCStd" "/proj" [] true Demo.world = (Ok r, w').
Proof.
  assert (Variants.rank "master.FCStd" "/proj" < 2) as Hrank
    by (vm_compute; lia).
  split; [exact Hrank|].
  apply (@createTechDrawDocumentList_acyclic (Demo.host true "/out/book")
           Variants.rank 2 "master.FCStd" "/proj" [] true Demo.world).
  - apply demo_rank_decreases.
  - apply demo_only_OSError.
  - exact Hrank.
Defined.


Lemma getDocumentTechDraw_twice_witness :
  @_getDocumentTechDraw (Demo.host true "/out/book") "/proj/sub.FCStd" [0]
    Demo.world
  = (Ok ([(1, 20)], [0; 1]), after Demo.world [EvOpenDocument "/proj/sub.FCStd"])
  ∧ ∃ w2,
      @_getDocumentTechDraw (Demo.host true "/out/book") "/proj/sub.FCStd"
        [0; 1] (after Demo.world [EvOpenDocument "/proj/sub.FCStd"])
      = (Ok ([], [0; 1]), w2).
Proof.
  assert (@_getDocumentTechDraw (Demo.host true "/out/book") "/proj/sub.FCStd"
            [0] Demo.world
          = (Ok ([(1, 20)], [0; 1]),
             after Demo.world [EvOpenDocument "/proj/sub.FCStd"])) as Hrun
    by (vm_compute; reflexivity).
  split; [exact Hrun|].
  apply (@getDocumentTechDraw_twice (Demo.host true "/out/book")
           "/proj/sub.FCStd" [0] Demo.world _ ([(1, 20)], [0; 1]) Hrun).
Defined.


Lemma createTechDrawDocumentList_own_pages_first_witness :
  @openDocument (Demo.host true "/out/book") "/proj/master.FCStd" = Ok 0
  ∧ ∃ others,
      [0; 1; 2] = [] ++ 0 :: others
      ∧ Demo.doc_list
        = ((λ page, (0, page))
             <$> @findDrawPages (Demo.host true "/out/book") 0)
          ++ @pages_of (Demo.host true "/out/book") others.
Proof.
  split; [reflexivity|].
  apply (@createTechDrawDocumentList_own_pages_first
           (Demo.host true "/out/book") 2 "master.FCStd" "/proj" [] true
           Demo.world
           (@_createTechDrawDocumentList (Demo.host true "/out/book") 2
              "master.FCStd" "/proj" [] true Demo.world).2
           (Demo.doc_list, [0; 1; 2]) 0).
  - reflexivity.
  - apply not_elem_of_nil.
  - vm_compute. reflexivity.
Defined.


Lemma computeTechDraw_stops_at_bad_date_witness :
  @parse_modified Variants.undated (@LastModifiedDate Variants.undated 1)
  = Raise IndexError
  ∧ ∃ w',
      @_computeTechDraw Variants.undated ([(0, 10); (0, 11)] ++ [(1, 20)])
        Demo.fields ∅ Demo.world = (Raise IndexError, w')
      ∧ trace w'
        = trace Demo.world
          ++ [EvSetEditableTexts 10; EvRecompute 10;
              EvSetEditableTexts 11; EvRecompute 11]
      ∧ EditableTexts w' !!! 20 = EditableTexts Demo.world !!! 20.
Proof.
  split; [reflexivity|].
  destruct (@computeTechDraw_stops_at_bad_date Variants.undated
              [(0, 10); (0, 11)] [] 1 20 Demo.fields ∅ 3 0
              (PStr "FC-DATE") (PStr "FC-SC") (PStr "SHEET") Demo.world
              IndexError)
    as (w' & Hrun & Htrace & Hframe & _);
    try (vm_compute; reflexivity).
  - intros d p Hin. rewrite !elem_of_cons, elem_of_nil in Hin.
    destruct Hin as [[= -> _]|[[= -> _]|[]]]; eexists; vm_compute; reflexivity.
  - exists w'. split; [exact Hrun|]. split; [exact Htrace|].
    apply Hframe. rewrite !fmap_cons, !not_elem_of_cons. simpl.
    repeat split; [lia..|apply not_elem_of_nil].
Defined.


Lemma computeEditableFields_unreadable_date_witness :
  @LastModifiedDate Variants.undated 1 = EmptyString
  ∧ @_computeEditableFields Variants.undated 1 20 ∅ (PStr "FC-DATE")
      (PStr "FC-SC") Demo.world = (Raise IndexError, Demo.world).
Proof.
  split; [reflexivity|].
  apply (@computeEditableFields_unreadable_date Variants.undated 1 20 ∅
           (PStr "FC-DATE") (PStr "FC-SC") Demo.world IndexError).
  left. split; reflexivity.
Defined.


Lemma createPDFFile_page_files_witness :
  ∃ w',
    @_createPDFFile (Demo.host true "/out/book") 0 Demo.doc_list
      "/out/book.pdf" Demo.world = (Ok tt, w')
    ∧ files w' !! "/tmp/Page3.pdf" = Some [render Demo.world (1, 20)]
    ∧ files w' !! "/proj/master.FCStd" = files Demo.world !! "/proj/master.FCStd".
Proof.
  destruct (@createPDFFile_page_files (Demo.host true "/out/book") 0
              Demo.doc_list "/out/book.pdf" Demo.world)
    as (w' & Hrun & Hfiles & Hframe).
  - apply demo_page_files_distinct.
  - intros i Hi. destruct i as [|[|[|i]]]; [| | |simpl in Hi; lia];
      vm_compute; discriminate.
  - exists w'. split; [exact Hrun|]. split.
    + apply (Hfiles 2 (1, 20)). reflexivity.
    + apply Hframe; [discriminate|].
      intros i Hi. destruct i as [|[|[|i]]]; [| | |simpl in Hi; lia];
        vm_compute; discriminate.
Defined.

Lemma createPDFFile_unwritable_witness :
  @writable (Demo.host true "/nonexistent/book") "/nonexistent/book.pdf"
  = false
  ∧ ∃ w' evs,
      @_createPDFFile (Demo.host true "/nonexistent/book") 0 Demo.doc_list
        "/nonexistent/book.pdf" Demo.world = (Raise OSError, w')
      ∧ trace w' = trace Demo.world ++ evs
      ∧ omap exported evs
        = [(10, "/tmp/Page1.pdf"); (11, "/tmp/Page2.pdf");
           (20, "/tmp/Page3.pdf")]
      ∧ omap appended evs
        = ["/tmp/Page1.pdf"; "/tmp/Page2.pdf"; "/tmp/Page3.pdf"]
      ∧ omap written evs = []
      ∧ Visibility w' = Visibility Demo.world ∪ list_to_set Demo.doc_list.*2
      ∧ EditableTexts w' = EditableTexts Demo.world
      ∧ ∀ f, (∀ i, i < length Demo.doc_list →
                   f ≠ @page_file (Demo.host true "/nonexistent/book") 0
                         (1 + i)) →
             files w' !! f = files Demo.world !! f.
Proof.
  split; [reflexivity|].
  apply (@createPDFFile_unwritable (Demo.host true "/nonexistent/book") 0
           Demo.doc_list "/nonexistent/book.pdf" Demo.world).
  reflexivity.
Defined.


Lemma Activated_book_witness :
  (@Activated (Demo.host true "/out/book") 5 Demo.world).1 = Ok tt
  ∧ ∃ doc_list treated filename w0 w1,
      @_createTechDrawDocumentList (Demo.host true "/out/book") 5
        "master.FCStd" "/proj" [] true w0 = (Ok (doc_list, treated), w1)
      ∧ endswith filename ".pdf" = true
      ∧ files (@Activated (Demo.host true "/out/book") 5 Demo.world).2
          !! filename
        = Some (render (@Activated (Demo.host true "/out/book") 5 Demo.world).2
                  <$> doc_list).
Proof.
  split; [vm_compute; reflexivity|].
  destruct (@Activated_book (Demo.host true "/out/book") 5 0 Demo.world
              (@Activated (Demo.host true "/out/book") 5 Demo.world).2)
    as (doc_list & treated & filename & w0 & w1 & Hwalk & Hend & Hfile & _).
  - reflexivity.
  - reflexivity.
  - vm_compute. reflexivity.
  - exists doc_list, treated, filename, w0, w1.
    split; [exact Hwalk|]. split; [exact Hend|exact Hfile].
Defined.


Lemma Activated_walk_fails_witness :
  (∀ w0,
     (@_createTechDrawDocumentList Cycle.host 3 "a.FCStd" "/proj" [] true
        w0).1 = Raise RecursionError)
  ∧ ∃ evs,
      @Activated Cycle.host 3 Demo.world
      = (Raise RecursionError, after Demo.world evs)
      ∧ Forall (λ ev, phase_of ev ≠ TextFields ∧ phase_of ev ≠ ExportMerge)
          evs.
Proof.
  assert (∀ w0,
            (@_createTechDrawDocumentList Cycle.host 3 "a.FCStd" "/proj" []
               true w0).1 = Raise RecursionError) as Hwalk
    by (intros w0; vm_compute; reflexivity).
  split; [exact Hwalk|].
  apply (@Activated_walk_fails Cycle.host 3 0 "/out/book.pdf" [] Demo.world
           RecursionError); first [exact Hwalk|reflexivity].
Defined.




Lemma Activated_completes_witness :
  Variants.rank
    (@os_path_split (Demo.host true "/out/book")
       (@FileName (Demo.host true "/out/book") 0)).2
    (@os_path_split (Demo.host true "/out/book")
       (@FileName (Demo.host true "/out/book") 0)).1 < 2
  ∧ @writable (Demo.host true "/out/book") "/out/book.pdf" = true
  ∧ ∃ w', @Activated (Demo.host true "/out/book") 2 Demo.world = (Ok tt, w').
Proof.
  assert (Variants.rank
            (@os_path_split (Demo.host true "/out/book")
               (@FileName (Demo.host true "/out/book") 0)).2
            (@os_path_split (Demo.host true "/out/book")
               (@FileName (Demo.host true "/out/book") 0)).1 < 2) as Hrank
    by (vm_compute; lia).
  split; [exact Hrank|]. split; [reflexivity|].
  apply (@Activated_completes (Demo.host true "/out/book") Variants.rank 2 0
           "/out/book" [] Demo.world); try reflexivity.
  - apply demo_rank_decreases.
  - apply demo_only_OSError.
  - apply demo_dates_parse.
  - exact Hrank.
Defined.


Lemma Activated_unwritable_witness :
  @writable (Demo.host true "/nonexistent/book") "/nonexistent/book.pdf"
  = false
  ∧ ∃ e w' evs,
      @Activated (Demo.host true "/nonexistent/book") 5 Demo.world
      = (Raise e, w')
      ∧ e = OSError
      ∧ trace w'
        = trace Demo.world
          ++ [EvMessageBox "TECHBOOK"
                "Do you want to iterate recursively over all included subassemblies?";
              EvFileDialog "/proj" true]
          ++ evs
      ∧ omap written evs = []
      ∧ Forall (λ ev, phase_of ev ≠ UserParameters) evs.
Proof.
  split; [reflexivity|].
  destruct (@Activated_unwritable (Demo.host true "/nonexistent/book") 5 0
              "/nonexistent/book" [] Demo.world)
    as (e & w' & evs & Hrun & Hrest); try reflexivity.
  exists e, w', evs. split; [exact Hrun|]. split; [|exact Hrest].
  clear - Hrun. vm_compute in Hrun. by injection Hrun as <- _.
Defined.
